(** * Datadog provider: monitor config policy resource and SLO data sources

    A shallow embedding of
    - [datadog/resource_datadog_monitor_config_policy.go],
    - [datadog/data_source_datadog_service_level_objectives.go] (the variant
      with the single ["query"] attribute), and
    - the variant of the SLO data source with the ["q"], ["ids"],
      ["name_query"], ["tags_query"], ["metrics_query"] and
      ["error_on_no_results"] attributes,
    followed by the properties of these functions.

    Go code that panics (a failed type assertion, a nil dereference) is
    modelled with an explicit [Panic] outcome; calls to the remote API are
    recorded in a trace so that "no call was issued" can be stated. *)

From Stdlib Require Import ZArith Lia Ascii.
From stdpp Require Import gmap strings list.

Set Warnings "-register-all".

Local Open Scope string_scope.
Local Open Scope Z_scope.
Local Open Scope list_scope.

(** ** Dynamic values ([interface{}]) and the resource data store *)

(** The values the code reads with [d.Get] / [d.GetOk] and narrows with a type
    assertion, and the values it writes back with [d.Set]. *)
Inductive value : Type :=
  | VNil
  | VString (s : string)
  | VBool (b : bool)
  | VInt (z : Z)
  | VList (l : list value)
  | VMap (m : list (string * value)).

(** [schema.TypeString], [schema.TypeBool], [schema.TypeInt], [schema.TypeList]. *)
Inductive ValueType : Type := TypeString | TypeBool | TypeInt | TypeList.

Definition zero_value (t : ValueType) : value :=
  match t with
  | TypeString => VString ""
  | TypeBool => VBool false
  | TypeInt => VInt 0
  | TypeList => VList []
  end.

(** A value is "zero" when it equals the zero value of its type; this is what
    [GetOk] tests. *)
Definition is_zero (v : value) : bool :=
  match v with
  | VNil => true
  | VString s => bool_decide (s = "")
  | VBool b => negb b
  | VInt z => bool_decide (z = 0)
  | VList l => match l with [] => true | _ => false end
  | VMap m => match m with [] => true | _ => false end
  end.

(** [schema.ResourceData] as the code sees it: values looked up by key, the
    types of the keys the schema declares, and the identity. *)
Record ResourceData : Type := mkResourceData {
  rd_values : gmap string value;
  rd_schema : gmap string ValueType;
  rd_id : string
}.

(** [d.Get(key)]: the value, or the zero value of the key's type when nothing
    is set, or the nil interface when the schema does not know the key. *)
Definition Get (d : ResourceData) (key : string) : value :=
  match rd_values d !! key with
  | Some v => v
  | None =>
      match rd_schema d !! key with
      | Some t => zero_value t
      | None => VNil
      end
  end.

(** [d.GetOk(key)]: the value and whether the key has been set to a non-zero
    value. *)
Definition GetOk (d : ResourceData) (key : string) : value * bool :=
  match rd_values d !! key with
  | Some v => (v, negb (is_zero v))
  | None => (Get d key, false)
  end.

(** Resource data hold values only under keys their schema declares. *)
Definition in_schema (d : ResourceData) : bool :=
  forallb (fun kv => bool_decide (is_Some (rd_schema d !! fst kv)))
    (map_to_list (rd_values d)).

(** [d.Id()], [d.SetId(id)]. *)
Definition Id (d : ResourceData) : string := rd_id d.

Definition SetId (id : string) (d : ResourceData) : ResourceData :=
  {| rd_values := rd_values d; rd_schema := rd_schema d; rd_id := id |}.

(** Storing a value under a key: what [d.Set(key, v)] does with a value that
    has the shape the schema declares for the key. *)
Definition Set_ (key : string) (v : value) (d : ResourceData) : ResourceData :=
  {| rd_values := <[key := v]> (rd_values d);
     rd_schema := rd_schema d;
     rd_id := rd_id d |}.

(** What a schema declares for a key: [schema.TypeString], [schema.TypeBool],
    [schema.TypeInt], a [schema.TypeList] of elements, and a nested block
    ([Elem: &schema.Resource]) with keys of its own. *)
Inductive Shape : Type :=
  | ShString
  | ShBool
  | ShInt
  | ShList (elem : Shape)
  | ShResource (fields : list (string * Shape)).

Fixpoint field_shape (key : string) (fields : list (string * Shape)) : option Shape :=
  match fields with
  | [] => None
  | (k, sh) :: rest => if String.eqb k key then Some sh else field_shape key rest
  end.

(** Whether a value of the kinds this code writes (strings, booleans, lists
    and maps) is accepted where the schema declares [sh]: a scalar of the
    declared type, a list of conforming elements, a map whose keys the block
    declares, each with a conforming value. *)
Fixpoint conforms (v : value) (sh : Shape) {struct v} : bool :=
  match v, sh with
  | VString _, ShString => true
  | VBool _, ShBool => true
  | VInt _, ShInt => true
  | VList l, ShList elem => forallb (fun x => conforms x elem) l
  | VMap m, ShResource fields =>
      forallb (fun kv => match kv with
                         | (k, x) => match field_shape k fields with
                                     | Some sh' => conforms x sh'
                                     | None => false
                                     end
                         end) m
  | _, _ => false
  end.

(** [d.Set(key, v)] under a schema: the value is stored when it conforms to
    what the schema declares for the key; otherwise an error is returned and
    the resource data read as before. *)
Definition Set_in (schema : list (string * Shape)) (key : string) (v : value)
    (d : ResourceData) : option string * ResourceData :=
  match field_shape key schema with
  | Some sh =>
      if conforms v sh then (None, Set_ key v d)
      else (Some (key +:+ ": the value does not have the type of the schema"), d)
  | None => (Some ("Invalid address to set: " +:+ key), d)
  end.

(** ** Diagnostics ([diag.Diagnostics]) *)

Inductive Severity : Type := Error | Warning.

Record Diagnostic : Type := mkDiagnostic {
  diag_Severity : Severity;
  diag_Summary : string;
  diag_Detail : string
}.

Definition Diagnostics : Type := list Diagnostic.

Definition is_error (dg : Diagnostic) : bool :=
  match diag_Severity dg with Error => true | Warning => false end.

(** [diags.HasError()] *)
Definition HasError (diags : Diagnostics) : bool := existsb is_error diags.

(** Go errors carry a message. *)
Definition error : Type := string.

(** [diag.FromErr(err)] and [diag.Errorf(msg)]: one diagnostic of severity
    [Error] whose summary is the message. *)
Definition FromErr (err : error) : Diagnostics := [mkDiagnostic Error err ""].
Definition Errorf (msg : string) : Diagnostics := [mkDiagnostic Error msg ""].

(** The HTTP response object of an API call; only the status code is read. *)
Record HttpResponse : Type := mkHttpResponse { StatusCode : Z }.

(** Modelled from the spec: [utils.TranslateClientErrorDiag] is not part of the
    files embedded here.  It accepts a client-side error, an optional HTTP
    response and a context string and returns a structured, host-displayable
    diagnostic carrying the original error and the context. *)
Definition TranslateClientErrorDiag (err : error) (httpresp : option HttpResponse)
    (msg : string) : Diagnostics :=
  [mkDiagnostic Error (msg +:+ ": " +:+ err) ""].

(** Modelled from the spec: [utils.CheckForUnparsed] is not part of the files
    embedded here.  It accepts any decoded API object and returns an error if
    the decoder observed fields it could not map.  The objects of the API
    client record such fields in their [UnparsedObject] members; [unparsed]
    says whether an object (or an object nested in it) holds one. *)
Class Unparsed (A : Type) : Type := unparsed : A -> bool.

Definition CheckForUnparsed {A : Type} `{Unparsed A} (v : A) : option error :=
  if unparsed v then Some "object contains unparsed element" else None.

(** The raw, undecoded part of an API object; [None] when everything was
    mapped. *)
Definition UnparsedObject : Type := option string.

Definition has_unparsed (u : UnparsedObject) : bool :=
  match u with Some _ => true | None => false end.

(** ** The API client's data model ([datadogV2]: monitor config policies) *)

(** [type MonitorConfigPolicyType string] with its single allowed value. *)
Definition MonitorConfigPolicyType : Type := string.
Definition MONITORCONFIGPOLICYTYPE_TAG : MonitorConfigPolicyType := "tag".

(** [NewMonitorConfigPolicyTypeFromValue]: a pointer to the value when it is
    an allowed one, otherwise a nil pointer and an error. *)
Definition NewMonitorConfigPolicyTypeFromValue (v : string)
    : option MonitorConfigPolicyType * option error :=
  if decide (v = MONITORCONFIGPOLICYTYPE_TAG) then (Some v, None)
  else (None, Some ("invalid value '" +:+ v +:+ "' for MonitorConfigPolicyType")).

(** Modelled from the spec: [validators.ValidateEnumValue] is not part of the
    files embedded here.  It is the enum-validation helper that, given a value
    and a "parse enum from string" constructor, rejects unrecognized enum
    literals at configuration-validation time. *)
Definition ValidateEnumValue {T : Type} (newEnum : string -> option T * option error)
    (v : value) : Diagnostics :=
  match v with
  | VString s =>
      match snd (newEnum s) with
      | Some err => FromErr err
      | None => []
      end
  | _ => Errorf "expected a string"
  end.

Inductive MonitorConfigPolicyResourceType : Type :=
  | MONITORCONFIGPOLICYRESOURCETYPE_MONITOR_CONFIG_POLICY.

(** Create side: all three members are required (plain values). *)
Record MonitorConfigPolicyTagPolicyCreateRequest : Type := {
  tpc_TagKey : string;
  tpc_TagKeyRequired : bool;
  tpc_ValidTagValues : list string;
  tpc_UnparsedObject : UnparsedObject
}.

Record MonitorConfigPolicyPolicyCreateRequest : Type := {
  pc_MonitorConfigPolicyTagPolicyCreateRequest :
    option MonitorConfigPolicyTagPolicyCreateRequest;
  pc_UnparsedObject : UnparsedObject
}.

Record MonitorConfigPolicyAttributeCreateRequest : Type := {
  ac_Policy : MonitorConfigPolicyPolicyCreateRequest;
  ac_PolicyType : MonitorConfigPolicyType;
  ac_UnparsedObject : UnparsedObject
}.

Record MonitorConfigPolicyCreateData : Type := {
  cd_Attributes : MonitorConfigPolicyAttributeCreateRequest;
  cd_Type : MonitorConfigPolicyResourceType;
  cd_UnparsedObject : UnparsedObject
}.

Record MonitorConfigPolicyCreateRequest : Type := {
  cr_Data : MonitorConfigPolicyCreateData;
  cr_UnparsedObject : UnparsedObject
}.

(** Edit and response side: the tag policy's members are optional (pointers;
    a nil slice for the values). *)
Record MonitorConfigPolicyTagPolicy : Type := {
  tp_TagKey : option string;
  tp_TagKeyRequired : option bool;
  tp_ValidTagValues : option (list string);
  tp_UnparsedObject : UnparsedObject
}.

Record MonitorConfigPolicyPolicy : Type := {
  pp_MonitorConfigPolicyTagPolicy : option MonitorConfigPolicyTagPolicy;
  pp_UnparsedObject : UnparsedObject
}.

Record MonitorConfigPolicyAttributeEditRequest : Type := {
  ae_Policy : MonitorConfigPolicyPolicy;
  ae_PolicyType : MonitorConfigPolicyType;
  ae_UnparsedObject : UnparsedObject
}.

Record MonitorConfigPolicyEditData : Type := {
  ed_Attributes : MonitorConfigPolicyAttributeEditRequest;
  ed_Id : string;
  ed_Type : MonitorConfigPolicyResourceType;
  ed_UnparsedObject : UnparsedObject
}.

Record MonitorConfigPolicyEditRequest : Type := {
  er_Data : MonitorConfigPolicyEditData;
  er_UnparsedObject : UnparsedObject
}.

Record MonitorConfigPolicyAttributeResponse : Type := {
  ar_Policy : option MonitorConfigPolicyPolicy;
  ar_PolicyType : option MonitorConfigPolicyType;
  ar_UnparsedObject : UnparsedObject
}.

Record MonitorConfigPolicyResponseData : Type := {
  rsd_Attributes : option MonitorConfigPolicyAttributeResponse;
  rsd_Id : option string;
  rsd_UnparsedObject : UnparsedObject
}.

Record MonitorConfigPolicyResponse : Type := {
  rs_Data : option MonitorConfigPolicyResponseData;
  rs_UnparsedObject : UnparsedObject
}.

(** The constructors of the client. *)
Definition NewMonitorConfigPolicyTagPolicy : MonitorConfigPolicyTagPolicy :=
  {| tp_TagKey := None; tp_TagKeyRequired := None; tp_ValidTagValues := None;
     tp_UnparsedObject := None |}.

Definition SetTagKey (v : string) (o : MonitorConfigPolicyTagPolicy)
    : MonitorConfigPolicyTagPolicy :=
  {| tp_TagKey := Some v; tp_TagKeyRequired := tp_TagKeyRequired o;
     tp_ValidTagValues := tp_ValidTagValues o;
     tp_UnparsedObject := tp_UnparsedObject o |}.

Definition SetTagKeyRequired (v : bool) (o : MonitorConfigPolicyTagPolicy)
    : MonitorConfigPolicyTagPolicy :=
  {| tp_TagKey := tp_TagKey o; tp_TagKeyRequired := Some v;
     tp_ValidTagValues := tp_ValidTagValues o;
     tp_UnparsedObject := tp_UnparsedObject o |}.

Definition NewMonitorConfigPolicyCreateRequest (data : MonitorConfigPolicyCreateData)
    : MonitorConfigPolicyCreateRequest :=
  {| cr_Data := data; cr_UnparsedObject := None |}.

Definition NewMonitorConfigPolicyEditRequest (data : MonitorConfigPolicyEditData)
    : MonitorConfigPolicyEditRequest :=
  {| er_Data := data; er_UnparsedObject := None |}.

(** The nil-safe getters of the client: the zero value for a nil member. *)
Definition GetTagKey (o : option MonitorConfigPolicyTagPolicy) : string :=
  match o with Some p => default "" (tp_TagKey p) | None => "" end.
Definition GetTagKeyRequired (o : option MonitorConfigPolicyTagPolicy) : bool :=
  match o with Some p => default false (tp_TagKeyRequired p) | None => false end.
Definition GetValidTagValues (o : option MonitorConfigPolicyTagPolicy) : list string :=
  match o with Some p => default [] (tp_ValidTagValues p) | None => [] end.

Definition zero_AttributeResponse : MonitorConfigPolicyAttributeResponse :=
  {| ar_Policy := None; ar_PolicyType := None; ar_UnparsedObject := None |}.

Definition GetId (m : option MonitorConfigPolicyResponseData) : string :=
  match m with Some r => default "" (rsd_Id r) | None => "" end.
Definition GetAttributes (m : option MonitorConfigPolicyResponseData)
    : MonitorConfigPolicyAttributeResponse :=
  match m with
  | Some r => default zero_AttributeResponse (rsd_Attributes r)
  | None => zero_AttributeResponse
  end.
Definition GetPolicyType (a : MonitorConfigPolicyAttributeResponse)
    : MonitorConfigPolicyType :=
  default "" (ar_PolicyType a).

(** Which objects hold unparsed members. *)
#[export] Instance unparsed_option {A : Type} `{Unparsed A} : Unparsed (option A) :=
  fun o => match o with Some a => unparsed a | None => false end.

#[export] Instance unparsed_TagPolicyCreateRequest
    : Unparsed MonitorConfigPolicyTagPolicyCreateRequest :=
  fun o => has_unparsed (tpc_UnparsedObject o).
#[export] Instance unparsed_PolicyCreateRequest
    : Unparsed MonitorConfigPolicyPolicyCreateRequest :=
  fun o => has_unparsed (pc_UnparsedObject o)
           || unparsed (pc_MonitorConfigPolicyTagPolicyCreateRequest o).
#[export] Instance unparsed_AttributeCreateRequest
    : Unparsed MonitorConfigPolicyAttributeCreateRequest :=
  fun o => has_unparsed (ac_UnparsedObject o) || unparsed (ac_Policy o).
#[export] Instance unparsed_CreateData : Unparsed MonitorConfigPolicyCreateData :=
  fun o => has_unparsed (cd_UnparsedObject o) || unparsed (cd_Attributes o).
#[export] Instance unparsed_CreateRequest : Unparsed MonitorConfigPolicyCreateRequest :=
  fun o => has_unparsed (cr_UnparsedObject o) || unparsed (cr_Data o).

#[export] Instance unparsed_TagPolicy : Unparsed MonitorConfigPolicyTagPolicy :=
  fun o => has_unparsed (tp_UnparsedObject o).
#[export] Instance unparsed_Policy : Unparsed MonitorConfigPolicyPolicy :=
  fun o => has_unparsed (pp_UnparsedObject o)
           || unparsed (pp_MonitorConfigPolicyTagPolicy o).
#[export] Instance unparsed_AttributeResponse
    : Unparsed MonitorConfigPolicyAttributeResponse :=
  fun o => has_unparsed (ar_UnparsedObject o) || unparsed (ar_Policy o).
#[export] Instance unparsed_ResponseData : Unparsed MonitorConfigPolicyResponseData :=
  fun o => has_unparsed (rsd_UnparsedObject o) || unparsed (rsd_Attributes o).
#[export] Instance unparsed_Response : Unparsed MonitorConfigPolicyResponse :=
  fun o => has_unparsed (rs_UnparsedObject o) || unparsed (rs_Data o).

(** ** The API client's data model ([datadogV1]: service level objectives) *)

(** [SearchSLOOptionalParameters] and its [With...] setters. *)
Record SearchSLOOptionalParameters : Type := {
  sp_Query : option string;
  sp_PageSize : option Z;
  sp_PageNumber : option Z
}.

Definition NewSearchSLOOptionalParameters : SearchSLOOptionalParameters :=
  {| sp_Query := None; sp_PageSize := None; sp_PageNumber := None |}.

Definition sp_WithQuery (q : string) (r : SearchSLOOptionalParameters) :=
  {| sp_Query := Some q; sp_PageSize := sp_PageSize r;
     sp_PageNumber := sp_PageNumber r |}.
Definition sp_WithPageSize (n : Z) (r : SearchSLOOptionalParameters) :=
  {| sp_Query := sp_Query r; sp_PageSize := Some n;
     sp_PageNumber := sp_PageNumber r |}.
Definition sp_WithPageNumber (n : Z) (r : SearchSLOOptionalParameters) :=
  {| sp_Query := sp_Query r; sp_PageSize := sp_PageSize r;
     sp_PageNumber := Some n |}.

(** [ListSLOsOptionalParameters] and its [With...] setters. *)
Record ListSLOsOptionalParameters : Type := {
  lp_Ids : option string;
  lp_Query : option string;
  lp_TagsQuery : option string;
  lp_MetricsQuery : option string
}.

Definition NewListSLOsOptionalParameters : ListSLOsOptionalParameters :=
  {| lp_Ids := None; lp_Query := None; lp_TagsQuery := None;
     lp_MetricsQuery := None |}.

Definition lp_WithIds (s : string) (r : ListSLOsOptionalParameters) :=
  {| lp_Ids := Some s; lp_Query := lp_Query r; lp_TagsQuery := lp_TagsQuery r;
     lp_MetricsQuery := lp_MetricsQuery r |}.
Definition lp_WithQuery (s : string) (r : ListSLOsOptionalParameters) :=
  {| lp_Ids := lp_Ids r; lp_Query := Some s; lp_TagsQuery := lp_TagsQuery r;
     lp_MetricsQuery := lp_MetricsQuery r |}.
Definition lp_WithTagsQuery (s : string) (r : ListSLOsOptionalParameters) :=
  {| lp_Ids := lp_Ids r; lp_Query := lp_Query r; lp_TagsQuery := Some s;
     lp_MetricsQuery := lp_MetricsQuery r |}.
Definition lp_WithMetricsQuery (s : string) (r : ListSLOsOptionalParameters) :=
  {| lp_Ids := lp_Ids r; lp_Query := lp_Query r; lp_TagsQuery := lp_TagsQuery r;
     lp_MetricsQuery := Some s |}.

(** One entry of a search page: [slo.GetData().Id] is a pointer, the name and
    the type are read through nil-safe getters. *)
Record SearchSLOResponseDataAttributesSlos : Type := {
  slo_Id : option string;
  slo_Name : option string;
  slo_SloType : option string;
  slo_UnparsedObject : UnparsedObject
}.

Definition GetName (s : SearchSLOResponseDataAttributesSlos) : string :=
  default "" (slo_Name s).
Definition GetSloType (s : SearchSLOResponseDataAttributesSlos) : string :=
  default "" (slo_SloType s).

#[export] Instance unparsed_Slo : Unparsed SearchSLOResponseDataAttributesSlos :=
  fun o => has_unparsed (slo_UnparsedObject o).

(** A search page.  [ssr_Slos] stands for [GetData().Attributes.Slos]: [None]
    when [Attributes] is a nil pointer.  [ssr_LastNumber] stands for
    [GetMeta().Pagination.LastNumber]: [None] when [Pagination] or
    [LastNumber] is a nil pointer.  Reading through either nil pointer
    panics. *)
Record SearchSLOResponse : Type := {
  ssr_Slos : option (list SearchSLOResponseDataAttributesSlos);
  ssr_LastNumber : option Z
}.

(** ** The remote API *)

(** What an API method returns: the decoded object, the HTTP response (maybe
    nil) and the error (nil on success). *)
Record ApiResult (A : Type) : Type := mkApiResult {
  api_value : A;
  api_httpresp : option HttpResponse;
  api_err : option error
}.
Arguments mkApiResult {A} _ _ _.
Arguments api_value {A} _.
Arguments api_httpresp {A} _.
Arguments api_err {A} _.

(** [providerConf.DatadogApiInstances]: the methods of the remote API this
    code calls, as an opaque capability. *)
Record ApiInstances : Type := {
  api_GetMonitorConfigPolicy : string -> ApiResult MonitorConfigPolicyResponse;
  api_CreateMonitorConfigPolicy :
    MonitorConfigPolicyCreateRequest -> ApiResult MonitorConfigPolicyResponse;
  api_UpdateMonitorConfigPolicy :
    string -> MonitorConfigPolicyEditRequest -> ApiResult MonitorConfigPolicyResponse;
  api_DeleteMonitorConfigPolicy : string -> ApiResult unit;
  api_SearchSLO : SearchSLOOptionalParameters -> ApiResult SearchSLOResponse
}.

(** One issued call, as recorded in the trace. *)
Inductive ApiCall : Type :=
  | CallGetMonitorConfigPolicy (id : string)
  | CallCreateMonitorConfigPolicy (body : MonitorConfigPolicyCreateRequest)
  | CallUpdateMonitorConfigPolicy (id : string) (body : MonitorConfigPolicyEditRequest)
  | CallDeleteMonitorConfigPolicy (id : string)
  | CallSearchSLO (params : SearchSLOOptionalParameters).

(** ** Computations: resource data, call trace, panics *)

Inductive outcome (A : Type) : Type :=
  | Val (a : A)
  | Panic (msg : string)
  | OutOfFuel.
Arguments Val {A} _.
Arguments Panic {A} _.
Arguments OutOfFuel {A}.

Record World : Type := mkWorld {
  w_data : ResourceData;
  w_calls : list ApiCall
}.

Definition M (A : Type) : Type := World -> outcome A * World.

Definition ret {A : Type} (a : A) : M A := fun w => (Val a, w).

Definition bind {A B : Type} (m : M A) (k : A -> M B) : M B :=
  fun w =>
    match m w with
    | (Val a, w') => k a w'
    | (Panic s, w') => (Panic s, w')
    | (OutOfFuel, w') => (OutOfFuel, w')
    end.

Definition panic {A : Type} (msg : string) : M A := fun w => (Panic msg, w).
Definition out_of_fuel {A : Type} : M A := fun w => (OutOfFuel, w).

Declare Scope go_scope.
Delimit Scope go_scope with go.
Notation "x <- m ;; k" := (bind m (fun x => k))
  (at level 100, m at next level, right associativity) : go_scope.
Notation "m ;;; k" := (bind m (fun _ => k))
  (at level 100, right associativity) : go_scope.
Local Open Scope go_scope.

(** Reading and writing the resource data. *)
Definition get_data : M ResourceData := fun w => (Val (w_data w), w).
Definition modify_data (f : ResourceData -> ResourceData) : M unit :=
  fun w => (Val tt, mkWorld (f (w_data w)) (w_calls w)).

(** [err := d.Set(key, v)] under a schema. *)
Definition set_field (schema : list (string * Shape)) (key : string) (v : value)
    : M (option error) :=
  fun w => (Val (fst (Set_in schema key v (w_data w))),
            mkWorld (snd (Set_in schema key v (w_data w))) (w_calls w)).

(** Modelled from the spec: the host runs the validation the schema declares
    at configuration-validation time, before any API call is attempted, and
    invokes the operation only when validation found no error. *)
Definition validated (validate : ResourceData -> Diagnostics) (op : M Diagnostics)
    : M Diagnostics :=
  d <- get_data ;;
  if HasError (validate d) then ret (validate d) else op.

(** Issuing a call: it is appended to the trace. *)
Definition record_call (c : ApiCall) : M unit :=
  fun w => (Val tt, mkWorld (w_data w) (w_calls w ++ [c])).

(** Type assertions [v.(string)], [v.(bool)], [v.([]interface{})]: they panic
    on a value of another dynamic type. *)
Definition assert_string (v : value) : M string :=
  match v with
  | VString s => ret s
  | _ => panic "interface conversion: interface {} is not string"
  end.
Definition assert_bool (v : value) : M bool :=
  match v with
  | VBool b => ret b
  | _ => panic "interface conversion: interface {} is not bool"
  end.
Definition assert_list (v : value) : M (list value) :=
  match v with
  | VList l => ret l
  | _ => panic "interface conversion: interface {} is not []interface {}"
  end.

(** Dereferencing a pointer: panics on nil. *)
Definition deref {A : Type} (p : option A) : M A :=
  match p with
  | Some a => ret a
  | None => panic "invalid memory address or nil pointer dereference"
  end.

(** [for _, s := range l { acc = append(acc, s.(string)) }] *)
Fixpoint assert_strings (l : list value) : M (list string) :=
  match l with
  | [] => ret []
  | v :: l' =>
      s <- assert_string v ;;
      rest <- assert_strings l' ;;
      ret (s :: rest)
  end.

(** ** [resource_datadog_monitor_config_policy.go] *)

Module MonitorConfigPolicy.

(** [resourceDatadogMonitorConfigPolicy]: the schema.  ["policy_type"] is a
    string; ["tag_policy"] is a list of blocks that hold ["tag_key"],
    ["tag_key_required"] and ["valid_tag_values"]. *)
Definition tag_policy_block : list (string * Shape) :=
  [("tag_key", ShString); ("tag_key_required", ShBool); ("valid_tag_values", ShString)].

Definition resourceDatadogMonitorConfigPolicy : list (string * Shape) :=
  [("policy_type", ShString); ("tag_policy", ShList (ShResource tag_policy_block))].

(** The [ValidateDiagFunc] of ["policy_type"], applied to the configured
    value. *)
Definition validate_policy_type (d : ResourceData) : Diagnostics :=
  ValidateEnumValue NewMonitorConfigPolicyTypeFromValue (Get d "policy_type").

(** [buildCreateRequestPolicy]: a nil pointer for any policy type other than
    ["tag"]. *)
Definition buildCreateRequestPolicy (policyType : MonitorConfigPolicyType)
    : M (option MonitorConfigPolicyPolicyCreateRequest) :=
  d <- get_data ;;
  if decide (policyType = MONITORCONFIGPOLICYTYPE_TAG) then
    tagKey <- assert_string (Get d "tag_key") ;;
    tagKeyRequired <- assert_bool (Get d "tag_key_required") ;;
    l <- assert_list (Get d "valid_tag_values") ;;
    validTagValues <- assert_strings l ;;
    ret (Some {| pc_MonitorConfigPolicyTagPolicyCreateRequest :=
                   Some {| tpc_TagKey := tagKey;
                           tpc_TagKeyRequired := tagKeyRequired;
                           tpc_ValidTagValues := validTagValues;
                           tpc_UnparsedObject := None |};
                 pc_UnparsedObject := None |})
  else ret None.

(** [buildUpdateRequestPolicy].  The second test reads ["tag_key"] again and
    asserts its value to be a [bool]; the list built in the third test is a
    local variable that is not stored in [tagPolicy]. *)
Definition buildUpdateRequestPolicy (policyType : MonitorConfigPolicyType)
    : M (option MonitorConfigPolicyPolicy) :=
  d <- get_data ;;
  if decide (policyType = MONITORCONFIGPOLICYTYPE_TAG) then
    let tagPolicy := NewMonitorConfigPolicyTagPolicy in
    tagPolicy <-
      (let '(attr, ok) := GetOk d "tag_key" in
       if ok then s <- assert_string attr ;; ret (SetTagKey s tagPolicy)
       else ret tagPolicy) ;;
    tagPolicy <-
      (let '(attr, ok) := GetOk d "tag_key" in
       if ok then b <- assert_bool attr ;; ret (SetTagKeyRequired b tagPolicy)
       else ret tagPolicy) ;;
    (let '(attr, ok) := GetOk d "valid_tag_values" in
     if ok then
       l <- assert_list attr ;;
       validTagValues <- assert_strings l ;;
       ret tt
     else ret tt) ;;;
    ret (Some {| pp_MonitorConfigPolicyTagPolicy := Some tagPolicy;
                 pp_UnparsedObject := None |})
  else ret None.

(** [buildMonitorConfigPolicyCreateV2Struct]: the error of
    [NewMonitorConfigPolicyTypeFromValue] is discarded and both pointers are
    dereferenced. *)
Definition buildMonitorConfigPolicyCreateV2Struct : M MonitorConfigPolicyCreateRequest :=
  d <- get_data ;;
  s <- assert_string (Get d "policy_type") ;;
  let '(policyType, _) := NewMonitorConfigPolicyTypeFromValue s in
  pt <- deref policyType ;;
  pt' <- deref policyType ;;
  p <- buildCreateRequestPolicy pt' ;;
  policy <- deref p ;;
  ret (NewMonitorConfigPolicyCreateRequest
         {| cd_Attributes := {| ac_Policy := policy; ac_PolicyType := pt;
                                ac_UnparsedObject := None |};
            cd_Type := MONITORCONFIGPOLICYRESOURCETYPE_MONITOR_CONFIG_POLICY;
            cd_UnparsedObject := None |}).

(** [buildMonitorConfigPolicyUpdateV2Struct] *)
Definition buildMonitorConfigPolicyUpdateV2Struct : M MonitorConfigPolicyEditRequest :=
  d <- get_data ;;
  let id := Id d in
  s <- assert_string (Get d "policy_type") ;;
  let '(policyType, _) := NewMonitorConfigPolicyTypeFromValue s in
  pt' <- deref policyType ;;
  p <- buildUpdateRequestPolicy pt' ;;
  policy <- deref p ;;
  pt <- deref policyType ;;
  ret (NewMonitorConfigPolicyEditRequest
         {| ed_Attributes := {| ae_Policy := policy; ae_PolicyType := pt;
                                ae_UnparsedObject := None |};
            ed_Id := id;
            ed_Type := MONITORCONFIGPOLICYRESOURCETYPE_MONITOR_CONFIG_POLICY;
            ed_UnparsedObject := None |}).

(** The [[]string] of the response as a list value for [d.Set]. *)
Definition strings_value (l : list string) : value := VList (VString <$> l).

(** [updateMonitorConfigPolicyState]: the errors of both [d.Set] calls are
    discarded.  The second call hands a map to the key ["tag_policy"], which
    the schema declares as a list. *)
Definition updateMonitorConfigPolicyState (m : option MonitorConfigPolicyResponseData)
    : M Diagnostics :=
  modify_data (SetId (GetId m)) ;;;
  let attributes := GetAttributes m in
  set_field resourceDatadogMonitorConfigPolicy "policy_type"
    (VString (GetPolicyType attributes)) ;;;
  (if decide (GetPolicyType attributes = MONITORCONFIGPOLICYTYPE_TAG) then
     policy <- deref (ar_Policy attributes) ;;
     let tp := pp_MonitorConfigPolicyTagPolicy policy in
     set_field resourceDatadogMonitorConfigPolicy "tag_policy"
       (VMap [("tag_key", VString (GetTagKey tp));
              ("tag_key_required", VBool (GetTagKeyRequired tp));
              ("valid_tag_values", strings_value (GetValidTagValues tp))]) ;;;
     ret tt
   else ret tt) ;;;
  ret [].

(** [resourceDatadogMonitorConfigPolicyRead] *)
Definition resourceDatadogMonitorConfigPolicyRead (api : ApiInstances) : M Diagnostics :=
  d <- get_data ;;
  record_call (CallGetMonitorConfigPolicy (Id d)) ;;;
  let r := api_GetMonitorConfigPolicy api (Id d) in
  let monitorConfigPolicyResponse := api_value r in
  let httpresp := api_httpresp r in
  match api_err r with
  | Some err =>
      match httpresp with
      | Some h =>
          if decide (StatusCode h = 404) then
            modify_data (SetId "") ;;;
            ret []
          else ret (TranslateClientErrorDiag err httpresp "error getting monitor config policy")
      | None => ret (TranslateClientErrorDiag err httpresp "error getting monitor config policy")
      end
  | None => updateMonitorConfigPolicyState (rs_Data monitorConfigPolicyResponse)
  end.

(** [resourceDatadogMonitorConfigPolicyCreate]: the object handed to
    [CheckForUnparsed] is [m], the request. *)
Definition resourceDatadogMonitorConfigPolicyCreate (api : ApiInstances) : M Diagnostics :=
  m <- buildMonitorConfigPolicyCreateV2Struct ;;
  record_call (CallCreateMonitorConfigPolicy m) ;;;
  let r := api_CreateMonitorConfigPolicy api m in
  let mCreated := api_value r in
  let httpResponse := api_httpresp r in
  match api_err r with
  | Some err =>
      ret (TranslateClientErrorDiag err httpResponse "error creating monitor config policy")
  | None =>
      match CheckForUnparsed m with
      | Some err => ret (FromErr err)
      | None =>
          data <- deref (rs_Data mCreated) ;;
          id <- deref (rsd_Id data) ;;
          modify_data (SetId id) ;;;
          updateMonitorConfigPolicyState (rs_Data mCreated)
      end
  end.

(** [resourceDatadogMonitorConfigPolicyUpdate]: the object handed to
    [CheckForUnparsed] is [mUpdated], the response. *)
Definition resourceDatadogMonitorConfigPolicyUpdate (api : ApiInstances) : M Diagnostics :=
  monitorConfigPolicy <- buildMonitorConfigPolicyUpdateV2Struct ;;
  record_call (CallUpdateMonitorConfigPolicy (ed_Id (er_Data monitorConfigPolicy))
                 monitorConfigPolicy) ;;;
  let r := api_UpdateMonitorConfigPolicy api (ed_Id (er_Data monitorConfigPolicy))
             monitorConfigPolicy in
  let mUpdated := api_value r in
  let httpresp := api_httpresp r in
  match api_err r with
  | Some err =>
      ret (TranslateClientErrorDiag err httpresp "error updating monitor config policy")
  | None =>
      match CheckForUnparsed mUpdated with
      | Some err => ret (FromErr err)
      | None => updateMonitorConfigPolicyState (rs_Data mUpdated)
      end
  end.

(** [resourceDatadogMonitorConfigPolicyDelete] *)
Definition resourceDatadogMonitorConfigPolicyDelete (api : ApiInstances) : M Diagnostics :=
  d <- get_data ;;
  record_call (CallDeleteMonitorConfigPolicy (Id d)) ;;;
  let r := api_DeleteMonitorConfigPolicy api (Id d) in
  match api_err r with
  | Some err =>
      ret (TranslateClientErrorDiag err (api_httpresp r) "error deleting monitor config policy")
  | None => ret []
  end.

End MonitorConfigPolicy.

(** ** [crypto/sha256] and the [%x] verb

    The identities of the SLO data sources are SHA-256 digests printed in
    hexadecimal.  The digest is the function of FIPS 180-4 on bytes; 32-bit
    words are [Z] values reduced modulo [2^32]. *)

Module SHA256.

Definition w32 (x : Z) : Z := x mod 2 ^ 32.
Definition rotr (n x : Z) : Z := Z.lor (Z.shiftr x n) (w32 (Z.shiftl x (32 - n))).
Definition not32 (x : Z) : Z := Z.lxor x 0xffffffff.
Definition xor3 (x y z : Z) : Z := Z.lxor (Z.lxor x y) z.

Definition Ch (x y z : Z) : Z := Z.lxor (Z.land x y) (Z.land (not32 x) z).
Definition Maj (x y z : Z) : Z := xor3 (Z.land x y) (Z.land x z) (Z.land y z).
Definition bsig0 (x : Z) : Z := xor3 (rotr 2 x) (rotr 13 x) (rotr 22 x).
Definition bsig1 (x : Z) : Z := xor3 (rotr 6 x) (rotr 11 x) (rotr 25 x).
Definition ssig0 (x : Z) : Z := xor3 (rotr 7 x) (rotr 18 x) (Z.shiftr x 3).
Definition ssig1 (x : Z) : Z := xor3 (rotr 17 x) (rotr 19 x) (Z.shiftr x 10).

(** The round constants are the first 32 bits of the fractional parts of the
    cube roots of the first 64 primes, the initial hash value those of the
    square roots of the first 8 primes. *)
Definition is_prime (p : Z) : bool :=
  forallb (fun q => negb (p mod q =? 0)) (seqZ 2 (p - 2)).

Definition primes : list Z := List.filter is_prime (seqZ 2 310).

(** The largest [r] below [2 ^ n] (added to the bits already in [r]) whose
    cube does not exceed [x]. *)
Fixpoint cube_root (n : nat) (x r : Z) : Z :=
  match n with
  | O => r
  | S n' =>
      let r' := r + 2 ^ Z.of_nat n' in
      cube_root n' x (if r' * r' * r' <=? x then r' else r)
  end.

Definition K : list Z :=
  Eval vm_compute in (fun p => w32 (cube_root 36 (p * 2 ^ 96) 0)) <$> primes.

Definition H0 : list Z :=
  Eval vm_compute in (fun p => w32 (Z.sqrt (p * 2 ^ 64))) <$> take 8 primes.

(** Big-endian bytes of a number, most significant first. *)
Fixpoint be_bytes (n : nat) (x : Z) : list Z :=
  match n with
  | O => []
  | S n' => (Z.shiftr x (8 * Z.of_nat n')) mod 256 :: be_bytes n' x
  end.

(** Padding: a [0x80] byte, zero bytes up to 56 modulo 64, and the bit length
    in 8 bytes. *)
Definition pad (msg : list Z) : list Z :=
  let len := Z.of_nat (length msg) in
  msg ++ [0x80] ++ replicate (Z.to_nat ((55 - len) mod 64)) 0
      ++ be_bytes 8 ((8 * len) mod 2 ^ 64).

Fixpoint words (n : nat) (l : list Z) : list Z :=
  match n, l with
  | S n', a :: b :: c :: d :: r =>
      (Z.shiftl a 24 + Z.shiftl b 16 + Z.shiftl c 8 + d) :: words n' r
  | _, _ => []
  end.

(** The message schedule, most recent word first. *)
Fixpoint schedule (n : nat) (rw : list Z) : list Z :=
  match n with
  | O => rw
  | S n' =>
      let w := w32 (ssig1 (nth 1 rw 0) + nth 6 rw 0 + ssig0 (nth 14 rw 0) + nth 15 rw 0) in
      schedule n' (w :: rw)
  end.

Record regs : Type := mkRegs { ra : Z; rb : Z; rc : Z; rd : Z; re : Z; rf : Z; rg : Z; rh : Z }.

Definition round (s : regs) (kw : Z * Z) : regs :=
  let t1 := w32 (rh s + bsig1 (re s) + Ch (re s) (rf s) (rg s) + kw.1 + kw.2) in
  let t2 := w32 (bsig0 (ra s) + Maj (ra s) (rb s) (rc s)) in
  mkRegs (w32 (t1 + t2)) (ra s) (rb s) (rc s) (w32 (rd s + t1)) (re s) (rf s) (rg s).

Definition regs_of (h : list Z) : regs :=
  mkRegs (nth 0 h 0) (nth 1 h 0) (nth 2 h 0) (nth 3 h 0)
         (nth 4 h 0) (nth 5 h 0) (nth 6 h 0) (nth 7 h 0).

Definition list_of (s : regs) : list Z :=
  [ra s; rb s; rc s; rd s; re s; rf s; rg s; rh s].

Definition compress (h : list Z) (block : list Z) : list Z :=
  let w := rev (schedule 48 (rev (words 16 block))) in
  let s := fold_left round (zip K w) (regs_of h) in
  zip_with (fun x y => w32 (x + y)) h (list_of s).

Fixpoint blocks (n : nat) (h : list Z) (l : list Z) : list Z :=
  match n with
  | O => h
  | S n' => blocks n' (compress h (take 64 l)) (drop 64 l)
  end.

(** The 32 bytes of the digest. *)
Definition Sum256 (msg : list Z) : list Z :=
  let p := pad msg in
  mjoin (be_bytes 4 <$> blocks (length p / 64)%nat H0 p).

End SHA256.

(** [[]byte(s)] *)
Fixpoint bytes_of_string (s : string) : list Z :=
  match s with
  | EmptyString => []
  | String a s' => Z.of_N (Ascii.N_of_ascii a) :: bytes_of_string s'
  end.

Definition hex_digit (n : Z) : Ascii.ascii :=
  Ascii.ascii_of_N (Z.to_N (if decide (n < 10) then 48 + n else 87 + n)).

(** [fmt.Sprintf("%x", bytes)]: two lower-case hexadecimal digits per byte. *)
Fixpoint hex (bytes : list Z) : string :=
  match bytes with
  | [] => ""
  | b :: r => String (hex_digit (b / 16)) (String (hex_digit (b mod 16)) (hex r))
  end.

(** [h := sha256.New(); h.Write([]byte(s)); fmt.Sprintf("%x", h.Sum(nil))] *)
Definition sha256_hex (s : string) : string := hex (SHA256.Sum256 (bytes_of_string s)).

(** ** Helpers shared by the two SLO data sources *)

(** [int64] arithmetic wraps around. *)
Definition wrap64 (x : Z) : Z := (x + 2 ^ 63) mod 2 ^ 64 - 2 ^ 63.

(** [strings.Join(l, sep)] *)
Fixpoint Join (l : list string) (sep : string) : string :=
  match l with
  | [] => ""
  | [s] => s
  | s :: r => s +:+ sep +:+ Join r sep
  end.

(** Modelled from the spec: [expandStringList] is not part of the files
    embedded here.  It is the string-list expansion helper for untyped
    list-of-interface configuration values: the strings of the list, in
    order. *)
Fixpoint expandStringList (l : list value) : list string :=
  match l with
  | [] => []
  | VString s :: r => s :: expandStringList r
  | _ :: r => expandStringList r
  end.

(** The row written for an accepted SLO: the map literal with the keys
    ["id"], ["name"] and ["type"]. *)
Definition slo_row (id : string) (slo : SearchSLOResponseDataAttributesSlos) : value :=
  VMap [("id", VString id); ("name", VString (GetName slo));
        ("type", VString (GetSloType slo))].

(** What both SLO data sources declare for ["slos"]: a list of blocks with
    the strings ["id"], ["name"] and ["type"]. *)
Definition slos_schema : list (string * Shape) :=
  [("slos", ShList (ShResource [("id", ShString); ("name", ShString);
                                ("type", ShString)]))].

(** The warning appended for an SLO that holds unparsed members. *)
Definition skip_warning (id : string) (err : error) : Diagnostic :=
  {| diag_Severity := Warning;
     diag_Summary := "skipping service level objective with id: " +:+ id;
     diag_Detail := "service level objective contains unparsed object: " +:+ err |}.

(** The body of [for _, slo := range slosResp.GetData().Attributes.Slos]:
    both branches dereference the item's [Id]. *)
Fixpoint scan_page (slos : list SearchSLOResponseDataAttributesSlos)
    (diags : Diagnostics) (slosPage : list value) : M (Diagnostics * list value) :=
  match slos with
  | [] => ret (diags, slosPage)
  | slo :: rest =>
      match CheckForUnparsed slo with
      | Some err =>
          id <- deref (slo_Id slo) ;;
          scan_page rest (diags ++ [skip_warning id err]) slosPage
      | None =>
          id <- deref (slo_Id slo) ;;
          scan_page rest diags (slosPage ++ [slo_row id slo])
      end
  end.

(** ** The SLO data source with the ["q"] attribute and the structured
    filters *)

Module SLOFilters.

(** The [for] loop of [searchSLO] and the flattening after it.  [fuel] bounds
    the number of iterations of the model; the Go loop has no bound.
    [numberOfSLOs] only sizes the result slice and is left out. *)
Fixpoint searchSLO_loop (fuel : nat) (api : ApiInstances)
    (reqParams : SearchSLOOptionalParameters) (pageNumber : Z)
    (allSlosPages : list (list value)) (diags : Diagnostics)
    : M (Diagnostics * list value) :=
  match fuel with
  | O => out_of_fuel
  | S fuel' =>
      let reqParams := sp_WithPageNumber pageNumber reqParams in
      record_call (CallSearchSLO reqParams) ;;;
      let r := api_SearchSLO api reqParams in
      let slosResp := api_value r in
      match api_err r with
      | Some err =>
          ret (TranslateClientErrorDiag err (api_httpresp r)
                 "error querying service level objectives", [])
      | None =>
          slos <- deref (ssr_Slos slosResp) ;;
          p <- scan_page slos diags [] ;;
          let '(diags, slosPage) := p in
          let allSlosPages := allSlosPages ++ [slosPage] in
          last <- deref (ssr_LastNumber slosResp) ;;
          if decide (last <= pageNumber) then ret (diags, mjoin allSlosPages)
          else searchSLO_loop fuel' api reqParams (wrap64 (pageNumber + 1))
                 allSlosPages diags
      end
  end.

(** [searchSLO] *)
Definition searchSLO (fuel : nat) (api : ApiInstances)
    (reqParams : SearchSLOOptionalParameters) : M (Diagnostics * list value) :=
  let reqParams := sp_WithPageSize 100 reqParams in
  searchSLO_loop fuel api reqParams 0 [] [].

(** [listSLO]: returns [nil, nil] whatever the parameters. *)
Definition listSLO (reqParams : ListSLOsOptionalParameters)
    : M (Diagnostics * list value) :=
  ret ([], []).

(** [computeSLOsDataSourceIDbySearchEndpointCall] *)
Definition computeSLOsDataSourceIDbySearchEndpointCall (q : option string) : M string :=
  s <- deref q ;;
  ret (sha256_hex s).

(** The string built in [computeSLOsDataSourceIDByListEndpointCall] before it
    is hashed ([keyStr]). *)
Definition keyStr (ids nameQuery tagsQuery metricsQuery : option string) : string :=
  let b := "" in
  let b := match ids with Some s => b +:+ s | None => b end in
  let b := b +:+ "|" in
  let b := match nameQuery with Some s => b +:+ s | None => b end in
  let b := b +:+ "|" in
  let b := match tagsQuery with Some s => b +:+ s | None => b end in
  let b := b +:+ "|" in
  let b := match metricsQuery with Some s => b +:+ s | None => b end in
  b.

(** [computeSLOsDataSourceIDByListEndpointCall] *)
Definition computeSLOsDataSourceIDByListEndpointCall
    (ids nameQuery tagsQuery metricsQuery : option string) : string :=
  sha256_hex (keyStr ids nameQuery tagsQuery metricsQuery).

(** The first statements of the read: [errorOnNoResults] starts as [true] and
    is overwritten only when [GetOk] reports the key as set. *)
Definition read_errorOnNoResults (d : ResourceData) : M bool :=
  let errorOnNoResults := true in
  let '(v, ok) := GetOk d "error_on_no_results" in
  if ok then assert_bool v else ret errorOnNoResults.

(** The structured-filter branch up to the call of [listSLO]: the four
    pointers and the request parameters. *)
Definition read_filters (d : ResourceData)
    : M (option string * option string * option string * option string
         * ListSLOsOptionalParameters) :=
  let reqParams := NewListSLOsOptionalParameters in
  p <- (let '(v, ok) := GetOk d "ids" in
        if ok then
          l <- assert_list v ;;
          let ids := Join (expandStringList l) "," in
          ret (Some ids, lp_WithIds ids reqParams)
        else ret (None, reqParams)) ;;
  let '(idsPtr, reqParams) := p in
  p <- (let '(v, ok) := GetOk d "name_query" in
        if ok then
          nameQuery <- assert_string v ;;
          ret (Some nameQuery, lp_WithQuery nameQuery reqParams)
        else ret (None, reqParams)) ;;
  let '(nameQueryPtr, reqParams) := p in
  p <- (let '(v, ok) := GetOk d "tags_query" in
        if ok then
          tagsQuery <- assert_string v ;;
          ret (Some tagsQuery, lp_WithTagsQuery tagsQuery reqParams)
        else ret (None, reqParams)) ;;
  let '(tagsQueryPtr, reqParams) := p in
  p <- (let '(v, ok) := GetOk d "metrics_query" in
        if ok then
          metricsQuery <- assert_string v ;;
          ret (Some metricsQuery, lp_WithMetricsQuery metricsQuery reqParams)
        else ret (None, reqParams)) ;;
  let '(metricsQueryPtr, reqParams) := p in
  ret (idsPtr, nameQueryPtr, tagsQueryPtr, metricsQueryPtr, reqParams).

(** The two branches of the read up to [resourceID]: either the diagnostics
    returned early, or the diagnostics, the rows and the identity. *)
Definition read_query (fuel : nat) (api : ApiInstances) (d : ResourceData)
    : M (Diagnostics + Diagnostics * list value * string) :=
  let '(v, ok) := GetOk d "q" in
  if ok then
    q <- assert_string v ;;
    let qPtr := Some q in
    let reqParams := sp_WithQuery q NewSearchSLOOptionalParameters in
    r <- searchSLO fuel api reqParams ;;
    let '(diags, slos) := r in
    if HasError diags then ret (inl diags)
    else
      resourceID <- computeSLOsDataSourceIDbySearchEndpointCall qPtr ;;
      ret (inr (diags, slos, resourceID))
  else
    f <- read_filters d ;;
    let '(idsPtr, nameQueryPtr, tagsQueryPtr, metricsQueryPtr, reqParams) := f in
    r <- listSLO reqParams ;;
    let '(diags, slos) := r in
    if HasError diags then ret (inl diags)
    else
      ret (inr (diags, slos,
                computeSLOsDataSourceIDByListEndpointCall
                  idsPtr nameQueryPtr tagsQueryPtr metricsQueryPtr)).

Definition no_result_message : string :=
  "your query returned no result, please try a less specific search criteria".

(** [dataSourceDatadogServiceLevelObjectivesRead].  [d.Set("slos", slos)]
    stores the rows: they are maps of three strings under the keys the
    schema declares for the elements of ["slos"], so the error branch of the
    call is not taken. *)
Definition dataSourceDatadogServiceLevelObjectivesRead (fuel : nat) (api : ApiInstances)
    : M Diagnostics :=
  d <- get_data ;;
  errorOnNoResults <- read_errorOnNoResults d ;;
  r <- read_query fuel api d ;;
  match r with
  | inl diags => ret diags
  | inr (diags, slos, resourceID) =>
      if bool_decide (length slos = 0%nat) && errorOnNoResults then
        ret (Errorf no_result_message)
      else
        modify_data (Set_ "slos" (VList slos)) ;;;
        modify_data (SetId resourceID) ;;;
        ret diags
  end.

End SLOFilters.

(** ** The SLO data source with the single ["query"] attribute
    ([data_source_datadog_service_level_objectives.go]) *)

Module SLOQuery.

(** [computeSLOsDataSourceID]: the pointer is dereferenced as it is. *)
Definition computeSLOsDataSourceID (query : option string) : M string :=
  s <- deref query ;;
  ret (sha256_hex s).

(** The [for] loop of the read and the flattening after it; an API error
    returns the translated diagnostics at once ([inl]). *)
Fixpoint read_loop (fuel : nat) (api : ApiInstances)
    (reqParams : SearchSLOOptionalParameters) (pageNumber : Z)
    (allSlosPages : list (list value)) (diags : Diagnostics)
    : M (Diagnostics + Diagnostics * list value) :=
  match fuel with
  | O => out_of_fuel
  | S fuel' =>
      let reqParams := sp_WithPageNumber pageNumber reqParams in
      record_call (CallSearchSLO reqParams) ;;;
      let r := api_SearchSLO api reqParams in
      let slosResp := api_value r in
      match api_err r with
      | Some err =>
          ret (inl (TranslateClientErrorDiag err (api_httpresp r)
                      "error querying service level objectives"))
      | None =>
          slos <- deref (ssr_Slos slosResp) ;;
          p <- scan_page slos diags [] ;;
          let '(diags, slosPage) := p in
          let allSlosPages := allSlosPages ++ [slosPage] in
          last <- deref (ssr_LastNumber slosResp) ;;
          if decide (last <= pageNumber) then ret (inr (diags, mjoin allSlosPages))
          else read_loop fuel' api reqParams (wrap64 (pageNumber + 1))
                 allSlosPages diags
      end
  end.

(** [dataSourceDatadogServiceLevelObjectivesRead] *)
Definition dataSourceDatadogServiceLevelObjectivesRead (fuel : nat) (api : ApiInstances)
    : M Diagnostics :=
  d <- get_data ;;
  let reqParams := NewSearchSLOOptionalParameters in
  p <- (let '(v, ok) := GetOk d "query" in
        if ok then
          query <- assert_string v ;;
          ret (Some query, sp_WithQuery query reqParams)
        else ret (None, reqParams)) ;;
  let '(queryPtr, reqParams) := p in
  let reqParams := sp_WithPageSize 100 reqParams in
  r <- read_loop fuel api reqParams 0 [] [] ;;
  match r with
  | inl diags => ret diags
  | inr (diags, slos) =>
      modify_data (Set_ "slos" (VList slos)) ;;;
      id <- computeSLOsDataSourceID queryPtr ;;
      modify_data (SetId id) ;;;
      ret diags
  end.

End SLOQuery.

(** ** Concrete configurations and mock servers *)

(** Running an operation on resource data [d] with an empty trace. *)
Definition run {A : Type} (m : M A) (d : ResourceData) : outcome A * World :=
  m (mkWorld d []).

Definition nil_deref : string := "invalid memory address or nil pointer dereference".

(** The types of the top-level keys of the schema of the policy resource. *)
Definition policy_schema : gmap string ValueType :=
  {[ "policy_type" := TypeString; "tag_policy" := TypeList ]}.

(** policy_type="tag" and one tag_policy block with tag_key="env",
    tag_key_required=true, valid_tag_values="prod". *)
Definition d_tag : ResourceData :=
  {| rd_values := {[ "policy_type" := VString "tag";
                     "tag_policy" :=
                       VList [VMap [("tag_key", VString "env");
                                    ("tag_key_required", VBool true);
                                    ("valid_tag_values", VString "prod")]] ]};
     rd_schema := policy_schema;
     rd_id := "policy-1" |}.

(** The same with a block that leaves ["tag_key"] out. *)
Definition d_tag_no_key : ResourceData :=
  {| rd_values := {[ "policy_type" := VString "tag";
                     "tag_policy" :=
                       VList [VMap [("tag_key_required", VBool true);
                                    ("valid_tag_values", VString "prod")]] ]};
     rd_schema := policy_schema;
     rd_id := "policy-1" |}.

(** A configuration with a policy type the client does not know, as it is
    handed to validation. *)
Definition d_unsupported : ResourceData :=
  {| rd_values := {[ "policy_type" := VString "custom" ]};
     rd_schema := policy_schema;
     rd_id := "" |}.

(** Resource data on another schema, one that declares ["tag_key"],
    ["tag_key_required"] and ["valid_tag_values"] at top level, under the
    names the request builders read.  The schema of the resource nests the
    three keys in the ["tag_policy"] block instead. *)
Definition flat_schema : gmap string ValueType :=
  {[ "policy_type" := TypeString; "tag_key" := TypeString;
     "tag_key_required" := TypeBool; "valid_tag_values" := TypeList ]}.

Definition d_flat : ResourceData :=
  {| rd_values := {[ "policy_type" := VString "tag"; "tag_key" := VString "env";
                     "tag_key_required" := VBool true;
                     "valid_tag_values" := VList [VString "prod"; VString "staging"] ]};
     rd_schema := flat_schema;
     rd_id := "policy-1" |}.

Definition env_tag_policy : MonitorConfigPolicyTagPolicy :=
  {| tp_TagKey := Some "env"; tp_TagKeyRequired := Some true;
     tp_ValidTagValues := Some ["prod"; "staging"]; tp_UnparsedObject := None |}.


Definition zero_response : MonitorConfigPolicyResponse :=
  {| rs_Data := None; rs_UnparsedObject := None |}.

Definition zero_page : SearchSLOResponse := {| ssr_Slos := None; ssr_LastNumber := None |}.

(** A server on which every call fails with the given status. *)
Definition failing_api (status : Z) : ApiInstances :=
  {| api_GetMonitorConfigPolicy := fun _ =>
       mkApiResult zero_response (Some (mkHttpResponse status)) (Some "request failed");
     api_CreateMonitorConfigPolicy := fun _ =>
       mkApiResult zero_response (Some (mkHttpResponse status)) (Some "request failed");
     api_UpdateMonitorConfigPolicy := fun _ _ =>
       mkApiResult zero_response (Some (mkHttpResponse status)) (Some "request failed");
     api_DeleteMonitorConfigPolicy := fun _ =>
       mkApiResult tt (Some (mkHttpResponse status)) (Some "request failed");
     api_SearchSLO := fun _ =>
       mkApiResult zero_page (Some (mkHttpResponse status)) (Some "request failed") |}.


(** ** Vocabulary for the paginated search *)

(** The answer of the server to the request for page [i]. *)
Definition fetch (api : ApiInstances) (reqParams : SearchSLOOptionalParameters) (i : Z)
    : ApiResult SearchSLOResponse :=
  api_SearchSLO api (sp_WithPageNumber i reqParams).

(** A page that arrived without error, with its items (each carrying an id)
    and its pagination "last page number". *)
Definition fetched (r : ApiResult SearchSLOResponse)
    (items : list SearchSLOResponseDataAttributesSlos) (last : Z) : Prop :=
  api_err r = None
  /\ ssr_Slos (api_value r) = Some items
  /\ ssr_LastNumber (api_value r) = Some last
  /\ Forall (fun slo => is_Some (slo_Id slo)) items.

(** Page [i] arrives and does not end the loop / ends the loop. *)
Definition continues (api : ApiInstances) (reqParams : SearchSLOOptionalParameters)
    (i : Z) : Prop :=
  exists items last, fetched (fetch api reqParams i) items last /\ i < last.



(** Whether the unknown-field check rejects an item. *)
Definition rejected (slo : SearchSLOResponseDataAttributesSlos) : bool :=
  match CheckForUnparsed slo with Some _ => true | None => false end.

Definition id_of (slo : SearchSLOResponseDataAttributesSlos) : string :=
  default "" (slo_Id slo).

(** The rows of the accepted items and the warnings of the rejected items of
    a list of items, in order. *)
Definition accepted_rows (items : list SearchSLOResponseDataAttributesSlos)
    : list value :=
  (fun slo => slo_row (id_of slo) slo) <$> List.filter (fun slo => negb (rejected slo)) items.

Definition rejection_warnings (items : list SearchSLOResponseDataAttributesSlos)
    : Diagnostics :=
  (fun slo => skip_warning (id_of slo) (default "" (CheckForUnparsed slo)))
    <$> List.filter rejected items.

(** The calls of a search that walks the pages [0 .. k]. *)
Definition page_calls (reqParams : SearchSLOOptionalParameters) (j n : Z) : list ApiCall :=
  (fun i => CallSearchSLO (sp_WithPageNumber i reqParams)) <$> seqZ j n.

(** A server with three pages [0], [1], [2], each reporting [2] as the last
    page number; the second item of page [1] holds an unparsed member. *)
Definition mk_slo (id name : string) (u : UnparsedObject)
    : SearchSLOResponseDataAttributesSlos :=
  {| slo_Id := Some id; slo_Name := Some name; slo_SloType := Some "metric";
     slo_UnparsedObject := u |}.

Definition three_pages (i : Z) : list SearchSLOResponseDataAttributesSlos :=
  if decide (i = 0) then [mk_slo "a0" "latency" None; mk_slo "a1" "errors" None]
  else if decide (i = 1) then [mk_slo "b0" "uptime" None; mk_slo "b1" "drift" (Some "burn_rate")]
  else [mk_slo "c0" "freshness" None].

Definition paged_api : ApiInstances :=
  {| api_GetMonitorConfigPolicy := api_GetMonitorConfigPolicy (failing_api 500);
     api_CreateMonitorConfigPolicy := api_CreateMonitorConfigPolicy (failing_api 500);
     api_UpdateMonitorConfigPolicy := api_UpdateMonitorConfigPolicy (failing_api 500);
     api_DeleteMonitorConfigPolicy := api_DeleteMonitorConfigPolicy (failing_api 500);
     api_SearchSLO := fun p =>
       match sp_PageNumber p with
       | Some i =>
           if decide (0 <= i <= 2) then
             mkApiResult {| ssr_Slos := Some (three_pages i); ssr_LastNumber := Some 2 |}
               (Some (mkHttpResponse 200)) None
           else mkApiResult zero_page (Some (mkHttpResponse 400)) (Some "no such page")
       | None => mkApiResult zero_page (Some (mkHttpResponse 400)) (Some "no page number")
       end |}.

(** A server whose search finds nothing: one empty page. *)
Definition empty_api : ApiInstances :=
  {| api_GetMonitorConfigPolicy := api_GetMonitorConfigPolicy (failing_api 500);
     api_CreateMonitorConfigPolicy := api_CreateMonitorConfigPolicy (failing_api 500);
     api_UpdateMonitorConfigPolicy := api_UpdateMonitorConfigPolicy (failing_api 500);
     api_DeleteMonitorConfigPolicy := api_DeleteMonitorConfigPolicy (failing_api 500);
     api_SearchSLO := fun _ =>
       mkApiResult {| ssr_Slos := Some []; ssr_LastNumber := Some 0 |}
         (Some (mkHttpResponse 200)) None |}.

Definition slo_schema : gmap string ValueType :=
  {[ "ids" := TypeList; "name_query" := TypeString; "tags_query" := TypeString;
     "metrics_query" := TypeString; "error_on_no_results" := TypeBool;
     "q" := TypeString; "slos" := TypeList ]}.

Definition slo_config (values : gmap string value) : ResourceData :=
  {| rd_values := values; rd_schema := slo_schema; rd_id := "" |}.

(** q="service:none", error_on_no_results=false. *)
Definition d_opt_out : ResourceData :=
  slo_config {[ "q" := VString "service:none"; "error_on_no_results" := VBool false ]}.

(** name_query="checkout", tags_query="env:prod", no ["q"]. *)
Definition d_structured : ResourceData :=
  slo_config {[ "name_query" := VString "checkout"; "tags_query" := VString "env:prod" ]}.

(** ids=["a|b"] alone, ids=["a"] with name_query="b", and ids=["a"] with
    name_query="b|". *)
Definition d_ids_ab : ResourceData :=
  slo_config {[ "ids" := VList [VString "a|b"] ]}.
Definition d_ids_a_name_b : ResourceData :=
  slo_config {[ "ids" := VList [VString "a"]; "name_query" := VString "b" ]}.
Definition d_ids_a_name_b_bar : ResourceData :=
  slo_config {[ "ids" := VList [VString "a"]; "name_query" := VString "b|" ]}.

(** The ["query"] variant with nothing configured. *)
Definition d_no_query : ResourceData :=
  {| rd_values := ∅;
     rd_schema := {[ "query" := TypeString; "slos" := TypeList ]};
     rd_id := "" |}.

(** Whether a string holds the separator of the hash key. *)
Fixpoint has_sep (s : string) : bool :=
  match s with
  | EmptyString => false
  | String a s' => if Ascii.eqb a "|"%char then true else has_sep s'
  end.

(** q="env:prod" with and without a name_query beside it. *)
Definition d_q_only : ResourceData :=
  slo_config {[ "q" := VString "env:prod" ]}.
Definition d_q_and_name : ResourceData :=
  slo_config {[ "q" := VString "env:prod"; "name_query" := VString "checkout" ]}.

(** [d_structured] with error_on_no_results=true beside the filters. *)
Definition d_structured_flag : ResourceData :=
  slo_config {[ "name_query" := VString "checkout"; "tags_query" := VString "env:prod";
                "error_on_no_results" := VBool true ]}.

(** ** The listing of monitor config policies
    ([dataSourceDatadogMonitorConfigPoliciesRead]) *)

(** [MonitorConfigPolicyListResponse] *)
Record MonitorConfigPolicyListResponse : Type := {
  lr_Data : list MonitorConfigPolicyResponseData;
  lr_UnparsedObject : UnparsedObject
}.

#[export] Instance unparsed_ListResponse : Unparsed MonitorConfigPolicyListResponse :=
  fun o => has_unparsed (lr_UnparsedObject o) || existsb unparsed (lr_Data o).

(** The nil-safe getter [attributes.GetPolicy()]: the zero policy for a nil
    pointer. *)
Definition GetPolicy (a : MonitorConfigPolicyAttributeResponse) : MonitorConfigPolicyPolicy :=
  default {| pp_MonitorConfigPolicyTagPolicy := None; pp_UnparsedObject := None |}
          (ar_Policy a).

Module MonitorConfigPolicies.

(** [dataSourceDatadogMonitorConfigPolicies]: the schema.  Each element of
    ["monitor_config_policies"] holds an ["id"] declared as an integer, a
    ["policy_type"] and a ["tag_policy"] list of blocks. *)
Definition dataSourceDatadogMonitorConfigPolicies : list (string * Shape) :=
  [("monitor_config_policies",
    ShList (ShResource
              [("id", ShInt); ("policy_type", ShString);
               ("tag_policy", ShList (ShResource MonitorConfigPolicy.tag_policy_block))]))].

(** The body of [for i, mcp := range monitorConfigPolicies.Data]: the map for
    one policy; the ["tag_policy"] key is added only when the payload is
    there. *)
Definition policy_row (mcp : MonitorConfigPolicyResponseData) : value :=
  let attributes := GetAttributes (Some mcp) in
  let row := [("id", VString (GetId (Some mcp)));
              ("policy_type", VString (GetPolicyType attributes))] in
  let policy := GetPolicy attributes in
  match pp_MonitorConfigPolicyTagPolicy policy with
  | Some tp =>
      VMap (row ++
            [("tag_policy",
              VMap [("tag_key", VString (GetTagKey (Some tp)));
                    ("tag_key_required", VBool (GetTagKeyRequired (Some tp)));
                    ("valid_tag_values",
                     MonitorConfigPolicy.strings_value (GetValidTagValues (Some tp)))])])
  | None => VMap row
  end.

(** [dataSourceDatadogMonitorConfigPoliciesRead].  [ListMonitorConfigPolicies]
    takes no parameter of the caller, so the server is given by what that one
    call returns.  The error of [d.Set] is discarded. *)
Definition dataSourceDatadogMonitorConfigPoliciesRead
    (ListMonitorConfigPolicies : ApiResult MonitorConfigPolicyListResponse)
    : M Diagnostics :=
  let monitorConfigPolicies := api_value ListMonitorConfigPolicies in
  let httpresp := api_httpresp ListMonitorConfigPolicies in
  match api_err ListMonitorConfigPolicies with
  | Some err =>
      ret (TranslateClientErrorDiag err httpresp "error querying monitor config policies")
  | None =>
      match CheckForUnparsed monitorConfigPolicies with
      | Some err => ret (FromErr err)
      | None =>
          let tfMonitorConfigPolicies := policy_row <$> lr_Data monitorConfigPolicies in
          modify_data (SetId "monitor-config-policies") ;;;
          set_field dataSourceDatadogMonitorConfigPolicies "monitor_config_policies"
            (VList tfMonitorConfigPolicies) ;;;
          ret []
      end
  end.

End MonitorConfigPolicies.

(** ** More configurations and mock servers *)

(** The resource data an operation on the policy resource leaves behind after
    [updateMonitorConfigPolicyState m] returned: the identity and the policy
    type of the response. *)
Definition policy_state (m : option MonitorConfigPolicyResponseData) (d : ResourceData)
    : ResourceData :=
  Set_ "policy_type" (VString (GetPolicyType (GetAttributes m))) (SetId (GetId m) d).

(** A response with everything mapped. *)
Definition clean_data (id : string) : MonitorConfigPolicyResponseData :=
  {| rsd_Attributes := Some
       {| ar_Policy := Some {| pp_MonitorConfigPolicyTagPolicy := Some env_tag_policy;
                               pp_UnparsedObject := None |};
          ar_PolicyType := Some "tag";
          ar_UnparsedObject := None |};
     rsd_Id := Some id;
     rsd_UnparsedObject := None |}.

Definition clean_response : MonitorConfigPolicyResponse :=
  {| rs_Data := Some (clean_data "policy-1"); rs_UnparsedObject := None |}.

(** A response of type ["tag"] whose policy pointer is nil. *)
Definition hollow_response : MonitorConfigPolicyResponse :=
  {| rs_Data := Some
       {| rsd_Attributes := Some {| ar_Policy := None; ar_PolicyType := Some "tag";
                                    ar_UnparsedObject := None |};
          rsd_Id := Some "policy-1";
          rsd_UnparsedObject := None |};
     rs_UnparsedObject := None |}.

(** A server that answers get, create and update with the given response. *)
Definition answering_api (resp : MonitorConfigPolicyResponse) : ApiInstances :=
  {| api_GetMonitorConfigPolicy := fun _ => mkApiResult resp (Some (mkHttpResponse 200)) None;
     api_CreateMonitorConfigPolicy := fun _ =>
       mkApiResult resp (Some (mkHttpResponse 200)) None;
     api_UpdateMonitorConfigPolicy := fun _ _ =>
       mkApiResult resp (Some (mkHttpResponse 200)) None;
     api_DeleteMonitorConfigPolicy := fun _ => mkApiResult tt (Some (mkHttpResponse 204)) None;
     api_SearchSLO := api_SearchSLO (failing_api 500) |}.

(** A configuration whose schema does not declare ["tag_key"]. *)
Definition d_tag_undeclared : ResourceData :=
  {| rd_values := {[ "policy_type" := VString "tag" ]};
     rd_schema := {[ "policy_type" := TypeString; "tag_policy" := TypeList ]};
     rd_id := "" |}.

(** A listing of two policies, the second without a payload. *)
Definition two_policies : MonitorConfigPolicyListResponse :=
  {| lr_Data :=
       [clean_data "p-1";
        {| rsd_Attributes := Some {| ar_Policy := None; ar_PolicyType := Some "tag";
                                     ar_UnparsedObject := None |};
           rsd_Id := Some "p-2";
           rsd_UnparsedObject := None |}];
     lr_UnparsedObject := None |}.

Definition d_listing : ResourceData :=
  {| rd_values := ∅;
     rd_schema := {[ "monitor_config_policies" := TypeList ]};
     rd_id := "" |}.

(** A search server given by the answer to each page number. *)
Definition search_api (page : Z -> ApiResult SearchSLOResponse) : ApiInstances :=
  {| api_GetMonitorConfigPolicy := api_GetMonitorConfigPolicy (failing_api 500);
     api_CreateMonitorConfigPolicy := api_CreateMonitorConfigPolicy (failing_api 500);
     api_UpdateMonitorConfigPolicy := api_UpdateMonitorConfigPolicy (failing_api 500);
     api_DeleteMonitorConfigPolicy := api_DeleteMonitorConfigPolicy (failing_api 500);
     api_SearchSLO := fun p => page (default (-1) (sp_PageNumber p)) |}.

Definition ok_page (items : list SearchSLOResponseDataAttributesSlos) (last : Z)
    : ApiResult SearchSLOResponse :=
  mkApiResult {| ssr_Slos := Some items; ssr_LastNumber := Some last |}
    (Some (mkHttpResponse 200)) None.

Definition failed_page : ApiResult SearchSLOResponse :=
  mkApiResult zero_page (Some (mkHttpResponse 503)) (Some "service unavailable").

(** Page 0 arrives and announces more, page 1 fails. *)
Definition flaky_api : ApiInstances :=
  search_api (fun i => if decide (i = 0) then ok_page (three_pages 0) 2 else failed_page).

(** Every page announces a later last page. *)
Definition endless_api : ApiInstances :=
  search_api (fun i => ok_page [mk_slo "s" "slo" None] (i + 1)).

(** One page whose second item has no id. *)
Definition anonymous_slo : SearchSLOResponseDataAttributesSlos :=
  {| slo_Id := None; slo_Name := Some "nameless"; slo_SloType := Some "metric";
     slo_UnparsedObject := None |}.

Definition anonymous_api : ApiInstances :=
  search_api (fun _ => ok_page [mk_slo "a0" "latency" None; anonymous_slo] 0).

(** The calls of a loop that starts at page [j] and makes [n] iterations,
    with the wrap-around of the page counter. *)
Fixpoint loop_calls (rp : SearchSLOOptionalParameters) (j : Z) (n : nat) : list ApiCall :=
  match n with
  | O => []
  | S n' => CallSearchSLO (sp_WithPageNumber j rp) :: loop_calls rp (wrap64 (j + 1)) n'
  end.

(** How the result of the loop in the read of the ["query"] variant reads as
    a result of [searchSLO]. *)
Definition as_search_result (r : Diagnostics + Diagnostics * list value)
    : Diagnostics * list value :=
  match r with
  | inl early => (early, [])
  | inr p => p
  end.

Definition as_search_outcome
    (p : outcome (Diagnostics + Diagnostics * list value) * World)
    : outcome (Diagnostics * list value) * World :=
  match p with
  | (Val r, w) => (Val (as_search_result r), w)
  | (Panic msg, w) => (Panic msg, w)
  | (OutOfFuel, w) => (OutOfFuel, w)
  end.

(** Whether a character is a lower-case hexadecimal digit. *)
Definition is_hex_digit (a : ascii) : bool :=
  let n := Z.of_N (N_of_ascii a) in
  ((48 <=? n) && (n <=? 57)) || ((97 <=? n) && (n <=? 102)).

Fixpoint all_chars (p : ascii -> bool) (s : string) : bool :=
  match s with
  | EmptyString => true
  | String a s' => p a && all_chars p s'
  end.

(** ** Vocabulary for the identities of the reads *)

(** Whether a string holds a character. *)
Fixpoint has_char (c : ascii) (s : string) : bool :=
  match s with
  | EmptyString => false
  | String a s' => if Ascii.eqb a c then true else has_char c s'
  end.

(** A configuration read as a free-text query: ["q"] holds the non-empty
    string [q], whatever the other filters hold. *)
Definition free_text_config (d : ResourceData) (q : string) : Prop :=
  Get d "q" = VString q /\ q <> "".

(** A configuration read as structured filters: ["q"] holds nothing, ["ids"]
    holds the strings [ids] and the three queries hold [name], [tags] and
    [metrics]; the empty list and the empty string are a filter left out. *)
Definition structured_config (d : ResourceData) (ids : list string)
    (name tags metrics : string) : Prop :=
  is_zero (Get d "q") = true
  /\ Get d "ids" = VList (VString <$> ids)
  /\ Get d "name_query" = VString name
  /\ Get d "tags_query" = VString tags
  /\ Get d "metrics_query" = VString metrics.

(** Filters that can be read back from the hashed key: no id is empty or
    holds [","] or ["|"], and neither the name query nor the tags query holds
    ["|"]. *)
Definition separable (ids : list string) (name tags : string) : bool :=
  forallb (fun s => match s with
                    | EmptyString => false
                    | _ => negb (has_char "," s) && negb (has_sep s)
                    end) ids
  && negb (has_sep name) && negb (has_sep tags).

(** The identity a run of [read_query] has computed, if it got that far. *)
Definition computed_identity
    (r : outcome (Diagnostics + Diagnostics * list value * string) * World)
    : option string :=
  match fst r with
  | Val (inr (_, _, resourceID)) => Some resourceID
  | _ => None
  end.

(** ids=["a,b"] and ids=["a","b"]; ids=[""] and no filter at all; q="a|||"
    and ids=["a"]. *)
Definition d_ids_comma : ResourceData :=
  slo_config {[ "ids" := VList [VString "a,b"] ]}.
Definition d_ids_two : ResourceData :=
  slo_config {[ "ids" := VList [VString "a"; VString "b"] ]}.
Definition d_ids_blank : ResourceData :=
  slo_config {[ "ids" := VList [VString ""] ]}.
Definition d_no_filter : ResourceData := slo_config ∅.
Definition d_q_bars : ResourceData :=
  slo_config {[ "q" := VString "a|||" ]}.
Definition d_ids_a : ResourceData :=
  slo_config {[ "ids" := VList [VString "a"] ]}.

(** ids=["a"] with name_query="b" and with name_query="c". *)
Definition d_ids_a_name_c : ResourceData :=
  slo_config {[ "ids" := VList [VString "a"]; "name_query" := VString "c" ]}.

(** q="env:staging". *)
Definition d_q_staging : ResourceData :=
  slo_config {[ "q" := VString "env:staging" ]}.

(** ** Servers with rejected items *)





(** * Properties *)

(** ** General facts about computations *)

Lemma bind_Val {A B : Type} (m : M A) (k : A -> M B) (w w' : World) (a : A) :
  m w = (Val a, w') -> bind m k w = k a w'.
Proof. intros E. unfold bind. rewrite E. reflexivity. Qed.

(** A key the schema does not declare holds no value, and [d.GetOk] reports
    the nil interface for it. *)
Lemma in_schema_undeclared (d : ResourceData) (key : string) :
  in_schema d = true -> rd_schema d !! key = None -> rd_values d !! key = None.
Proof.
  intros Hin Hs. destruct (rd_values d !! key) as [v|] eqn:Hv; [|reflexivity].
  exfalso. unfold in_schema in Hin. rewrite forallb_forall in Hin.
  specialize (Hin (key, v)).
  rewrite <- list_elem_of_In, elem_of_map_to_list in Hin.
  specialize (Hin Hv). cbn in Hin. apply bool_decide_eq_true in Hin.
  rewrite Hs in Hin. destruct Hin as [x Hx]. discriminate.
Qed.

Lemma GetOk_undeclared (d : ResourceData) (key : string) :
  in_schema d = true -> rd_schema d !! key = None -> GetOk d key = (VNil, false).
Proof.
  intros Hin Hs. unfold GetOk, Get.
  rewrite (in_schema_undeclared d key Hin Hs), Hs. reflexivity.
Qed.

(** ** The monitor config policy resource *)

Section PolicyResource.
Import MonitorConfigPolicy.

(** The schema declares ["policy_type"] and the ["tag_policy"] block; the
    three keys of the block are not keys of the resource data. *)
Example policy_schema_declares :
  fst <$> resourceDatadogMonitorConfigPolicy = ["policy_type"; "tag_policy"]
  /\ policy_schema !! "policy_type" = Some TypeString
  /\ policy_schema !! "tag_policy" = Some TypeList
  /\ policy_schema !! "tag_key" = None
  /\ policy_schema !! "tag_key_required" = None
  /\ policy_schema !! "valid_tag_values" = None
  /\ in_schema d_tag = true /\ in_schema d_tag_no_key = true
  /\ in_schema d_unsupported = true
  /\ in_schema d_flat = true /\ rd_schema d_flat <> policy_schema.
Proof. repeat split; try (vm_compute; reflexivity). vm_compute. discriminate. Qed.

(** A string that is not ["tag"] has no policy type. *)
Lemma NewMonitorConfigPolicyTypeFromValue_unsupported (s : string) :
  s <> MONITORCONFIGPOLICYTYPE_TAG ->
  fst (NewMonitorConfigPolicyTypeFromValue s) = None.
Proof.
  intros Hs. unfold NewMonitorConfigPolicyTypeFromValue.
  destruct (decide (s = MONITORCONFIGPOLICYTYPE_TAG)); [contradiction | reflexivity].
Qed.

(** The create function holds no test of the policy type: reached with a
    string other than ["tag"], it issues no call and stops on the nil
    policy-type pointer. *)
Lemma create_without_validation_panics
    (api : ApiInstances) (d : ResourceData) (calls : list ApiCall) (s : string) :
  Get d "policy_type" = VString s ->
  s <> MONITORCONFIGPOLICYTYPE_TAG ->
  resourceDatadogMonitorConfigPolicyCreate api (mkWorld d calls)
  = (Panic nil_deref, mkWorld d calls).
Proof.
  intros Hget Hs.
  unfold resourceDatadogMonitorConfigPolicyCreate, buildMonitorConfigPolicyCreateV2Struct.
  unfold bind, get_data. cbn. rewrite Hget. cbn.
  pose proof (NewMonitorConfigPolicyTypeFromValue_unsupported s Hs) as Hn.
  destruct (NewMonitorConfigPolicyTypeFromValue s) as [pt e]. cbn in Hn. subst pt.
  reflexivity.
Qed.

(** The validation of ["policy_type"] accepts ["tag"], and an accepted
    configuration is handed to the operation. *)
Lemma validate_policy_type_tag (op : M Diagnostics) (w : World) :
  Get (w_data w) "policy_type" = VString MONITORCONFIGPOLICYTYPE_TAG ->
  validate_policy_type (w_data w) = []
  /\ validated validate_policy_type op w = op w.
Proof.
  intros Hget.
  assert (Hv : validate_policy_type (w_data w) = []).
  { unfold validate_policy_type, ValidateEnumValue. rewrite Hget.
    unfold NewMonitorConfigPolicyTypeFromValue.
    destruct (decide (MONITORCONFIGPOLICYTYPE_TAG = MONITORCONFIGPOLICYTYPE_TAG));
      [reflexivity | contradiction]. }
  split; [exact Hv|].
  unfold validated, bind, get_data. cbn. rewrite Hv. reflexivity.
Qed.




(** Whenever [buildUpdateRequestPolicy] returns for the ["tag"] type, the tag
    policy it returns has no member set. *)
Lemma buildUpdateRequestPolicy_returns_empty
    (w w' : World) (p : option MonitorConfigPolicyPolicy) :
  buildUpdateRequestPolicy MONITORCONFIGPOLICYTYPE_TAG w = (Val p, w') ->
  p = Some {| pp_MonitorConfigPolicyTagPolicy := Some NewMonitorConfigPolicyTagPolicy;
              pp_UnparsedObject := None |}.
Proof.
  unfold buildUpdateRequestPolicy, bind, get_data. cbn.
  destruct (decide (MONITORCONFIGPOLICYTYPE_TAG = MONITORCONFIGPOLICYTYPE_TAG))
    as [_|Hne]; [|contradiction].
  destruct (GetOk (w_data w) "tag_key") as [attr ok].
  destruct ok.
  - destruct attr; cbn; discriminate.
  - cbn. destruct (GetOk (w_data w) "valid_tag_values") as [attr' ok'].
    destruct ok'; cbn.
    + destruct attr'; cbn; try discriminate.
      destruct (assert_strings l w) as [[r| |] w1]; cbn; try discriminate.
      intros [= <- _]. reflexivity.
    + intros [= <- _]. reflexivity.
Qed.

(** C1 (the code on the schema of the resource).  The schema declares
    ["policy_type"] and the ["tag_policy"] block, so resource data hold no
    value under the top-level keys ["tag_key"] and ["valid_tag_values"] that
    [buildUpdateRequestPolicy] reads; ["tag_key_required"] it does not read at
    all.  Whatever the ["tag_policy"] block is configured with, the tag policy
    it returns for the ["tag"] type has no member set. *)
Theorem buildUpdateRequestPolicy_misses_set_fields
    (d : ResourceData) (calls : list ApiCall) :
  rd_schema d = policy_schema ->
  in_schema d = true ->
  buildUpdateRequestPolicy MONITORCONFIGPOLICYTYPE_TAG (mkWorld d calls)
  = (Val (Some {| pp_MonitorConfigPolicyTagPolicy :=
                    Some {| tp_TagKey := None; tp_TagKeyRequired := None;
                            tp_ValidTagValues := None;
                            tp_UnparsedObject := None |};
                  pp_UnparsedObject := None |}),
     mkWorld d calls).
Proof.
  intros Hs Hin.
  assert (Hk : GetOk d "tag_key" = (VNil, false)).
  { apply GetOk_undeclared; [exact Hin | rewrite Hs; reflexivity]. }
  assert (Hv : GetOk d "valid_tag_values" = (VNil, false)).
  { apply GetOk_undeclared; [exact Hin | rewrite Hs; reflexivity]. }
  unfold buildUpdateRequestPolicy, bind, get_data. cbn.
  destruct (decide (MONITORCONFIGPOLICYTYPE_TAG = MONITORCONFIGPOLICYTYPE_TAG))
    as [_|Hne]; [|contradiction].
  rewrite Hk, Hv. reflexivity.
Qed.

Lemma buildUpdateRequestPolicy_misses_set_fields_witness :
  Get d_tag "tag_policy"
  = VList [VMap [("tag_key", VString "env"); ("tag_key_required", VBool true);
                 ("valid_tag_values", VString "prod")]]
  /\ buildUpdateRequestPolicy MONITORCONFIGPOLICYTYPE_TAG (mkWorld d_tag [])
     = (Val (Some {| pp_MonitorConfigPolicyTagPolicy :=
                       Some {| tp_TagKey := None; tp_TagKeyRequired := None;
                               tp_ValidTagValues := None;
                               tp_UnparsedObject := None |};
                     pp_UnparsedObject := None |}),
        mkWorld d_tag []).
Proof.
  split; [reflexivity|].
  apply (buildUpdateRequestPolicy_misses_set_fields d_tag []).
  - reflexivity.
  - vm_compute. reflexivity.
Defined.

(** The update of [d_tag] sends that empty tag policy: the one call of the
    operation carries an edit request in which no field of the configured
    block appears. *)
Example update_sends_empty_tag_policy :
  w_calls (snd (run (resourceDatadogMonitorConfigPolicyUpdate (failing_api 500)) d_tag))
  = [CallUpdateMonitorConfigPolicy "policy-1"
       (NewMonitorConfigPolicyEditRequest
          {| ed_Attributes :=
               {| ae_Policy :=
                    {| pp_MonitorConfigPolicyTagPolicy :=
                         Some {| tp_TagKey := None; tp_TagKeyRequired := None;
                                 tp_ValidTagValues := None;
                                 tp_UnparsedObject := None |};
                       pp_UnparsedObject := None |};
                  ae_PolicyType := "tag"; ae_UnparsedObject := None |};
             ed_Id := "policy-1";
             ed_Type := MONITORCONFIGPOLICYRESOURCETYPE_MONITOR_CONFIG_POLICY;
             ed_UnparsedObject := None |})].
Proof. vm_compute. reflexivity. Qed.

(** A request built by [buildMonitorConfigPolicyCreateV2Struct] holds no
    unparsed member: checking it finds nothing. *)
Lemma buildMonitorConfigPolicyCreateV2Struct_parsed
    (w w' : World) (m : MonitorConfigPolicyCreateRequest) :
  buildMonitorConfigPolicyCreateV2Struct w = (Val m, w') ->
  CheckForUnparsed m = None.
Proof.
  unfold buildMonitorConfigPolicyCreateV2Struct, buildCreateRequestPolicy, bind, get_data.
  cbn.
  destruct (Get (w_data w) "policy_type"); cbn; try discriminate.
  destruct (NewMonitorConfigPolicyTypeFromValue s) as [[pt|] e]; cbn; try discriminate.
  destruct (decide (pt = MONITORCONFIGPOLICYTYPE_TAG)); cbn; try discriminate.
  destruct (Get (w_data w) "tag_key"); cbn; try discriminate.
  destruct (Get (w_data w) "tag_key_required"); cbn; try discriminate.
  destruct (Get (w_data w) "valid_tag_values"); cbn; try discriminate.
  destruct (assert_strings l w) as [[r| |] w1]; cbn; try discriminate.
  intros [= <- _]. reflexivity.
Qed.

(** The state function returns no diagnostics when it returns. *)
Lemma updateMonitorConfigPolicyState_no_diagnostics
    (m : option MonitorConfigPolicyResponseData) (w w' : World) (diags : Diagnostics) :
  updateMonitorConfigPolicyState m w = (Val diags, w') -> diags = [].
Proof.
  unfold updateMonitorConfigPolicyState, bind, modify_data, set_field. cbn.
  destruct (decide _); cbn.
  - destruct (ar_Policy _); cbn; try discriminate. intros [= <- _]. reflexivity.
  - intros [= <- _]. reflexivity.
Qed.

(** Create, after a call that succeeded, returns no diagnostics at all when it
    returns: unparsed members of the response go unnoticed. *)
Lemma create_never_reports_unparsed
    (api : ApiInstances) (w w1 w2 : World) (m : MonitorConfigPolicyCreateRequest)
    (diags : Diagnostics) :
  buildMonitorConfigPolicyCreateV2Struct w = (Val m, w1) ->
  api_err (api_CreateMonitorConfigPolicy api m) = None ->
  resourceDatadogMonitorConfigPolicyCreate api w = (Val diags, w2) ->
  diags = [].
Proof.
  intros Hb He. unfold resourceDatadogMonitorConfigPolicyCreate.
  rewrite (bind_Val _ _ _ _ _ Hb).
  unfold bind at 1. cbn [record_call]. rewrite He.
  rewrite (buildMonitorConfigPolicyCreateV2Struct_parsed _ _ _ Hb).
  unfold bind at 1.
  destruct (rs_Data (api_value (api_CreateMonitorConfigPolicy api m))) as [data|];
    cbn [deref ret panic]; try discriminate.
  unfold bind at 1.
  destruct (rsd_Id data); cbn [deref ret panic]; try discriminate.
  unfold bind at 1. cbn [modify_data].
  apply updateMonitorConfigPolicyState_no_diagnostics.
Qed.






(** C8.  A read whose call fails with status 404 clears the identity and
    returns no diagnostics; a read whose call fails in any other way returns
    the translated error diagnostic and leaves the resource data, the
    identity included, as they were. *)
Theorem read_not_found_clears_identity
    (api : ApiInstances) (d : ResourceData) (calls : list ApiCall) (err : error) :
  api_err (api_GetMonitorConfigPolicy api (Id d)) = Some err ->
  let httpresp := api_httpresp (api_GetMonitorConfigPolicy api (Id d)) in
  let calls' := calls ++ [CallGetMonitorConfigPolicy (Id d)] in
  ((exists h, httpresp = Some h /\ StatusCode h = 404) ->
   resourceDatadogMonitorConfigPolicyRead api (mkWorld d calls)
   = (Val [], mkWorld (SetId "" d) calls')
   /\ Id (SetId "" d) = "")
  /\ (~ (exists h, httpresp = Some h /\ StatusCode h = 404) ->
      resourceDatadogMonitorConfigPolicyRead api (mkWorld d calls)
      = (Val (TranslateClientErrorDiag err httpresp "error getting monitor config policy"),
         mkWorld d calls')
      /\ HasError (TranslateClientErrorDiag err httpresp
                     "error getting monitor config policy") = true).
Proof.
  intros He httpresp calls'. subst httpresp calls'.
  unfold resourceDatadogMonitorConfigPolicyRead, bind, get_data, record_call.
  unfold Id in *. cbn. rewrite He. split.
  - intros (h & Hh & Hs). rewrite Hh.
    destruct (decide (StatusCode h = 404)); [|contradiction].
    split; reflexivity.
  - intros Hn.
    destruct (api_httpresp (api_GetMonitorConfigPolicy api (rd_id d))) as [h|] eqn:Hh.
    + destruct (decide (StatusCode h = 404)) as [Hs|Hs].
      * exfalso. apply Hn. exists h. split; [reflexivity | exact Hs].
      * split; reflexivity.
    + split; reflexivity.
Qed.

Lemma read_not_found_clears_identity_witness :
  (resourceDatadogMonitorConfigPolicyRead (failing_api 404) (mkWorld d_tag [])
   = (Val [], mkWorld (SetId "" d_tag) [CallGetMonitorConfigPolicy "policy-1"])
   /\ Id (SetId "" d_tag) = "")
  /\ (resourceDatadogMonitorConfigPolicyRead (failing_api 500) (mkWorld d_tag [])
      = (Val (TranslateClientErrorDiag "request failed" (Some (mkHttpResponse 500))
                "error getting monitor config policy"),
         mkWorld d_tag [CallGetMonitorConfigPolicy "policy-1"])
      /\ HasError (TranslateClientErrorDiag "request failed" (Some (mkHttpResponse 500))
                     "error getting monitor config policy") = true).
Proof.
  split.
  - apply (read_not_found_clears_identity (failing_api 404) d_tag [] "request failed").
    + reflexivity.
    + exists (mkHttpResponse 404). split; reflexivity.
  - apply (read_not_found_clears_identity (failing_api 500) d_tag [] "request failed").
    + reflexivity.
    + intros (h & Hh & Hs). cbn in Hh. injection Hh as <-. cbn in Hs. discriminate.
Defined.

End PolicyResource.

(** ** The paginated search *)

Section Pagination.

Lemma wrap64_succ (j : Z) : 0 <= j -> j + 1 < 2 ^ 63 -> wrap64 (j + 1) = j + 1.
Proof.
  intros H0 H1. unfold wrap64.
  rewrite Z.mod_small; lia.
Qed.

Lemma rejection_warnings_cons (slo : SearchSLOResponseDataAttributesSlos)
    (items : list SearchSLOResponseDataAttributesSlos) :
  rejection_warnings (slo :: items)
  = match CheckForUnparsed slo with
    | Some err => skip_warning (id_of slo) err :: rejection_warnings items
    | None => rejection_warnings items
    end.
Proof.
  unfold rejection_warnings, rejected. cbn [List.filter].
  destruct (CheckForUnparsed slo) eqn:E; rewrite ?fmap_cons, ?E; reflexivity.
Qed.

Lemma accepted_rows_cons (slo : SearchSLOResponseDataAttributesSlos)
    (items : list SearchSLOResponseDataAttributesSlos) :
  accepted_rows (slo :: items)
  = match CheckForUnparsed slo with
    | Some _ => accepted_rows items
    | None => slo_row (id_of slo) slo :: accepted_rows items
    end.
Proof.
  unfold accepted_rows, rejected. cbn [List.filter].
  destruct (CheckForUnparsed slo) eqn:E; rewrite ?fmap_cons, ?E; reflexivity.
Qed.

(** The rows of accepted items have the shape the schema declares for
    ["slos"]: [d.Set("slos", rows)] stores them. *)
Lemma accepted_rows_stored (items : list SearchSLOResponseDataAttributesSlos)
    (d : ResourceData) :
  Set_in slos_schema "slos" (VList (accepted_rows items)) d
  = (None, Set_ "slos" (VList (accepted_rows items)) d).
Proof.
  unfold Set_in. cbn [field_shape slos_schema String.eqb Ascii.eqb Bool.eqb].
  assert (Hc : conforms (VList (accepted_rows items))
                 (ShList (ShResource [("id", ShString); ("name", ShString);
                                      ("type", ShString)])) = true).
  { unfold accepted_rows.
    induction (List.filter (fun slo => negb (rejected slo)) items) as [|slo l IH];
      [reflexivity | exact IH]. }
  rewrite Hc. reflexivity.
Qed.

(** The loop over the items of a page, when every item carries an id. *)
Lemma scan_page_run (items : list SearchSLOResponseDataAttributesSlos) :
  Forall (fun slo => is_Some (slo_Id slo)) items ->
  forall (diags : Diagnostics) (slosPage : list value) (w : World),
    scan_page items diags slosPage w
    = (Val (diags ++ rejection_warnings items, slosPage ++ accepted_rows items), w).
Proof.
  induction 1 as [|slo items [id Hid] _ IH]; intros diags slosPage w.
  - cbn. rewrite !app_nil_r. reflexivity.
  - cbn [scan_page]. rewrite rejection_warnings_cons, accepted_rows_cons.
    unfold id_of. rewrite Hid.
    destruct (CheckForUnparsed slo) as [err|]; cbn; unfold bind; cbn;
      rewrite IH, <- app_assoc; reflexivity.
Qed.

Lemma sp_WithPageNumber_twice (i j : Z) (rp : SearchSLOOptionalParameters) :
  sp_WithPageNumber i (sp_WithPageNumber j rp) = sp_WithPageNumber i rp.
Proof. reflexivity. Qed.


Lemma seqZ_first (j n : Z) : 0 <= n -> seqZ j (n + 1) = j :: seqZ (j + 1) n.
Proof.
  intros Hn. rewrite seqZ_cons by lia.
  replace (Z.succ j) with (j + 1) by lia.
  replace (Z.pred (n + 1)) with n by lia. reflexivity.
Qed.

(** One iteration of the loop of [searchSLO] on a page that arrived. *)
Lemma searchSLO_loop_step (api : ApiInstances) (rp rp0 : SearchSLOOptionalParameters)
    (d : ResourceData) (fuel : nat) (j : Z)
    (acc : list (list value)) (diags : Diagnostics) (calls : list ApiCall)
    (items : list SearchSLOResponseDataAttributesSlos) (last : Z) :
  sp_WithPageNumber j rp0 = sp_WithPageNumber j rp ->
  fetched (fetch api rp j) items last ->
  SLOFilters.searchSLO_loop (S fuel) api rp0 j acc diags (mkWorld d calls)
  = if decide (last <= j) then
      (Val (diags ++ rejection_warnings items, mjoin (acc ++ [accepted_rows items])),
       mkWorld d (calls ++ [CallSearchSLO (sp_WithPageNumber j rp)]))
    else
      SLOFilters.searchSLO_loop fuel api (sp_WithPageNumber j rp) (wrap64 (j + 1))
        (acc ++ [accepted_rows items]) (diags ++ rejection_warnings items)
        (mkWorld d (calls ++ [CallSearchSLO (sp_WithPageNumber j rp)])).
Proof.
  intros Hrp (He & Hs & Hl & Hids). unfold fetch in *.
  cbn [SLOFilters.searchSLO_loop]. rewrite Hrp.
  unfold bind at 1. cbn [record_call]. rewrite He.
  unfold bind at 1. rewrite Hs. cbn [deref ret].
  unfold bind at 1. rewrite (scan_page_run items Hids).
  rewrite app_nil_l.
  unfold bind at 1. rewrite Hl. cbn [deref ret].
  destruct (decide (last <= j)); reflexivity.
Qed.












(** The three pages of [paged_api], walked by [searchSLO]: four rows in page
    order, one warning, three calls. *)
Example searchSLO_three_pages :
  fst (run (SLOFilters.searchSLO 5 paged_api
              (sp_WithQuery "env:prod" NewSearchSLOOptionalParameters)) (slo_config ∅))
  = Val ([{| diag_Severity := Warning;
             diag_Summary := "skipping service level objective with id: b1";
             diag_Detail := "service level objective contains unparsed object: "
                            +:+ "object contains unparsed element" |}],
         [VMap [("id", VString "a0"); ("name", VString "latency"); ("type", VString "metric")];
          VMap [("id", VString "a1"); ("name", VString "errors"); ("type", VString "metric")];
          VMap [("id", VString "b0"); ("name", VString "uptime"); ("type", VString "metric")];
          VMap [("id", VString "c0"); ("name", VString "freshness");
                ("type", VString "metric")]])
  /\ length (w_calls (snd (run (SLOFilters.searchSLO 5 paged_api
              (sp_WithQuery "env:prod" NewSearchSLOOptionalParameters)) (slo_config ∅))))
     = 3%nat.
Proof. split; vm_compute; reflexivity. Qed.






End Pagination.

(** ** The SLO data source with ["q"] and the structured filters *)

Section FilterDataSource.
Import SLOFilters.

(** [errorOnNoResults] is [true] whenever it is computed: [GetOk] reports a
    [false] value as not set. *)
Lemma read_errorOnNoResults_true (d : ResourceData) (w w' : World) (b : bool) :
  read_errorOnNoResults d w = (Val b, w') -> b = true /\ w' = w.
Proof.
  unfold read_errorOnNoResults, GetOk.
  destruct (rd_values d !! "error_on_no_results") as [v|].
  - destruct v as [| |[|]| | |]; cbn;
      try destruct (negb _); cbn; try discriminate; intros [= <- <-]; auto.
  - intros [= <- <-]. auto.
Qed.

(** C5.  When ["q"] is not set and the structured filters are read (whatever
    they are), [listSLO] is what runs: it returns no rows for any request
    parameters, the rows of the read are empty, and no call reaches the
    server.  Consequently, when [errorOnNoResults] is in effect as [true], the
    read fails with the zero-result error. *)
Theorem structured_filter_read_finds_nothing
    (fuel : nat) (api : ApiInstances) (d : ResourceData) (calls : list ApiCall)
    (ids nameQuery tagsQuery metricsQuery : option string)
    (reqParams : ListSLOsOptionalParameters) :
  snd (GetOk d "q") = false ->
  read_filters d (mkWorld d calls)
  = (Val (ids, nameQuery, tagsQuery, metricsQuery, reqParams), mkWorld d calls) ->
  (forall w, listSLO reqParams w = (Val ([], []), w))
  /\ read_query fuel api d (mkWorld d calls)
     = (Val (inr ([], [],
                  computeSLOsDataSourceIDByListEndpointCall
                    ids nameQuery tagsQuery metricsQuery)),
        mkWorld d calls)
  /\ (read_errorOnNoResults d (mkWorld d calls) = (Val true, mkWorld d calls) ->
      dataSourceDatadogServiceLevelObjectivesRead fuel api (mkWorld d calls)
      = (Val (Errorf no_result_message), mkWorld d calls)
      /\ HasError (Errorf no_result_message) = true).
Proof.
  intros Hq Hf.
  assert (Hrq : read_query fuel api d (mkWorld d calls)
                = (Val (inr ([], [],
                             computeSLOsDataSourceIDByListEndpointCall
                               ids nameQuery tagsQuery metricsQuery)),
                   mkWorld d calls)).
  { unfold read_query. destruct (GetOk d "q") as [v ok]. cbn in Hq. subst ok.
    rewrite (bind_Val _ _ _ _ _ Hf). reflexivity. }
  split; [reflexivity | split; [exact Hrq|]].
  intros He. unfold dataSourceDatadogServiceLevelObjectivesRead.
  unfold bind at 1. cbn [get_data w_data].
  rewrite (bind_Val _ _ _ _ _ He), (bind_Val _ _ _ _ _ Hrq).
  split; reflexivity.
Qed.

Lemma structured_filter_read_finds_nothing_witness :
  (forall w, listSLO (lp_WithTagsQuery "env:prod"
                        (lp_WithQuery "checkout" NewListSLOsOptionalParameters)) w
             = (Val ([], []), w))
  /\ read_query 5 paged_api d_structured (mkWorld d_structured [])
     = (Val (inr ([], [],
                  computeSLOsDataSourceIDByListEndpointCall
                    None (Some "checkout") (Some "env:prod") None)),
        mkWorld d_structured [])
  /\ (dataSourceDatadogServiceLevelObjectivesRead 5 paged_api (mkWorld d_structured [])
      = (Val (Errorf no_result_message), mkWorld d_structured [])
      /\ HasError (Errorf no_result_message) = true).
Proof.
  destruct (structured_filter_read_finds_nothing 5 paged_api d_structured []
              None (Some "checkout") (Some "env:prod") None
              (lp_WithTagsQuery "env:prod"
                 (lp_WithQuery "checkout" NewListSLOsOptionalParameters)))
    as (H1 & H2 & H3).
  - reflexivity.
  - reflexivity.
  - split; [exact H1 | split; [exact H2 | apply H3; reflexivity]].
Defined.

(** A read that finds nothing and computes [errorOnNoResults] fails with the
    zero-result error, whatever ["error_on_no_results"] is set to. *)
Lemma read_no_result_always_fails
    (fuel : nat) (api : ApiInstances) (w w1 w2 : World) (b : bool)
    (diags : Diagnostics) (resourceID : string) :
  read_errorOnNoResults (w_data w) w = (Val b, w1) ->
  read_query fuel api (w_data w) w1 = (Val (inr (diags, [], resourceID)), w2) ->
  dataSourceDatadogServiceLevelObjectivesRead fuel api w
  = (Val (Errorf no_result_message), w2).
Proof.
  intros He Hq. destruct (read_errorOnNoResults_true _ _ _ _ He) as [-> ->].
  unfold dataSourceDatadogServiceLevelObjectivesRead.
  unfold bind at 1. cbn [get_data].
  rewrite (bind_Val _ _ _ _ _ He), (bind_Val _ _ _ _ _ Hq). reflexivity.
Qed.

(** C7 (the code at an opted-out read).  With error_on_no_results explicitly
    set to [false] and a search that finds nothing, [GetOk] reports the key as
    not set, [errorOnNoResults] stays [true], and the read returns the
    zero-result error instead of an empty list. *)
Theorem read_ignores_error_on_no_results_false :
  rd_values d_opt_out !! "error_on_no_results" = Some (VBool false)
  /\ GetOk d_opt_out "error_on_no_results" = (VBool false, false)
  /\ fst (run (searchSLO 5 empty_api
                 (sp_WithQuery "service:none" NewSearchSLOOptionalParameters)) d_opt_out)
     = Val ([], [])
  /\ fst (run (dataSourceDatadogServiceLevelObjectivesRead 5 empty_api) d_opt_out)
     = Val (Errorf no_result_message)
  /\ HasError (Errorf no_result_message) = true.
Proof. repeat split; vm_compute; reflexivity. Qed.

(** *** The identity of a read *)

Lemma string_app_assoc (a b c : string) : (a +:+ b) +:+ c = a +:+ (b +:+ c).
Proof.
  induction a as [|x a IH]; [reflexivity|].
  change (String x ((a +:+ b) +:+ c) = String x (a +:+ (b +:+ c))).
  f_equal. exact IH.
Qed.

(** [keyStr] is the four fields, a nil pointer counting as the empty string,
    joined with ["|"]. *)
Lemma keyStr_joined (ids nameQuery tagsQuery metricsQuery : option string) :
  keyStr ids nameQuery tagsQuery metricsQuery
  = default "" ids +:+ "|" +:+ default "" nameQuery +:+ "|"
    +:+ default "" tagsQuery +:+ "|" +:+ default "" metricsQuery.
Proof.
  unfold keyStr.
  destruct ids, nameQuery, tagsQuery, metricsQuery; cbn [default];
    rewrite ?string_app_assoc; cbn; reflexivity.
Qed.

(** A field without the separator can be read back from the front of a key. *)
Lemma sep_split (s1 s2 r1 r2 : string) :
  has_sep s1 = false -> has_sep s2 = false ->
  s1 +:+ String "|" r1 = s2 +:+ String "|" r2 ->
  s1 = s2 /\ r1 = r2.
Proof.
  revert s2. induction s1 as [|a s1 IH]; intros [|b s2] H1 H2 E.
  - change (String "|" r1 = String "|" r2) in E. injection E as ->. auto.
  - change (String "|" r1 = String b (s2 +:+ String "|" r2)) in E.
    injection E as <- _. cbn in H2. discriminate.
  - change (String a (s1 +:+ String "|" r1) = String "|" r2) in E.
    injection E as -> _. cbn in H1. discriminate.
  - change (String a (s1 +:+ String "|" r1) = String b (s2 +:+ String "|" r2)) in E.
    injection E as -> E. cbn in H1, H2.
    destruct (Ascii.eqb b "|"); [discriminate|].
    destruct (IH s2 H1 H2 E) as [-> ->]. auto.
Qed.

(** [d.GetOk] is [d.Get] together with the test for the zero value. *)
Lemma GetOk_Get (d : ResourceData) (key : string) :
  GetOk d key = (Get d key, negb (is_zero (Get d key))).
Proof.
  unfold GetOk, Get. destruct (rd_values d !! key) as [v|]; [reflexivity|].
  destruct (rd_schema d !! key) as [[]|]; reflexivity.
Qed.

Lemma expandStringList_fmap (l : list string) : expandStringList (VString <$> l) = l.
Proof. induction l as [|s l IH]; [reflexivity|]. cbn. rewrite IH. reflexivity. Qed.

(** The pointers the structured-filter branch builds from a configuration:
    read as strings, a nil pointer counting as the empty string, they are
    the ids joined with [","] and the three queries. *)
Lemma read_filters_structured (d : ResourceData) (ids : list string)
    (name tags metrics : string) (w : World) :
  structured_config d ids name tags metrics ->
  exists idsPtr nameQueryPtr tagsQueryPtr metricsQueryPtr reqParams,
    read_filters d w
    = (Val (idsPtr, nameQueryPtr, tagsQueryPtr, metricsQueryPtr, reqParams), w)
    /\ default "" idsPtr = Join ids ","
    /\ default "" nameQueryPtr = name
    /\ default "" tagsQueryPtr = tags
    /\ default "" metricsQueryPtr = metrics.
Proof.
  intros (_ & Hi & Hn & Ht & Hm).
  unfold read_filters. rewrite !GetOk_Get, Hi, Hn, Ht, Hm.
  assert (Hz : forall x : string, is_zero (VString x) = true -> "" = x).
  { intros x Hx. cbn in Hx. apply bool_decide_eq_true in Hx. symmetry. exact Hx. }
  assert (Hl : is_zero (VList (VString <$> ids)) = true -> "" = Join ids ",").
  { destruct ids; [reflexivity | discriminate]. }
  unfold bind.
  destruct (is_zero (VList (VString <$> ids))) eqn:Ei;
    destruct (is_zero (VString name)) eqn:En;
    destruct (is_zero (VString tags)) eqn:Et;
    destruct (is_zero (VString metrics)) eqn:Em;
    cbn [negb assert_list assert_string ret];
    rewrite ?expandStringList_fmap;
    do 5 eexists; (split; [reflexivity|]); cbn [default];
    repeat split; auto.
Qed.

(** The structured-filter branch always computes an identity: the digest of
    the ids joined with [","], the name query, the tags query and the metrics
    query, joined with ["|"].  It issues no call. *)
Lemma read_query_structured (fuel : nat) (api : ApiInstances) (d : ResourceData)
    (ids : list string) (name tags metrics : string) (w : World) :
  structured_config d ids name tags metrics ->
  read_query fuel api d w
  = (Val (inr ([], [],
               sha256_hex (Join ids "," +:+ "|" +:+ name +:+ "|" +:+ tags
                           +:+ "|" +:+ metrics))), w).
Proof.
  intros Hc.
  destruct (read_filters_structured d ids name tags metrics w Hc)
    as (i & n & t & m & rp & Hf & Hi & Hn & Ht & Hm).
  destruct Hc as (Hq & _).
  unfold read_query. rewrite GetOk_Get, Hq. cbn [negb].
  rewrite (bind_Val _ _ _ _ _ Hf).
  unfold listSLO, bind, ret. cbn [HasError existsb].
  unfold computeSLOsDataSourceIDByListEndpointCall.
  rewrite keyStr_joined, Hi, Hn, Ht, Hm. reflexivity.
Qed.

(** The free-text branch, when it computes an identity, computes the digest
    of the query string. *)
Lemma read_query_free_text (fuel : nat) (api : ApiInstances) (d : ResourceData)
    (q : string) (w : World) (id : string) :
  free_text_config d q ->
  computed_identity (read_query fuel api d w) = Some id ->
  id = sha256_hex q.
Proof.
  intros [Hq Hne]. unfold computed_identity, read_query.
  rewrite GetOk_Get, Hq.
  assert (Hz : is_zero (VString q) = false).
  { cbn. apply bool_decide_eq_false. exact Hne. }
  rewrite Hz. cbn [negb assert_string].
  unfold bind at 1. cbn [ret]. unfold bind at 1.
  destruct (searchSLO fuel api _ w) as [[[diags slos]| |] w1]; cbn; try discriminate.
  destruct (HasError diags); cbn; [discriminate|].
  intros [= <-]. reflexivity.
Qed.

(** *** Reading the filters back from a key *)

Lemma has_sep_has_char (s : string) : has_sep s = has_char "|" s.
Proof. induction s as [|a s IH]; [reflexivity|]. cbn. rewrite IH. reflexivity. Qed.

Lemma has_char_app (c : ascii) (a b : string) :
  has_char c (a +:+ b) = has_char c a || has_char c b.
Proof.
  induction a as [|x a IH]; [reflexivity|].
  change (has_char c (String x (a +:+ b)) = has_char c (String x a) || has_char c b).
  cbn. destruct (Ascii.eqb x c); [reflexivity | exact IH].
Qed.

(** A field without the character [c] can be read back from the front of a
    string in which [c] follows it. *)
Lemma char_split (c : ascii) (s1 s2 r1 r2 : string) :
  has_char c s1 = false -> has_char c s2 = false ->
  s1 +:+ String c r1 = s2 +:+ String c r2 ->
  s1 = s2 /\ r1 = r2.
Proof.
  revert s2. induction s1 as [|a s1 IH]; intros [|b s2] H1 H2 E.
  - change (String c r1 = String c r2) in E. injection E as ->. auto.
  - change (String c r1 = String b (s2 +:+ String c r2)) in E.
    injection E as <- _. cbn in H2. rewrite Ascii.eqb_refl in H2. discriminate.
  - change (String a (s1 +:+ String c r1) = String c r2) in E.
    injection E as -> _. cbn in H1. rewrite Ascii.eqb_refl in H1. discriminate.
  - change (String a (s1 +:+ String c r1) = String b (s2 +:+ String c r2)) in E.
    injection E as -> E. cbn in H1, H2.
    destruct (Ascii.eqb b c); [discriminate|].
    destruct (IH s2 H1 H2 E) as [-> ->]. auto.
Qed.

Lemma Join_cons_comma (s t : string) (r : list string) :
  Join (s :: t :: r) "," = s +:+ String "," (Join (t :: r) ",").
Proof. reflexivity. Qed.

Lemma Join_cons_not_empty (s : string) (r : list string) :
  s <> "" -> Join (s :: r) "," <> "".
Proof.
  intros Hs. destruct r as [|t r]; [exact Hs|].
  rewrite Join_cons_comma. destruct s as [|a s]; [contradiction | discriminate].
Qed.

(** [strings.Join] with [","] is one-to-one on lists of non-empty strings
    that hold no [","]. *)
Lemma Join_comma_inj (l1 : list string) :
  forall l2 : list string,
    Forall (fun s => s <> "" /\ has_char "," s = false) l1 ->
    Forall (fun s => s <> "" /\ has_char "," s = false) l2 ->
    Join l1 "," = Join l2 "," -> l1 = l2.
Proof.
  induction l1 as [|a l1 IH]; intros l2 H1 H2 E.
  - destruct l2 as [|b l2]; [reflexivity|].
    exfalso. apply Forall_cons in H2 as [[Hb _] _].
    apply (Join_cons_not_empty b l2 Hb). symmetry. exact E.
  - apply Forall_cons in H1 as [[Ha Hca] H1].
    destruct l2 as [|b l2].
    { exfalso. apply (Join_cons_not_empty a l1 Ha). exact E. }
    apply Forall_cons in H2 as [[Hb Hcb] H2].
    destruct l1 as [|a' l1]; destruct l2 as [|b' l2].
    + cbn in E. subst b. reflexivity.
    + exfalso. rewrite Join_cons_comma in E. cbn [Join] in E. subst a.
      rewrite has_char_app in Hca. cbn in Hca.
      rewrite orb_true_r in Hca. discriminate.
    + exfalso. rewrite Join_cons_comma in E. cbn [Join] in E. subst b.
      rewrite has_char_app in Hcb. cbn in Hcb.
      rewrite orb_true_r in Hcb. discriminate.
    + rewrite !Join_cons_comma in E.
      destruct (char_split _ _ _ _ _ Hca Hcb E) as [-> E'].
      f_equal. apply IH; assumption.
Qed.

Lemma has_sep_Join (l : list string) :
  Forall (fun s => has_sep s = false) l -> has_sep (Join l ",") = false.
Proof.
  induction l as [|s l IH]; intros H; [reflexivity|].
  apply Forall_cons in H as [Hs H].
  destruct l as [|t l]; [exact Hs|].
  rewrite Join_cons_comma, has_sep_has_char, has_char_app, <- !has_sep_has_char.
  rewrite Hs. cbn [orb has_sep]. cbn. apply IH. exact H.
Qed.

Lemma separable_fields (ids : list string) (name tags : string) :
  separable ids name tags = true ->
  Forall (fun s => s <> "" /\ has_char "," s = false) ids
  /\ Forall (fun s => has_sep s = false) ids
  /\ has_sep name = false /\ has_sep tags = false.
Proof.
  unfold separable. rewrite !andb_true_iff, !negb_true_iff, forallb_forall.
  intros [[Hids Hn] Ht].
  split; [|split; [|split; assumption]].
  - apply Forall_forall. intros s Hin. apply list_elem_of_In in Hin.
    specialize (Hids s Hin). destruct s as [|a s]; [discriminate|].
    apply andb_true_iff in Hids as [Hc _]. apply negb_true_iff in Hc.
    split; [discriminate | exact Hc].
  - apply Forall_forall. intros s Hin. apply list_elem_of_In in Hin.
    specialize (Hids s Hin). destruct s as [|a s]; [reflexivity|].
    apply andb_true_iff in Hids as [_ Hs]. apply negb_true_iff in Hs. exact Hs.
Qed.

(** Separable filters can be read back from the key that is hashed. *)
Lemma list_key_inj (ids1 ids2 : list string) (name1 tags1 metrics1
                                               name2 tags2 metrics2 : string) :
  separable ids1 name1 tags1 = true ->
  separable ids2 name2 tags2 = true ->
  Join ids1 "," +:+ "|" +:+ name1 +:+ "|" +:+ tags1 +:+ "|" +:+ metrics1
  = Join ids2 "," +:+ "|" +:+ name2 +:+ "|" +:+ tags2 +:+ "|" +:+ metrics2 ->
  (ids1, name1, tags1, metrics1) = (ids2, name2, tags2, metrics2).
Proof.
  intros H1 H2 E.
  destruct (separable_fields _ _ _ H1) as (Hc1 & Hs1 & Hn1 & Ht1).
  destruct (separable_fields _ _ _ H2) as (Hc2 & Hs2 & Hn2 & Ht2).
  repeat change ("|" +:+ ?x) with (String "|" x) in E.
  destruct (sep_split _ _ _ _ (has_sep_Join _ Hs1) (has_sep_Join _ Hs2) E) as [Ei E1].
  destruct (sep_split _ _ _ _ Hn1 Hn2 E1) as [-> E2].
  destruct (sep_split _ _ _ _ Ht1 Ht2 E2) as [-> ->].
  rewrite (Join_comma_inj ids1 ids2 Hc1 Hc2 Ei). reflexivity.
Qed.

(** C6 (what fails).  Four pairs of reads that differ in a filter field and
    compute the same identity: ids=["a|b"] alone and ids=["a"] with
    name_query="b|" both hash ["a|b|||"]; ids=["a,b"] and ids=["a","b"] both
    hash ["a,b|||"]; ids=[""] and no filter at all both hash ["|||"]; and the
    free-text q="a|||" hashes the key of the structured ids=["a"]. *)
Lemma list_identity_collides_on_separator :
  (Get d_ids_ab "ids" <> Get d_ids_a_name_b_bar "ids"
   /\ computed_identity (run (read_query 5 paged_api d_ids_ab) d_ids_ab)
      = Some (sha256_hex "a|b|||")
   /\ computed_identity (run (read_query 5 empty_api d_ids_a_name_b_bar) d_ids_a_name_b_bar)
      = Some (sha256_hex "a|b|||"))
  /\ (Get d_ids_comma "ids" <> Get d_ids_two "ids"
      /\ computed_identity (run (read_query 5 paged_api d_ids_comma) d_ids_comma)
         = Some (sha256_hex "a,b|||")
      /\ computed_identity (run (read_query 5 empty_api d_ids_two) d_ids_two)
         = Some (sha256_hex "a,b|||"))
  /\ (Get d_ids_blank "ids" <> Get d_no_filter "ids"
      /\ computed_identity (run (read_query 5 paged_api d_ids_blank) d_ids_blank)
         = Some (sha256_hex "|||")
      /\ computed_identity (run (read_query 5 empty_api d_no_filter) d_no_filter)
         = Some (sha256_hex "|||"))
  /\ (Get d_q_bars "q" <> Get d_ids_a "q"
      /\ computed_identity (run (read_query 5 paged_api d_q_bars) d_q_bars)
         = Some (sha256_hex "a|||")
      /\ computed_identity (run (read_query 5 empty_api d_ids_a) d_ids_a)
         = Some (sha256_hex "a|||")).
Proof.
  repeat split; try (vm_compute; discriminate); vm_compute; reflexivity.
Qed.

(** C6 (as amended).  Two reads, each on its own configuration, server and
    trace.  When both are free-text reads, each identity that is computed is
    the SHA-256 digest of the query string: the same for the same ["q"],
    whatever the other filters hold, and different for different ["q"] unless
    SHA-256 collides on the two strings.  When both are structured-filter
    reads, each computes the digest of the key made of the ids joined with
    [","], the name query, the tags query and the metrics query, joined with
    ["|"]: the same for the same four filters; and when the filters are
    separable (no id empty or holding [","] or ["|"], no ["|"] in the name or
    tags query) and differ in a field, the keys differ, and so do the
    identities unless SHA-256 collides on the two keys.  The boundary case
    ids=["a|b"] with no name_query against ids=["a"] with name_query="b" gets
    different identities. *)
Theorem identity_determined_by_effective_filters
    (fuel1 fuel2 : nat) (api1 api2 : ApiInstances) (d1 d2 : ResourceData)
    (calls1 calls2 : list ApiCall) :
  let r1 := read_query fuel1 api1 d1 (mkWorld d1 calls1) in
  let r2 := read_query fuel2 api2 d2 (mkWorld d2 calls2) in
  (forall q1 q2 id1 id2,
     free_text_config d1 q1 -> free_text_config d2 q2 ->
     computed_identity r1 = Some id1 -> computed_identity r2 = Some id2 ->
     id1 = sha256_hex q1 /\ id2 = sha256_hex q2
     /\ (q1 = q2 -> id1 = id2)
     /\ (q1 <> q2 -> (sha256_hex q1 = sha256_hex q2 -> q1 = q2) -> id1 <> id2))
  /\ (forall ids1 name1 tags1 metrics1 ids2 name2 tags2 metrics2,
        structured_config d1 ids1 name1 tags1 metrics1 ->
        structured_config d2 ids2 name2 tags2 metrics2 ->
        let key1 := Join ids1 "," +:+ "|" +:+ name1 +:+ "|" +:+ tags1
                    +:+ "|" +:+ metrics1 in
        let key2 := Join ids2 "," +:+ "|" +:+ name2 +:+ "|" +:+ tags2
                    +:+ "|" +:+ metrics2 in
        computed_identity r1 = Some (sha256_hex key1)
        /\ computed_identity r2 = Some (sha256_hex key2)
        /\ ((ids1, name1, tags1, metrics1) = (ids2, name2, tags2, metrics2) ->
            computed_identity r1 = computed_identity r2)
        /\ (separable ids1 name1 tags1 = true -> separable ids2 name2 tags2 = true ->
            (ids1, name1, tags1, metrics1) <> (ids2, name2, tags2, metrics2) ->
            key1 <> key2
            /\ ((sha256_hex key1 = sha256_hex key2 -> key1 = key2) ->
                computed_identity r1 <> computed_identity r2)))
  /\ computed_identity (run (read_query 5 paged_api d_ids_ab) d_ids_ab)
     <> computed_identity (run (read_query 5 empty_api d_ids_a_name_b) d_ids_a_name_b).
Proof.
  intros r1 r2. subst r1 r2.
  split; [|split]; [| |vm_compute; discriminate].
  - intros q1 q2 id1 id2 Hc1 Hc2 H1 H2.
    pose proof (read_query_free_text _ _ _ _ _ _ Hc1 H1) as ->.
    pose proof (read_query_free_text _ _ _ _ _ _ Hc2 H2) as ->.
    split; [reflexivity|]. split; [reflexivity|].
    split; [intros ->; reflexivity|].
    intros Hne Hsha E. apply Hne, Hsha. exact E.
  - intros ids1 name1 tags1 metrics1 ids2 name2 tags2 metrics2 Hc1 Hc2 key1 key2.
    rewrite (read_query_structured fuel1 api1 d1 _ _ _ _ _ Hc1).
    rewrite (read_query_structured fuel2 api2 d2 _ _ _ _ _ Hc2).
    fold key1. fold key2. unfold computed_identity. cbn [fst].
    split; [reflexivity|]. split; [reflexivity|].
    split.
    + intros [= -> -> -> ->]. reflexivity.
    + intros Hs1 Hs2 Hne.
      assert (Hk : key1 <> key2).
      { intros E. apply Hne. apply list_key_inj; assumption. }
      split; [exact Hk|].
      intros Hsha [= E]. apply Hk, Hsha. exact E.
Qed.

Lemma identity_determined_by_effective_filters_witness :
  (computed_identity (read_query 5 paged_api d_q_and_name (mkWorld d_q_and_name []))
   = computed_identity (read_query 7 paged_api d_q_only
                          (mkWorld d_q_only [CallGetMonitorConfigPolicy "p"]))
   /\ computed_identity (read_query 5 paged_api d_q_only (mkWorld d_q_only []))
      <> computed_identity (read_query 5 paged_api d_q_staging (mkWorld d_q_staging [])))
  /\ (computed_identity (read_query 5 paged_api d_structured (mkWorld d_structured []))
      = computed_identity (read_query 0 empty_api d_structured_flag
                             (mkWorld d_structured_flag []))
      /\ computed_identity (read_query 5 paged_api d_ids_a_name_b
                              (mkWorld d_ids_a_name_b []))
         <> computed_identity (read_query 5 empty_api d_ids_a_name_c
                                 (mkWorld d_ids_a_name_c []))).
Proof.
  split; split.
  - destruct (identity_determined_by_effective_filters 5 7 paged_api paged_api
                d_q_and_name d_q_only [] [CallGetMonitorConfigPolicy "p"])
      as (H & _ & _).
    destruct (H "env:prod" "env:prod" (sha256_hex "env:prod") (sha256_hex "env:prod"))
      as (_ & _ & Heq & _);
      [split; [reflexivity | discriminate] | split; [reflexivity | discriminate]
      | vm_compute; reflexivity | vm_compute; reflexivity |].
    vm_compute. reflexivity.
  - destruct (identity_determined_by_effective_filters 5 5 paged_api paged_api
                d_q_only d_q_staging [] []) as (H & _ & _).
    destruct (H "env:prod" "env:staging" (sha256_hex "env:prod")
                (sha256_hex "env:staging")) as (_ & _ & _ & Hne);
      [split; [reflexivity | discriminate] | split; [reflexivity | discriminate]
      | vm_compute; reflexivity | vm_compute; reflexivity |].
    intros E. apply Hne; [discriminate | vm_compute; discriminate |].
    vm_compute in E. vm_compute. congruence.
  - destruct (identity_determined_by_effective_filters 5 0 paged_api empty_api
                d_structured d_structured_flag [] []) as (_ & H & _).
    destruct (H [] "checkout" "env:prod" "" [] "checkout" "env:prod" "")
      as (_ & _ & Heq & _);
      [repeat split; reflexivity | repeat split; reflexivity |].
    apply Heq. reflexivity.
  - destruct (identity_determined_by_effective_filters 5 5 paged_api empty_api
                d_ids_a_name_b d_ids_a_name_c [] []) as (_ & H & _).
    destruct (H ["a"] "b" "" "" ["a"] "c" "" "")
      as (_ & _ & _ & Hne);
      [repeat split; reflexivity | repeat split; reflexivity |].
    destruct Hne as [_ Hid]; [reflexivity | reflexivity | discriminate |].
    apply Hid. vm_compute. discriminate.
Defined.

End FilterDataSource.

(** ** The SLO data source with the single ["query"] attribute *)

Section QueryDataSource.
Import SLOQuery.

Lemma scan_page_world (items : list SearchSLOResponseDataAttributesSlos) :
  forall (diags : Diagnostics) (slosPage : list value) (w w' : World)
         (o : outcome (Diagnostics * list value)),
    scan_page items diags slosPage w = (o, w') -> w' = w.
Proof.
  induction items as [|slo items IH]; intros diags slosPage w w' o.
  - cbn. intros [= _ <-]. reflexivity.
  - cbn [scan_page]. unfold bind.
    destruct (CheckForUnparsed slo); destruct (slo_Id slo); cbn;
      try (intros [= _ <-]; reflexivity); apply IH.
Qed.

(** The loop of the read does not touch the resource data. *)
Lemma read_loop_data (fuel : nat) (api : ApiInstances) :
  forall (rp : SearchSLOOptionalParameters) (j : Z) (acc : list (list value))
         (diags : Diagnostics) (w : World),
    w_data (snd (read_loop fuel api rp j acc diags w)) = w_data w.
Proof.
  induction fuel as [|fuel IH]; intros rp j acc diags w; [reflexivity|].
  cbn [read_loop]. unfold bind at 1. cbn [record_call].
  destruct (api_err _); [reflexivity|].
  unfold bind at 1.
  destruct (ssr_Slos _) as [slos|]; [|reflexivity]. cbn [deref ret].
  unfold bind at 1.
  destruct (scan_page slos diags [] _) as [[[diags' page]| |] w1] eqn:Hs;
    pose proof (scan_page_world _ _ _ _ _ _ Hs) as ->; try reflexivity.
  unfold bind at 1.
  destruct (ssr_LastNumber _) as [last|]; [|reflexivity]. cbn [deref ret].
  destruct (decide (last <= j)); [reflexivity|].
  rewrite IH. reflexivity.
Qed.

(** When the loop of the read returns diagnostics early, they are the
    translated error of a failed call. *)
Lemma read_loop_early_return (fuel : nat) (api : ApiInstances) :
  forall (rp : SearchSLOOptionalParameters) (j : Z) (acc : list (list value))
         (diags : Diagnostics) (w w' : World) (early : Diagnostics),
    read_loop fuel api rp j acc diags w = (Val (inl early), w') ->
    HasError early = true.
Proof.
  induction fuel as [|fuel IH]; intros rp j acc diags w w' early; [discriminate|].
  cbn [read_loop]. unfold bind at 1. cbn [record_call].
  destruct (api_err _); [intros [= <- _]; reflexivity|].
  unfold bind at 1.
  destruct (ssr_Slos _) as [slos|]; [|discriminate]. cbn [deref ret].
  unfold bind at 1.
  destruct (scan_page slos diags [] _) as [[[diags' page]| |] w1]; try discriminate.
  unfold bind at 1.
  destruct (ssr_LastNumber _) as [last|]; [|discriminate]. cbn [deref ret].
  destruct (decide (last <= j)); [discriminate|].
  apply IH.
Qed.

(** C10.  [computeSLOsDataSourceID] panics on a nil pointer, and when
    ["query"] is not set that is what the read passes to it.  So the read
    never sets an identity in that case: whenever the paginated search
    completes, the read panics instead of returning; it returns only with the
    error of a failed call; and the identity of the resource data is left as
    it was. *)
Theorem read_without_query_panics
    (fuel : nat) (api : ApiInstances) (d : ResourceData) (calls : list ApiCall) :
  snd (GetOk d "query") = false ->
  (forall w, computeSLOsDataSourceID None w = (Panic nil_deref, w))
  /\ (forall diags slos w1,
        read_loop fuel api (sp_WithPageSize 100 NewSearchSLOOptionalParameters) 0 [] []
          (mkWorld d calls) = (Val (inr (diags, slos)), w1) ->
        dataSourceDatadogServiceLevelObjectivesRead fuel api (mkWorld d calls)
        = (Panic nil_deref, mkWorld (Set_ "slos" (VList slos) d) (w_calls w1)))
  /\ (forall diags,
        fst (dataSourceDatadogServiceLevelObjectivesRead fuel api (mkWorld d calls))
        = Val diags -> HasError diags = true)
  /\ Id (w_data (snd (dataSourceDatadogServiceLevelObjectivesRead fuel api
                        (mkWorld d calls)))) = Id d.
Proof.
  intros Hq.
  pose proof (read_loop_data fuel api (sp_WithPageSize 100 NewSearchSLOOptionalParameters)
                0 [] [] (mkWorld d calls)) as Hd.
  assert (Hread : dataSourceDatadogServiceLevelObjectivesRead fuel api (mkWorld d calls)
                  = match read_loop fuel api
                            (sp_WithPageSize 100 NewSearchSLOOptionalParameters) 0 [] []
                            (mkWorld d calls) with
                    | (Val (inl early), w1) => (Val early, w1)
                    | (Val (inr (_, slos)), w1) =>
                        (Panic nil_deref,
                         mkWorld (Set_ "slos" (VList slos) (w_data w1)) (w_calls w1))
                    | (Panic msg, w1) => (Panic msg, w1)
                    | (OutOfFuel, w1) => (OutOfFuel, w1)
                    end).
  { unfold dataSourceDatadogServiceLevelObjectivesRead.
    unfold bind at 1. cbn [get_data w_data].
    destruct (GetOk d "query") as [v ok]. cbn in Hq. subst ok.
    unfold bind at 1. cbn [ret]. unfold bind at 1.
    destruct (read_loop _ _ _ _ _ _ _) as [[[early|[diags slos]]| |] w1]; reflexivity. }
  split; [reflexivity|].
  rewrite Hread.
  destruct (read_loop _ _ _ _ _ _ _) as [[[early|[diags slos]]| |] w1] eqn:Hloop;
    cbn in Hd; subst d.
  - split; [discriminate|]. split; [|reflexivity].
    cbn. intros diags [= <-]. eapply read_loop_early_return. exact Hloop.
  - split; [intros ? ? ? [= _ <- <-]; reflexivity|].
    split; [discriminate | reflexivity].
  - split; [discriminate|]. split; [discriminate | reflexivity].
  - split; [discriminate|]. split; [discriminate | reflexivity].
Qed.

Lemma read_without_query_panics_witness :
  (forall w, computeSLOsDataSourceID None w = (Panic nil_deref, w))
  /\ dataSourceDatadogServiceLevelObjectivesRead 5 paged_api (mkWorld d_no_query [])
     = (Panic nil_deref,
        mkWorld (Set_ "slos"
                   (VList [slo_row "a0" (mk_slo "a0" "latency" None);
                           slo_row "a1" (mk_slo "a1" "errors" None);
                           slo_row "b0" (mk_slo "b0" "uptime" None);
                           slo_row "c0" (mk_slo "c0" "freshness" None)]) d_no_query)
          (page_calls (sp_WithPageSize 100 NewSearchSLOOptionalParameters) 0 3))
  /\ Id (w_data (snd (dataSourceDatadogServiceLevelObjectivesRead 5 paged_api
                        (mkWorld d_no_query [])))) = Id d_no_query.
Proof.
  destruct (read_without_query_panics 5 paged_api d_no_query [])
    as (H1 & H2 & _ & H4); [reflexivity|].
  split; [exact H1 | split; [|exact H4]].
  apply (H2 [skip_warning "b1" "object contains unparsed element"]
            [slo_row "a0" (mk_slo "a0" "latency" None);
             slo_row "a1" (mk_slo "a1" "errors" None);
             slo_row "b0" (mk_slo "b0" "uptime" None);
             slo_row "c0" (mk_slo "c0" "freshness" None)]
            (mkWorld d_no_query
               (page_calls (sp_WithPageSize 100 NewSearchSLOOptionalParameters) 0 3))).
  vm_compute. reflexivity.
Defined.

(** With ["query"] set, the same read computes the SHA-256 identity. *)
Example read_with_query_sets_identity :
  fst (run (dataSourceDatadogServiceLevelObjectivesRead 5 paged_api)
         (mkResourceData {[ "query" := VString "abc" ]} (rd_schema d_no_query) ""))
  = Val [skip_warning "b1" "object contains unparsed element"]
  /\ Id (w_data (snd (run (dataSourceDatadogServiceLevelObjectivesRead 5 paged_api)
         (mkResourceData {[ "query" := VString "abc" ]} (rd_schema d_no_query) ""))))
     = "ba7816bf8f01cfea414140de5dae2223b00361a396177a9cb410ff61f20015ad".
Proof. split; vm_compute; reflexivity. Qed.

End QueryDataSource.

(** ** Test vectors of the digest *)

Example sha256_hex_empty :
  sha256_hex "" = "e3b0c44298fc1c149afbf4c8996fb92427ae41e4649b934ca495991b7852b855".
Proof. vm_compute. reflexivity. Qed.

Example sha256_hex_abc :
  sha256_hex "abc" = "ba7816bf8f01cfea414140de5dae2223b00361a396177a9cb410ff61f20015ad".
Proof. vm_compute. reflexivity. Qed.

Example sha256_hex_two_blocks :
  sha256_hex "xxxxxxxxxxxxxxxxxxxxxxxxxxxxxxxxxxxxxxxxxxxxxxxxxxxxxxxxxxxxxxxxxxxxxx"
  = "c71bd109227e23434ecf71fd0a344a209136c79ae5a0bda2b5ca442d699a3cd9".
Proof. vm_compute. reflexivity. Qed.

(** ** Rejected items in the paginated search *)

Section RejectedItems.




End RejectedItems.

(** * Further properties *)

(** ** The monitor config policy resource: requests *)

(** Cases on the tests [policyType == MONITORCONFIGPOLICYTYPE_TAG] of the goal
    that are decided by the context. *)
Ltac decide_tag :=
  match goal with
  | |- context [@decide ?P ?D] =>
      destruct (@decide P D) as [?|?];
      [|exfalso; unfold MONITORCONFIGPOLICYTYPE_TAG in *; congruence]
  end.

Section PolicyRequests.
Import MonitorConfigPolicy.

Lemma assert_strings_unchanged (l : list value) (w w' : World) (o : outcome (list string)) :
  assert_strings l w = (o, w') -> w' = w.
Proof.
  revert o. induction l as [|v l IH]; intros o; cbn.
  - intros [= _ <-]. reflexivity.
  - unfold bind. destruct v; cbn; try (intros [= _ <-]; reflexivity).
    destruct (assert_strings l w) as [[r| |] w1] eqn:E; cbn;
      intros [= _ <-]; eapply IH; reflexivity.
Qed.

(** Building a request reads the resource data and changes nothing. *)
Lemma buildCreateRequestPolicy_unchanged (pt : MonitorConfigPolicyType) (w w' : World)
    (o : outcome (option MonitorConfigPolicyPolicyCreateRequest)) :
  buildCreateRequestPolicy pt w = (o, w') -> w' = w.
Proof.
  unfold buildCreateRequestPolicy, bind, get_data. cbn.
  destruct (decide (pt = MONITORCONFIGPOLICYTYPE_TAG)); [|intros [= _ <-]; reflexivity].
  destruct (Get (w_data w) "tag_key"); cbn; try (intros [= _ <-]; reflexivity).
  destruct (Get (w_data w) "tag_key_required"); cbn; try (intros [= _ <-]; reflexivity).
  destruct (Get (w_data w) "valid_tag_values"); cbn; try (intros [= _ <-]; reflexivity).
  destruct (assert_strings l w) as [[r| |] w1] eqn:E;
    apply assert_strings_unchanged in E; subst w1; cbn; intros [= _ <-]; reflexivity.
Qed.

Lemma buildUpdateRequestPolicy_unchanged (pt : MonitorConfigPolicyType) (w w' : World)
    (o : outcome (option MonitorConfigPolicyPolicy)) :
  buildUpdateRequestPolicy pt w = (o, w') -> w' = w.
Proof.
  unfold buildUpdateRequestPolicy, bind, get_data. cbn.
  destruct (decide (pt = MONITORCONFIGPOLICYTYPE_TAG)); [|intros [= _ <-]; reflexivity].
  destruct (GetOk (w_data w) "tag_key") as [attr ok]. destruct ok.
  - destruct attr; cbn; intros [= _ <-]; reflexivity.
  - cbn. destruct (GetOk (w_data w) "valid_tag_values") as [attr' ok'].
    destruct ok'; cbn; [|intros [= _ <-]; reflexivity].
    destruct attr'; cbn; try (intros [= _ <-]; reflexivity).
    destruct (assert_strings l w) as [[r| |] w1] eqn:E;
      apply assert_strings_unchanged in E; subst w1; cbn; intros [= _ <-]; reflexivity.
Qed.

Lemma buildMonitorConfigPolicyCreateV2Struct_unchanged (w w' : World)
    (o : outcome MonitorConfigPolicyCreateRequest) :
  buildMonitorConfigPolicyCreateV2Struct w = (o, w') -> w' = w.
Proof.
  unfold buildMonitorConfigPolicyCreateV2Struct. unfold bind at 1. cbn [get_data].
  unfold bind at 1.
  destruct (Get (w_data w) "policy_type"); cbn; try (intros [= _ <-]; reflexivity).
  destruct (NewMonitorConfigPolicyTypeFromValue s) as [[pt|] e]; cbn;
    [|intros [= _ <-]; reflexivity].
  unfold bind at 1.
  destruct (buildCreateRequestPolicy pt w) as [[[p|]| |] w1] eqn:E;
    apply buildCreateRequestPolicy_unchanged in E; subst w1; cbn;
    intros [= _ <-]; reflexivity.
Qed.

Lemma buildMonitorConfigPolicyUpdateV2Struct_unchanged (w w' : World)
    (o : outcome MonitorConfigPolicyEditRequest) :
  buildMonitorConfigPolicyUpdateV2Struct w = (o, w') -> w' = w.
Proof.
  unfold buildMonitorConfigPolicyUpdateV2Struct. unfold bind at 1. cbn [get_data].
  unfold bind at 1.
  destruct (Get (w_data w) "policy_type"); cbn; try (intros [= _ <-]; reflexivity).
  destruct (NewMonitorConfigPolicyTypeFromValue s) as [[pt|] e]; cbn;
    [|intros [= _ <-]; reflexivity].
  unfold bind at 1.
  destruct (buildUpdateRequestPolicy pt w) as [[[p|]| |] w1] eqn:E;
    apply buildUpdateRequestPolicy_unchanged in E; subst w1; cbn;
    intros [= _ <-]; reflexivity.
Qed.

(** X2.  When ["tag_key"] holds no value and the schema does not declare it,
    [d.Get] yields the nil interface and create of a ["tag"] policy panics on
    the type assertion, before any call is issued. *)
Theorem create_undeclared_key_panics
    (api : ApiInstances) (d : ResourceData) (calls : list ApiCall) :
  Get d "policy_type" = VString "tag" ->
  rd_values d !! "tag_key" = None ->
  rd_schema d !! "tag_key" = None ->
  resourceDatadogMonitorConfigPolicyCreate api (mkWorld d calls)
  = (Panic "interface conversion: interface {} is not string", mkWorld d calls).
Proof.
  intros Hp Hv Hs.
  assert (Hk : Get d "tag_key" = VNil). { unfold Get. rewrite Hv, Hs. reflexivity. }
  unfold resourceDatadogMonitorConfigPolicyCreate, buildMonitorConfigPolicyCreateV2Struct,
    buildCreateRequestPolicy.
  unfold bind, get_data. cbn. rewrite Hp. cbn.
  unfold NewMonitorConfigPolicyTypeFromValue. decide_tag. cbn.
  rewrite Hk. cbn [assert_string]. decide_tag. reflexivity.
Qed.

Lemma create_undeclared_key_panics_witness :
  resourceDatadogMonitorConfigPolicyCreate (answering_api clean_response)
    (mkWorld d_tag_undeclared [])
  = (Panic "interface conversion: interface {} is not string",
     mkWorld d_tag_undeclared []).
Proof.
  apply (create_undeclared_key_panics (answering_api clean_response) d_tag_undeclared []);
    reflexivity.
Defined.

(** X3.  When the edit request is built and the update call fails, update
    returns the translated error, has issued that one call, and leaves the
    resource data, the identity included, as they were. *)
Theorem update_transport_error_keeps_identity
    (api : ApiInstances) (d : ResourceData) (calls : list ApiCall)
    (m : MonitorConfigPolicyEditRequest) (err : error) :
  fst (buildMonitorConfigPolicyUpdateV2Struct (mkWorld d calls)) = Val m ->
  api_err (api_UpdateMonitorConfigPolicy api (ed_Id (er_Data m)) m) = Some err ->
  resourceDatadogMonitorConfigPolicyUpdate api (mkWorld d calls)
  = (Val (TranslateClientErrorDiag err
            (api_httpresp (api_UpdateMonitorConfigPolicy api (ed_Id (er_Data m)) m))
            "error updating monitor config policy"),
     mkWorld d (calls ++ [CallUpdateMonitorConfigPolicy (ed_Id (er_Data m)) m])).
Proof.
  intros Hb He.
  destruct (buildMonitorConfigPolicyUpdateV2Struct (mkWorld d calls)) as [o w1] eqn:E.
  pose proof (buildMonitorConfigPolicyUpdateV2Struct_unchanged _ _ _ E) as ->.
  cbn in Hb. subst o.
  unfold resourceDatadogMonitorConfigPolicyUpdate.
  rewrite (bind_Val _ _ _ _ _ E). unfold bind at 1. cbn [record_call].
  rewrite He. reflexivity.
Qed.

Lemma update_transport_error_keeps_identity_witness :
  let m := NewMonitorConfigPolicyEditRequest
             {| ed_Attributes :=
                  {| ae_Policy :=
                       {| pp_MonitorConfigPolicyTagPolicy :=
                            Some NewMonitorConfigPolicyTagPolicy;
                          pp_UnparsedObject := None |};
                     ae_PolicyType := "tag"; ae_UnparsedObject := None |};
                ed_Id := "policy-1";
                ed_Type := MONITORCONFIGPOLICYRESOURCETYPE_MONITOR_CONFIG_POLICY;
                ed_UnparsedObject := None |} in
  resourceDatadogMonitorConfigPolicyUpdate (failing_api 500) (mkWorld d_tag [])
  = (Val (TranslateClientErrorDiag "request failed" (Some (mkHttpResponse 500))
            "error updating monitor config policy"),
     mkWorld d_tag ([] ++ [CallUpdateMonitorConfigPolicy "policy-1" m])).
Proof.
  intros m.
  apply (update_transport_error_keeps_identity (failing_api 500) d_tag [] m);
    reflexivity.
Defined.

(** X5.  Whenever the edit request is built, it carries the identity of the
    resource data and the policy type ["tag"]; and whenever update issues a
    call, it is a single [UpdateMonitorConfigPolicy] call addressed to that
    identity. *)
Theorem update_addresses_own_identity
    (api : ApiInstances) (d : ResourceData) (calls : list ApiCall)
    (m : MonitorConfigPolicyEditRequest) :
  fst (buildMonitorConfigPolicyUpdateV2Struct (mkWorld d calls)) = Val m ->
  ed_Id (er_Data m) = Id d
  /\ ae_PolicyType (ed_Attributes (er_Data m)) = MONITORCONFIGPOLICYTYPE_TAG
  /\ Get d "policy_type" = VString "tag"
  /\ w_calls (snd (resourceDatadogMonitorConfigPolicyUpdate api (mkWorld d calls)))
     = calls ++ [CallUpdateMonitorConfigPolicy (Id d) m].
Proof.
  intros Hb.
  destruct (buildMonitorConfigPolicyUpdateV2Struct (mkWorld d calls)) as [o w1] eqn:E.
  pose proof (buildMonitorConfigPolicyUpdateV2Struct_unchanged _ _ _ E) as ->.
  cbn in Hb. subst o.
  assert (Hm : ed_Id (er_Data m) = Id d
               /\ ae_PolicyType (ed_Attributes (er_Data m)) = MONITORCONFIGPOLICYTYPE_TAG
               /\ Get d "policy_type" = VString "tag").
  { revert E. unfold buildMonitorConfigPolicyUpdateV2Struct.
    unfold bind at 1. cbn [get_data w_data]. unfold bind at 1.
    destruct (Get d "policy_type"); cbn; try discriminate.
    unfold NewMonitorConfigPolicyTypeFromValue.
    destruct (decide (s = MONITORCONFIGPOLICYTYPE_TAG)) as [->|]; cbn; [|discriminate].
    unfold bind at 1.
    destruct (buildUpdateRequestPolicy _ _) as [[[p|]| |] w1]; cbn; try discriminate.
    intros [= <- _]. cbn. auto. }
  destruct Hm as (Hid & Hpt & Hget). repeat split; try assumption.
  unfold resourceDatadogMonitorConfigPolicyUpdate.
  rewrite (bind_Val _ _ _ _ _ E). unfold bind at 1. cbn [record_call]. rewrite Hid.
  destruct (api_err _); [reflexivity|].
  destruct (CheckForUnparsed _); [reflexivity|].
  unfold updateMonitorConfigPolicyState, bind, modify_data, set_field. cbn.
  destruct (decide _); cbn; [|reflexivity].
  destruct (ar_Policy _); reflexivity.
Qed.

Lemma update_addresses_own_identity_witness :
  let m := NewMonitorConfigPolicyEditRequest
             {| ed_Attributes :=
                  {| ae_Policy :=
                       {| pp_MonitorConfigPolicyTagPolicy :=
                            Some NewMonitorConfigPolicyTagPolicy;
                          pp_UnparsedObject := None |};
                     ae_PolicyType := "tag"; ae_UnparsedObject := None |};
                ed_Id := "policy-1";
                ed_Type := MONITORCONFIGPOLICYRESOURCETYPE_MONITOR_CONFIG_POLICY;
                ed_UnparsedObject := None |} in
  ed_Id (er_Data m) = Id d_tag_no_key
  /\ ae_PolicyType (ed_Attributes (er_Data m)) = MONITORCONFIGPOLICYTYPE_TAG
  /\ Get d_tag_no_key "policy_type" = VString "tag"
  /\ w_calls (snd (resourceDatadogMonitorConfigPolicyUpdate (answering_api clean_response)
                     (mkWorld d_tag_no_key [])))
     = [] ++ [CallUpdateMonitorConfigPolicy (Id d_tag_no_key) m].
Proof.
  apply (update_addresses_own_identity (answering_api clean_response) d_tag_no_key []).
  reflexivity.
Defined.

End PolicyRequests.

(** ** The monitor config policy resource: state *)

Section PolicyState.
Import MonitorConfigPolicy.

(** What [updateMonitorConfigPolicyState] does, case by case: it stores the
    identity and the policy type of the response, and panics only on a
    ["tag"] response whose policy pointer is nil, after it has stored them.
    The map it hands to ["tag_policy"] is refused by a key declared as a
    list, so that key is never written. *)
Lemma updateMonitorConfigPolicyState_cases
    (m : option MonitorConfigPolicyResponseData) (d : ResourceData) (calls : list ApiCall) :
  updateMonitorConfigPolicyState m (mkWorld d calls)
  = if decide (GetPolicyType (GetAttributes m) = MONITORCONFIGPOLICYTYPE_TAG) then
      match ar_Policy (GetAttributes m) with
      | Some _ => (Val [], mkWorld (policy_state m d) calls)
      | None =>
          (Panic nil_deref,
           mkWorld (Set_ "policy_type" (VString (GetPolicyType (GetAttributes m)))
                      (SetId (GetId m) d)) calls)
      end
    else (Val [], mkWorld (policy_state m d) calls).
Proof.
  unfold updateMonitorConfigPolicyState, policy_state, bind, modify_data, set_field. cbn.
  destruct (decide (GetPolicyType (GetAttributes m) = MONITORCONFIGPOLICYTYPE_TAG));
    [|reflexivity].
  destruct (ar_Policy (GetAttributes m)); reflexivity.
Qed.

(** Storing the same response twice is storing it once. *)
Lemma policy_state_twice (m : option MonitorConfigPolicyResponseData) (d : ResourceData) :
  policy_state m (policy_state m d) = policy_state m d.
Proof.
  unfold policy_state, Set_, SetId. cbn. f_equal.
  rewrite insert_insert_eq. reflexivity.
Qed.

Lemma policy_state_id (m : option MonitorConfigPolicyResponseData) (d : ResourceData) :
  Id (policy_state m d) = GetId m.
Proof. reflexivity. Qed.

Lemma Get_Set_same (key : string) (v : value) (d : ResourceData) :
  Get (Set_ key v d) key = v.
Proof. unfold Get, Set_. cbn. rewrite lookup_insert_eq. reflexivity. Qed.

Lemma Get_Set_other (key key' : string) (v : value) (d : ResourceData) :
  key <> key' -> Get (Set_ key v d) key' = Get d key'.
Proof. intros Hne. unfold Get, Set_. cbn. rewrite lookup_insert_ne by exact Hne. reflexivity. Qed.

(** X6.  After a read whose call succeeds (and whose response, when of type
    ["tag"], has a policy), the identity is the id of the response (the empty
    string when the response has none), ["policy_type"] reads back the type
    of the response, and every other key reads as before: the tag policy of
    the response does not reach ["tag_policy"], because the map written there
    is refused by the key, which the schema declares as a list, and the
    error is discarded. *)
Theorem read_success_populates_state
    (api : ApiInstances) (d : ResourceData) (calls : list ApiCall) :
  let m := rs_Data (api_value (api_GetMonitorConfigPolicy api (Id d))) in
  let attributes := GetAttributes m in
  api_err (api_GetMonitorConfigPolicy api (Id d)) = None ->
  (GetPolicyType attributes = MONITORCONFIGPOLICYTYPE_TAG ->
   is_Some (ar_Policy attributes)) ->
  exists d',
    resourceDatadogMonitorConfigPolicyRead api (mkWorld d calls)
    = (Val [], mkWorld d' (calls ++ [CallGetMonitorConfigPolicy (Id d)]))
    /\ Id d' = GetId m
    /\ Get d' "policy_type" = VString (GetPolicyType attributes)
    /\ Get d' "tag_policy" = Get d "tag_policy"
    /\ (forall key, key <> "policy_type" -> Get d' key = Get d key).
Proof.
  intros m attributes He Hp. exists (policy_state m d).
  split.
  - unfold resourceDatadogMonitorConfigPolicyRead.
    unfold bind at 1. cbn [get_data w_data]. unfold bind at 1. cbn [record_call w_data w_calls].
    rewrite He. rewrite updateMonitorConfigPolicyState_cases. fold m. fold attributes.
    destruct (decide (GetPolicyType attributes = MONITORCONFIGPOLICYTYPE_TAG)) as [Ht|Ht];
      [|reflexivity].
    destruct (Hp Ht) as [p Hsome]. rewrite Hsome. reflexivity.
  - split; [apply policy_state_id|].
    unfold policy_state. fold attributes.
    split; [apply Get_Set_same|].
    split; [rewrite Get_Set_other by discriminate; reflexivity|].
    intros key H1. rewrite Get_Set_other by congruence. reflexivity.
Qed.

Lemma read_success_populates_state_witness :
  GetTagKey (pp_MonitorConfigPolicyTagPolicy
               (GetPolicy (GetAttributes (rs_Data clean_response)))) = "env"
  /\ GetValidTagValues (pp_MonitorConfigPolicyTagPolicy
                          (GetPolicy (GetAttributes (rs_Data clean_response))))
     = ["prod"; "staging"]
  /\ exists d',
    resourceDatadogMonitorConfigPolicyRead (answering_api clean_response)
      (mkWorld d_tag_no_key [])
    = (Val [], mkWorld d' ([] ++ [CallGetMonitorConfigPolicy (Id d_tag_no_key)]))
    /\ Id d' = "policy-1"
    /\ Get d' "policy_type" = VString "tag"
    /\ Get d' "tag_policy"
       = VList [VMap [("tag_key_required", VBool true);
                      ("valid_tag_values", VString "prod")]].
Proof.
  split; [reflexivity|]. split; [reflexivity|].
  destruct (read_success_populates_state (answering_api clean_response)
              d_tag_no_key [])
    as (d' & H1 & H2 & H3 & H4 & _).
  - reflexivity.
  - intros _. eexists. reflexivity.
  - exists d'. split; [exact H1|]. split; [exact H2|]. split; [exact H3|].
    rewrite H4. reflexivity.
Defined.

(** X7.  A read whose call succeeds with a response of type ["tag"] whose
    policy pointer is nil panics, after it has stored the identity and the
    policy type of the response. *)
Theorem read_tag_without_policy_panics
    (api : ApiInstances) (d : ResourceData) (calls : list ApiCall) :
  let m := rs_Data (api_value (api_GetMonitorConfigPolicy api (Id d))) in
  api_err (api_GetMonitorConfigPolicy api (Id d)) = None ->
  GetPolicyType (GetAttributes m) = MONITORCONFIGPOLICYTYPE_TAG ->
  ar_Policy (GetAttributes m) = None ->
  resourceDatadogMonitorConfigPolicyRead api (mkWorld d calls)
  = (Panic nil_deref,
     mkWorld (Set_ "policy_type" (VString "tag") (SetId (GetId m) d))
       (calls ++ [CallGetMonitorConfigPolicy (Id d)])).
Proof.
  intros m He Ht Hp.
  unfold resourceDatadogMonitorConfigPolicyRead.
  unfold bind at 1. cbn [get_data w_data]. unfold bind at 1. cbn [record_call w_data w_calls].
  rewrite He. rewrite updateMonitorConfigPolicyState_cases. fold m.
  rewrite Hp, Ht.
  destruct (decide (MONITORCONFIGPOLICYTYPE_TAG = MONITORCONFIGPOLICYTYPE_TAG));
    [reflexivity | contradiction].
Qed.

Lemma read_tag_without_policy_panics_witness :
  resourceDatadogMonitorConfigPolicyRead (answering_api hollow_response) (mkWorld d_tag [])
  = (Panic nil_deref,
     mkWorld (Set_ "policy_type" (VString "tag") (SetId "policy-1" d_tag))
       ([] ++ [CallGetMonitorConfigPolicy (Id d_tag)])).
Proof.
  apply (read_tag_without_policy_panics (answering_api hollow_response) d_tag []);
    reflexivity.
Defined.

(** X8.  A read that follows a successful update and is answered with the
    data the update was answered with changes nothing: the resource data
    after the read are the resource data after the update, and the identity
    is the id of the response. *)
Theorem read_after_update_changes_nothing
    (api : ApiInstances) (d : ResourceData) (calls : list ApiCall)
    (m : MonitorConfigPolicyEditRequest) (w1 : World) :
  fst (buildMonitorConfigPolicyUpdateV2Struct (mkWorld d calls)) = Val m ->
  resourceDatadogMonitorConfigPolicyUpdate api (mkWorld d calls) = (Val [], w1) ->
  api_err (api_GetMonitorConfigPolicy api (Id (w_data w1))) = None ->
  rs_Data (api_value (api_GetMonitorConfigPolicy api (Id (w_data w1))))
  = rs_Data (api_value (api_UpdateMonitorConfigPolicy api (ed_Id (er_Data m)) m)) ->
  Id (w_data w1)
  = GetId (rs_Data (api_value (api_UpdateMonitorConfigPolicy api (ed_Id (er_Data m)) m)))
  /\ resourceDatadogMonitorConfigPolicyRead api w1
     = (Val [], mkWorld (w_data w1)
                  (w_calls w1 ++ [CallGetMonitorConfigPolicy (Id (w_data w1))])).
Proof.
  intros Hb Hc.
  destruct (buildMonitorConfigPolicyUpdateV2Struct (mkWorld d calls)) as [o w0] eqn:E.
  pose proof (buildMonitorConfigPolicyUpdateV2Struct_unchanged _ _ _ E) as ->.
  cbn in Hb. subst o.
  revert Hc. unfold resourceDatadogMonitorConfigPolicyUpdate.
  rewrite (bind_Val _ _ _ _ _ E). unfold bind at 1. cbn [record_call w_data w_calls].
  destruct (api_err (api_UpdateMonitorConfigPolicy api (ed_Id (er_Data m)) m));
    [discriminate|].
  destruct (CheckForUnparsed _); [discriminate|].
  set (data := rs_Data (api_value (api_UpdateMonitorConfigPolicy api (ed_Id (er_Data m)) m))).
  rewrite updateMonitorConfigPolicyState_cases.
  assert (Hstate : (Val (@nil Diagnostic),
                    mkWorld (policy_state data d)
                      (calls ++ [CallUpdateMonitorConfigPolicy (ed_Id (er_Data m)) m]))
                   = (Val [], w1) ->
            (ar_Policy (GetAttributes data) = None ->
             GetPolicyType (GetAttributes data) <> MONITORCONFIGPOLICYTYPE_TAG) ->
            api_err (api_GetMonitorConfigPolicy api (Id (w_data w1))) = None ->
            rs_Data (api_value (api_GetMonitorConfigPolicy api (Id (w_data w1)))) = data ->
            Id (w_data w1) = GetId data
            /\ resourceDatadogMonitorConfigPolicyRead api w1
               = (Val [], mkWorld (w_data w1)
                            (w_calls w1 ++ [CallGetMonitorConfigPolicy (Id (w_data w1))]))).
  { intros [= <-] Hpol Hr Hd. cbn [w_data w_calls] in *.
    split; [apply policy_state_id|].
    unfold resourceDatadogMonitorConfigPolicyRead.
    unfold bind at 1. cbn [get_data w_data]. unfold bind at 1.
    cbn [record_call w_data w_calls].
    rewrite Hr, Hd. rewrite updateMonitorConfigPolicyState_cases.
    rewrite policy_state_twice.
    destruct (decide _) as [Ht|Ht]; [|reflexivity].
    destruct (ar_Policy (GetAttributes data)) eqn:Hp; [reflexivity|].
    exfalso. apply Hpol; [reflexivity | exact Ht]. }
  destruct (decide (GetPolicyType (GetAttributes data) = MONITORCONFIGPOLICYTYPE_TAG))
    as [Ht|Ht].
  - destruct (ar_Policy (GetAttributes data)) eqn:Hp; [|discriminate].
    intros Hw Hr Hd. apply (Hstate Hw); [discriminate | exact Hr | exact Hd].
  - intros Hw Hr Hd. apply (Hstate Hw); [intros _; exact Ht | exact Hr | exact Hd].
Qed.

Lemma read_after_update_changes_nothing_witness :
  let w1 := snd (run (resourceDatadogMonitorConfigPolicyUpdate (answering_api clean_response))
                   d_tag) in
  Id (w_data w1) = "policy-1"
  /\ resourceDatadogMonitorConfigPolicyRead (answering_api clean_response) w1
     = (Val [], mkWorld (w_data w1)
                  (w_calls w1 ++ [CallGetMonitorConfigPolicy (Id (w_data w1))])).
Proof.
  intros w1.
  destruct (read_after_update_changes_nothing (answering_api clean_response) d_tag []
              (NewMonitorConfigPolicyEditRequest
                 {| ed_Attributes :=
                      {| ae_Policy :=
                           {| pp_MonitorConfigPolicyTagPolicy :=
                                Some NewMonitorConfigPolicyTagPolicy;
                              pp_UnparsedObject := None |};
                         ae_PolicyType := "tag"; ae_UnparsedObject := None |};
                    ed_Id := "policy-1";
                    ed_Type := MONITORCONFIGPOLICYRESOURCETYPE_MONITOR_CONFIG_POLICY;
                    ed_UnparsedObject := None |}) w1) as [H1 H2].
  - reflexivity.
  - subst w1. unfold run.
    destruct (resourceDatadogMonitorConfigPolicyUpdate (answering_api clean_response)
                (mkWorld d_tag [])) as [o w] eqn:E.
    assert (Ho : o = Val []). { change o with (fst (o, w)). rewrite <- E. reflexivity. }
    rewrite Ho. reflexivity.
  - reflexivity.
  - reflexivity.
  - split; [exact H1 | exact H2].
Defined.

Lemma updateMonitorConfigPolicyState_calls
    (m : option MonitorConfigPolicyResponseData) (w : World) :
  w_calls (snd (updateMonitorConfigPolicyState m w)) = w_calls w.
Proof.
  destruct w as [d calls]. rewrite updateMonitorConfigPolicyState_cases.
  destruct (decide _); [|reflexivity]. destruct (ar_Policy _); reflexivity.
Qed.

(** X9.  Whatever the configuration and whatever the server answers, each of
    create, read, update and delete issues at most one call: the trace grows
    by at most one entry, also when the operation panics. *)
Theorem policy_operations_issue_at_most_one_call (api : ApiInstances) (w : World) :
  (exists cs, w_calls (snd (resourceDatadogMonitorConfigPolicyCreate api w)) = w_calls w ++ cs
              /\ (length cs <= 1)%nat)
  /\ (exists cs, w_calls (snd (resourceDatadogMonitorConfigPolicyRead api w)) = w_calls w ++ cs
                 /\ (length cs <= 1)%nat)
  /\ (exists cs, w_calls (snd (resourceDatadogMonitorConfigPolicyUpdate api w)) = w_calls w ++ cs
                 /\ (length cs <= 1)%nat)
  /\ (exists cs, w_calls (snd (resourceDatadogMonitorConfigPolicyDelete api w)) = w_calls w ++ cs
                 /\ (length cs <= 1)%nat).
Proof.
  assert (Hnone : exists cs : list ApiCall, w_calls w = w_calls w ++ cs /\ (length cs <= 1)%nat).
  { exists []. rewrite app_nil_r. split; [reflexivity | cbn; lia]. }
  assert (Hone : forall c : ApiCall,
            exists cs, w_calls w ++ [c] = w_calls w ++ cs /\ (length cs <= 1)%nat).
  { intros c. exists [c]. split; [reflexivity | cbn; lia]. }
  split; [|split; [|split]].
  - unfold resourceDatadogMonitorConfigPolicyCreate. unfold bind at 1.
    destruct (buildMonitorConfigPolicyCreateV2Struct w) as [[m| |] w0] eqn:E;
      pose proof (buildMonitorConfigPolicyCreateV2Struct_unchanged _ _ _ E) as ->;
      try exact Hnone.
    unfold bind at 1. cbn [record_call].
    destruct (api_err _); [apply Hone|].
    destruct (CheckForUnparsed m); [apply Hone|].
    unfold bind at 1. destruct (rs_Data _) as [data|]; cbn [deref ret panic]; [|apply Hone].
    unfold bind at 1. destruct (rsd_Id data) as [id|]; cbn [deref ret panic]; [|apply Hone].
    unfold bind at 1. cbn [modify_data].
    rewrite updateMonitorConfigPolicyState_calls. apply Hone.
  - unfold resourceDatadogMonitorConfigPolicyRead.
    unfold bind at 1. cbn [get_data]. unfold bind at 1. cbn [record_call].
    destruct (api_err _).
    + destruct (api_httpresp _) as [h|]; [|apply Hone].
      destruct (decide _); apply Hone.
    + rewrite updateMonitorConfigPolicyState_calls. apply Hone.
  - unfold resourceDatadogMonitorConfigPolicyUpdate. unfold bind at 1.
    destruct (buildMonitorConfigPolicyUpdateV2Struct w) as [[m| |] w0] eqn:E;
      pose proof (buildMonitorConfigPolicyUpdateV2Struct_unchanged _ _ _ E) as ->;
      try exact Hnone.
    unfold bind at 1. cbn [record_call].
    destruct (api_err _); [apply Hone|].
    destruct (CheckForUnparsed _); [apply Hone|].
    rewrite updateMonitorConfigPolicyState_calls. apply Hone.
  - unfold resourceDatadogMonitorConfigPolicyDelete.
    unfold bind at 1. cbn [get_data]. unfold bind at 1. cbn [record_call].
    destruct (api_err _); apply Hone.
Qed.

End PolicyState.

(** ** The listing of monitor config policies *)

Section PolicyListing.
Import MonitorConfigPolicies.

(** X10.  The listing stores nothing and sets no identity when it fails: a
    failed call returns the translated error, and a single policy with an
    unparsed member anywhere in the list is a hard error for the whole
    listing. *)
Theorem listing_failure_stores_nothing
    (r : ApiResult MonitorConfigPolicyListResponse) (d : ResourceData)
    (calls : list ApiCall) :
  (forall err, api_err r = Some err ->
     dataSourceDatadogMonitorConfigPoliciesRead r (mkWorld d calls)
     = (Val (TranslateClientErrorDiag err (api_httpresp r)
               "error querying monitor config policies"),
        mkWorld d calls))
  /\ (forall mcp, api_err r = None -> In mcp (lr_Data (api_value r)) ->
        unparsed mcp = true ->
        dataSourceDatadogMonitorConfigPoliciesRead r (mkWorld d calls)
        = (Val (FromErr "object contains unparsed element"), mkWorld d calls)
        /\ HasError (FromErr "object contains unparsed element") = true).
Proof.
  split.
  - intros err He. unfold dataSourceDatadogMonitorConfigPoliciesRead. rewrite He.
    reflexivity.
  - intros mcp He Hin Hu. unfold dataSourceDatadogMonitorConfigPoliciesRead. rewrite He.
    assert (Hc : CheckForUnparsed (api_value r) = Some "object contains unparsed element").
    { unfold CheckForUnparsed.
      assert (Hx : unparsed (api_value r) = true).
      { unfold unparsed at 1, unparsed_ListResponse.
        apply orb_true_iff. right. apply existsb_exists. exists mcp. split; assumption. }
      rewrite Hx. reflexivity. }
    rewrite Hc. split; reflexivity.
Qed.

Lemma listing_failure_stores_nothing_witness :
  let drifted := mkApiResult
                   {| lr_Data := [clean_data "p-1";
                                  {| rsd_Attributes := None; rsd_Id := Some "p-2";
                                     rsd_UnparsedObject := Some "owner" |}];
                      lr_UnparsedObject := None |}
                   (Some (mkHttpResponse 200)) None in
  let failed := mkApiResult two_policies (Some (mkHttpResponse 403)) (Some "forbidden") in
  dataSourceDatadogMonitorConfigPoliciesRead failed (mkWorld d_listing [])
  = (Val (TranslateClientErrorDiag "forbidden" (Some (mkHttpResponse 403))
            "error querying monitor config policies"),
     mkWorld d_listing [])
  /\ dataSourceDatadogMonitorConfigPoliciesRead drifted (mkWorld d_listing [])
     = (Val (FromErr "object contains unparsed element"), mkWorld d_listing [])
  /\ HasError (FromErr "object contains unparsed element") = true.
Proof.
  intros drifted failed.
  split.
  - apply (listing_failure_stores_nothing failed d_listing []). reflexivity.
  - apply (proj2 (listing_failure_stores_nothing drifted d_listing [])
             {| rsd_Attributes := None; rsd_Id := Some "p-2";
                rsd_UnparsedObject := Some "owner" |}).
    + reflexivity.
    + right. left. reflexivity.
    + reflexivity.
Defined.

(** A row of the listing does not have the shape the schema declares for
    the elements of ["monitor_config_policies"]: its ["id"] is a string where
    an integer is declared. *)
Lemma policy_row_refused (mcp : MonitorConfigPolicyResponseData) (sh : list (string * Shape)) :
  field_shape "id" sh = Some ShInt ->
  conforms (policy_row mcp) (ShResource sh) = false.
Proof.
  intros Hid. unfold policy_row.
  destruct (pp_MonitorConfigPolicyTagPolicy _); cbn; rewrite Hid; reflexivity.
Qed.

(** X11.  A listing whose call succeeds and whose response holds no unparsed
    member returns no diagnostics and sets the identity to the literal
    ["monitor-config-policies"].  An empty listing is stored under
    ["monitor_config_policies"].  A listing of one policy or more is not
    stored: each row holds the id of its policy as a string where the schema
    declares an integer, [d.Set] refuses the list, its error is discarded,
    and the resource data are as before but for the identity. *)
Theorem listing_success_stores_rows
    (r : ApiResult MonitorConfigPolicyListResponse) (d : ResourceData)
    (calls : list ApiCall) :
  api_err r = None ->
  unparsed (api_value r) = false ->
  dataSourceDatadogMonitorConfigPoliciesRead r (mkWorld d calls)
  = (Val [],
     mkWorld
       match lr_Data (api_value r) with
       | [] => Set_ "monitor_config_policies" (VList []) (SetId "monitor-config-policies" d)
       | _ :: _ => SetId "monitor-config-policies" d
       end calls).
Proof.
  intros He Hu.
  unfold dataSourceDatadogMonitorConfigPoliciesRead. rewrite He.
  unfold CheckForUnparsed. rewrite Hu.
  unfold bind, modify_data, set_field. cbn [w_data w_calls ret].
  destruct (lr_Data (api_value r)) as [|mcp l]; [reflexivity|].
  assert (Hc : Set_in dataSourceDatadogMonitorConfigPolicies "monitor_config_policies"
                 (VList (policy_row <$> mcp :: l)) (SetId "monitor-config-policies" d)
               = (Some ("monitor_config_policies"
                        +:+ ": the value does not have the type of the schema"),
                  SetId "monitor-config-policies" d)).
  { unfold Set_in. cbn [field_shape dataSourceDatadogMonitorConfigPolicies String.eqb
                        Ascii.eqb Bool.eqb].
    rewrite fmap_cons. cbn [conforms forallb].
    change (forallb _ _) with
      (forallb (fun x => conforms x
                  (ShResource
                     [("id", ShInt); ("policy_type", ShString);
                      ("tag_policy",
                       ShList (ShResource MonitorConfigPolicy.tag_policy_block))]))
         (policy_row <$> l)).
    rewrite policy_row_refused by reflexivity. reflexivity. }
  rewrite Hc. reflexivity.
Qed.

Lemma listing_success_stores_rows_witness :
  dataSourceDatadogMonitorConfigPoliciesRead
    (mkApiResult two_policies (Some (mkHttpResponse 200)) None) (mkWorld d_listing [])
  = (Val [], mkWorld (SetId "monitor-config-policies" d_listing) [])
  /\ dataSourceDatadogMonitorConfigPoliciesRead
       (mkApiResult {| lr_Data := []; lr_UnparsedObject := None |}
          (Some (mkHttpResponse 200)) None) (mkWorld d_listing [])
     = (Val [],
        mkWorld (Set_ "monitor_config_policies" (VList [])
                   (SetId "monitor-config-policies" d_listing)) []).
Proof.
  split.
  - apply (listing_success_stores_rows
             (mkApiResult two_policies (Some (mkHttpResponse 200)) None) d_listing []);
      reflexivity.
  - apply (listing_success_stores_rows
             (mkApiResult {| lr_Data := []; lr_UnparsedObject := None |}
                (Some (mkHttpResponse 200)) None) d_listing []);
      reflexivity.
Defined.

End PolicyListing.

(** ** The paginated search, whatever the server answers *)

Section SearchAnyServer.

(** X12.  The loop written out in the read of the ["query"] variant and the
    loop of [searchSLO] are the same computation: on every server and from
    every state they issue the same calls and end the same way, and when
    they return, the result of the one is the result of the other, an early
    return with the translated error standing for the pair of that error and
    no rows. *)
Theorem search_loops_agree (fuel : nat) (api : ApiInstances) :
  forall (rp : SearchSLOOptionalParameters) (j : Z) (acc : list (list value))
         (diags : Diagnostics) (w : World),
    SLOFilters.searchSLO_loop fuel api rp j acc diags w
    = as_search_outcome (SLOQuery.read_loop fuel api rp j acc diags w).
Proof.
  induction fuel as [|fuel IH]; intros rp j acc diags w; [reflexivity|].
  cbn [SLOFilters.searchSLO_loop SLOQuery.read_loop].
  unfold bind. cbn [record_call].
  destruct (api_err _); [reflexivity|].
  destruct (ssr_Slos _) as [slos|]; [|reflexivity]. cbn [deref ret].
  destruct (scan_page slos diags [] _) as [[[diags' page]| |] w1]; try reflexivity.
  destruct (ssr_LastNumber _) as [last|]; [|reflexivity]. cbn [deref ret].
  destruct (decide (last <= j)); [reflexivity|].
  apply IH.
Qed.

Lemma loop_calls_params (rp : SearchSLOOptionalParameters) (i : Z) (n : nat) :
  forall j, loop_calls (sp_WithPageNumber i rp) j n = loop_calls rp j n.
Proof.
  induction n as [|n IH]; intros j; [reflexivity|].
  cbn [loop_calls]. rewrite IH. reflexivity.
Qed.

Lemma loop_calls_pages (rp : SearchSLOOptionalParameters) (n : nat) :
  forall j, 0 <= j -> j + Z.of_nat n < 2 ^ 63 ->
    loop_calls rp j n = page_calls rp j (Z.of_nat n).
Proof.
  induction n as [|n IH]; intros j Hj Hb; [reflexivity|].
  cbn [loop_calls]. rewrite wrap64_succ by lia. rewrite IH by lia.
  unfold page_calls.
  replace (Z.of_nat (S n)) with (Z.of_nat n + 1) by lia.
  rewrite seqZ_first by lia. reflexivity.
Qed.

(** The calls of the loop of [searchSLO] and the resource data, on any
    server and from any state. *)
Lemma searchSLO_loop_trace (fuel : nat) (api : ApiInstances) :
  forall (rp : SearchSLOOptionalParameters) (j : Z) (acc : list (list value))
         (diags : Diagnostics) (w : World),
    exists n, (n <= fuel)%nat
      /\ snd (SLOFilters.searchSLO_loop fuel api rp j acc diags w)
         = mkWorld (w_data w) (w_calls w ++ loop_calls rp j n).
Proof.
  induction fuel as [|fuel IH]; intros rp j acc diags w.
  { exists 0%nat. cbn. rewrite app_nil_r. destruct w; auto. }
  assert (Hone : forall o : outcome (Diagnostics * list value),
            exists n, (n <= S fuel)%nat
              /\ snd (o, mkWorld (w_data w)
                           (w_calls w ++ [CallSearchSLO (sp_WithPageNumber j rp)]))
                 = mkWorld (w_data w) (w_calls w ++ loop_calls rp j n)).
  { intros o. exists 1%nat. split; [lia | reflexivity]. }
  cbn [SLOFilters.searchSLO_loop]. unfold bind at 1. cbn [record_call].
  destruct (api_err _); [apply Hone|].
  unfold bind at 1.
  destruct (ssr_Slos _) as [slos|]; cbn [deref ret panic]; [|apply Hone].
  unfold bind at 1.
  destruct (scan_page slos diags [] _) as [[[diags' page]| |] w1] eqn:Hs;
    pose proof (scan_page_world _ _ _ _ _ _ Hs) as ->; try apply Hone.
  unfold bind at 1.
  destruct (ssr_LastNumber _) as [last|]; cbn [deref ret panic]; [|apply Hone].
  destruct (decide (last <= j)); [apply Hone|].
  destruct (IH (sp_WithPageNumber j rp) (wrap64 (j + 1)) (acc ++ [page]) diags'
              (mkWorld (w_data w) (w_calls w ++ [CallSearchSLO (sp_WithPageNumber j rp)])))
    as (k & Hk & Hc).
  exists (S k). split; [lia|].
  rewrite Hc. cbn [w_data w_calls loop_calls]. rewrite loop_calls_params, <- app_assoc.
  reflexivity.
Qed.

(** X13.  Whatever the server answers and however the search ends, the calls
    [searchSLO] has issued after at most [fuel] iterations are the requests
    for the pages [0, 1, 2, ...] in that order, each once and each with page
    size 100, and the resource data are untouched. *)
Theorem searchSLO_requests_pages_in_order
    (fuel : nat) (api : ApiInstances) (reqParams : SearchSLOOptionalParameters)
    (w : World) :
  Z.of_nat fuel < 2 ^ 63 ->
  exists n, (n <= fuel)%nat
    /\ w_calls (snd (SLOFilters.searchSLO fuel api reqParams w))
       = w_calls w ++ page_calls (sp_WithPageSize 100 reqParams) 0 (Z.of_nat n)
    /\ w_data (snd (SLOFilters.searchSLO fuel api reqParams w)) = w_data w.
Proof.
  intros Hf. unfold SLOFilters.searchSLO.
  destruct (searchSLO_loop_trace fuel api (sp_WithPageSize 100 reqParams) 0 [] [] w)
    as (n & Hn & Hc).
  exists n. split; [exact Hn|]. rewrite Hc. split; [|reflexivity].
  cbn [w_calls]. rewrite loop_calls_pages by lia. reflexivity.
Qed.

Lemma searchSLO_requests_pages_in_order_witness :
  exists n, (n <= 5)%nat
    /\ w_calls (snd (SLOFilters.searchSLO 5 flaky_api
                       (sp_WithQuery "env:prod" NewSearchSLOOptionalParameters)
                       (mkWorld (slo_config ∅) [])))
       = [] ++ page_calls (sp_WithPageSize 100
                             (sp_WithQuery "env:prod" NewSearchSLOOptionalParameters))
                 0 (Z.of_nat n)
    /\ w_data (snd (SLOFilters.searchSLO 5 flaky_api
                      (sp_WithQuery "env:prod" NewSearchSLOOptionalParameters)
                      (mkWorld (slo_config ∅) []))) = slo_config ∅.
Proof.
  apply (searchSLO_requests_pages_in_order 5 flaky_api
           (sp_WithQuery "env:prod" NewSearchSLOOptionalParameters)
           (mkWorld (slo_config ∅) [])).
  cbn. lia.
Defined.

(** As long as the pages arrive and announce a later last page, the loop
    goes on: [n] such pages take [n] iterations. *)
Lemma searchSLO_loop_skip (api : ApiInstances) (rp : SearchSLOOptionalParameters)
    (d : ResourceData) (n : nat) :
  forall (j : Z) (rp0 : SearchSLOOptionalParameters) (acc : list (list value))
         (diags : Diagnostics) (calls : list ApiCall) (fuel : nat),
    (forall i, sp_WithPageNumber i rp0 = sp_WithPageNumber i rp) ->
    0 <= j -> j + Z.of_nat n < 2 ^ 63 ->
    (forall i, j <= i < j + Z.of_nat n -> continues api rp i) ->
    exists rp' acc' diags',
      (forall i, sp_WithPageNumber i rp' = sp_WithPageNumber i rp)
      /\ SLOFilters.searchSLO_loop (n + fuel) api rp0 j acc diags (mkWorld d calls)
         = SLOFilters.searchSLO_loop fuel api rp' (j + Z.of_nat n) acc' diags'
             (mkWorld d (calls ++ page_calls rp j (Z.of_nat n))).
Proof.
  induction n as [|n IH]; intros j rp0 acc diags calls fuel Hrp Hj Hb Hcont.
  - exists rp0, acc, diags. split; [exact Hrp|].
    rewrite Z.add_0_r. unfold page_calls. cbn. rewrite app_nil_r. reflexivity.
  - destruct (Hcont j) as (items & last & Hf & Hl); [lia|].
    cbn [Nat.add].
    rewrite (searchSLO_loop_step api rp rp0 d (n + fuel) j acc diags calls items last)
      by auto.
    destruct (decide (last <= j)); [lia|].
    rewrite wrap64_succ by lia.
    destruct (IH (j + 1) (sp_WithPageNumber j rp) (acc ++ [accepted_rows items])
                (diags ++ rejection_warnings items)
                (calls ++ [CallSearchSLO (sp_WithPageNumber j rp)]) fuel)
      as (rp' & acc' & diags' & Hrp' & E); try lia.
    + intros i. apply sp_WithPageNumber_twice.
    + intros i Hi. apply Hcont. lia.
    + exists rp', acc', diags'. split; [exact Hrp'|].
      rewrite E. f_equal; [lia|]. f_equal.
      rewrite <- app_assoc. f_equal. unfold page_calls.
      replace (Z.of_nat (S n)) with (Z.of_nat n + 1) by lia.
      rewrite seqZ_first by lia. reflexivity.
Qed.

(** X14.  When the pages [0 .. k-1] arrive and announce a later last page and
    the call for page [k] fails, [searchSLO] returns the translated error of
    that call alone, with no rows: the rows and the warnings of the pages
    already fetched are dropped.  It has issued the [k + 1] calls for the
    pages [0 .. k]. *)
Theorem searchSLO_failure_drops_fetched_pages
    (api : ApiInstances) (reqParams : SearchSLOOptionalParameters)
    (d : ResourceData) (calls : list ApiCall) (k : Z) (fuel : nat) (err : error) :
  let rp := sp_WithPageSize 100 reqParams in
  0 <= k < 2 ^ 63 ->
  (forall i, 0 <= i < k -> continues api rp i) ->
  api_err (fetch api rp k) = Some err ->
  (Z.to_nat k < fuel)%nat ->
  SLOFilters.searchSLO fuel api reqParams (mkWorld d calls)
  = (Val (TranslateClientErrorDiag err (api_httpresp (fetch api rp k))
            "error querying service level objectives", []),
     mkWorld d (calls ++ page_calls rp 0 (k + 1))).
Proof.
  intros rp Hk Hcont He Hfuel.
  unfold SLOFilters.searchSLO. fold rp.
  replace fuel with (Z.to_nat k + S (fuel - S (Z.to_nat k)))%nat by lia.
  destruct (searchSLO_loop_skip api rp d (Z.to_nat k) 0 rp [] [] calls
              (S (fuel - S (Z.to_nat k)))) as (rp' & acc' & diags' & Hrp' & E);
    [reflexivity | lia | lia | intros i Hi; apply Hcont; lia |].
  rewrite E. rewrite Z2Nat.id by lia. rewrite Z.add_0_l.
  cbn [SLOFilters.searchSLO_loop]. rewrite Hrp'.
  unfold bind at 1. cbn [record_call w_data w_calls].
  unfold fetch in He. rewrite He.
  unfold fetch. rewrite <- app_assoc.
  unfold page_calls. rewrite seqZ_app by lia. rewrite fmap_app. reflexivity.
Qed.

Lemma flaky_api_first_page :
  fetched (fetch flaky_api
             (sp_WithPageSize 100 (sp_WithQuery "env:prod" NewSearchSLOOptionalParameters)) 0)
    (three_pages 0) 2.
Proof. repeat split. repeat constructor; eexists; reflexivity. Defined.

Lemma searchSLO_failure_drops_fetched_pages_witness :
  let rp := sp_WithPageSize 100 (sp_WithQuery "env:prod" NewSearchSLOOptionalParameters) in
  SLOFilters.searchSLO 5 flaky_api (sp_WithQuery "env:prod" NewSearchSLOOptionalParameters)
    (mkWorld (slo_config ∅) [])
  = (Val (TranslateClientErrorDiag "service unavailable" (api_httpresp (fetch flaky_api rp 1))
            "error querying service level objectives", []),
     mkWorld (slo_config ∅) ([] ++ page_calls rp 0 (1 + 1))).
Proof.
  apply (searchSLO_failure_drops_fetched_pages flaky_api
           (sp_WithQuery "env:prod" NewSearchSLOOptionalParameters)
           (slo_config ∅) [] 1 5 "service unavailable").
  - lia.
  - intros i Hi. assert (i = 0) as -> by lia.
    exists (three_pages 0), 2. split; [apply flaky_api_first_page | lia].
  - reflexivity.
  - cbn. lia.
Defined.

(** X15.  The loop has no bound of its own: when each of the first [n] pages
    arrives and announces a later last page, [searchSLO] has issued the [n]
    calls for the pages [0 .. n-1] and has not returned after [n]
    iterations. *)
Theorem searchSLO_runs_while_pages_announce_more
    (api : ApiInstances) (reqParams : SearchSLOOptionalParameters)
    (d : ResourceData) (calls : list ApiCall) (n : nat) :
  let rp := sp_WithPageSize 100 reqParams in
  Z.of_nat n < 2 ^ 63 ->
  (forall i, 0 <= i < Z.of_nat n -> continues api rp i) ->
  SLOFilters.searchSLO n api reqParams (mkWorld d calls)
  = (OutOfFuel, mkWorld d (calls ++ page_calls rp 0 (Z.of_nat n))).
Proof.
  intros rp Hn Hcont.
  unfold SLOFilters.searchSLO. fold rp.
  replace n with (n + 0)%nat at 1 by lia.
  destruct (searchSLO_loop_skip api rp d n 0 rp [] [] calls 0%nat)
    as (rp' & acc' & diags' & Hrp' & E); [reflexivity | lia | lia | exact Hcont |].
  rewrite E. reflexivity.
Qed.

Lemma searchSLO_runs_while_pages_announce_more_witness :
  let rp := sp_WithPageSize 100 (sp_WithQuery "env:prod" NewSearchSLOOptionalParameters) in
  SLOFilters.searchSLO 7 endless_api (sp_WithQuery "env:prod" NewSearchSLOOptionalParameters)
    (mkWorld (slo_config ∅) [])
  = (OutOfFuel, mkWorld (slo_config ∅) ([] ++ page_calls rp 0 (Z.of_nat 7))).
Proof.
  apply (searchSLO_runs_while_pages_announce_more endless_api
           (sp_WithQuery "env:prod" NewSearchSLOOptionalParameters) (slo_config ∅) [] 7).
  - cbn. lia.
  - intros i Hi. exists [mk_slo "s" "slo" None], (i + 1). split; [|lia].
    repeat split. repeat constructor. eexists. reflexivity.
Defined.

(** The loop over the items of a page either returns or panics on a nil id;
    an item without an id makes it panic, accepted or rejected. *)
Lemma scan_page_outcome (items : list SearchSLOResponseDataAttributesSlos) :
  forall (diags : Diagnostics) (slosPage : list value) (w : World),
    (exists r, scan_page items diags slosPage w = (Val r, w))
    \/ scan_page items diags slosPage w = (Panic nil_deref, w).
Proof.
  induction items as [|slo items IH]; intros diags slosPage w.
  - left. eexists. reflexivity.
  - cbn [scan_page]. unfold bind.
    destruct (CheckForUnparsed slo); destruct (slo_Id slo); cbn [deref ret panic];
      try (right; reflexivity); apply IH.
Qed.

Lemma scan_page_missing_id (items : list SearchSLOResponseDataAttributesSlos) :
  (exists slo, In slo items /\ slo_Id slo = None) ->
  forall (diags : Diagnostics) (slosPage : list value) (w : World),
    scan_page items diags slosPage w = (Panic nil_deref, w).
Proof.
  induction items as [|slo items IH]; intros (x & Hin & Hx) diags slosPage w.
  - destruct Hin.
  - cbn [scan_page]. unfold bind.
    destruct (slo_Id slo) as [id|] eqn:Hid.
    + destruct Hin as [->|Hin]; [congruence|].
      destruct (CheckForUnparsed slo); cbn [deref ret]; apply IH; exists x; auto.
    + destruct (CheckForUnparsed slo); reflexivity.
Qed.

(** X16.  When the pages [0 .. k-1] arrive and announce a later last page and
    page [k] arrives without error but with a nil member the loop reads
    through (no attributes, an item without an id, or no last page number),
    [searchSLO] panics on the nil dereference after the [k + 1] calls for the
    pages [0 .. k]. *)
Theorem searchSLO_malformed_page_panics
    (api : ApiInstances) (reqParams : SearchSLOOptionalParameters)
    (d : ResourceData) (calls : list ApiCall) (k : Z) (fuel : nat) :
  let rp := sp_WithPageSize 100 reqParams in
  let page := api_value (fetch api rp k) in
  0 <= k < 2 ^ 63 ->
  (forall i, 0 <= i < k -> continues api rp i) ->
  api_err (fetch api rp k) = None ->
  (ssr_Slos page = None
   \/ (exists items slo, ssr_Slos page = Some items /\ In slo items /\ slo_Id slo = None)
   \/ ssr_LastNumber page = None) ->
  (Z.to_nat k < fuel)%nat ->
  SLOFilters.searchSLO fuel api reqParams (mkWorld d calls)
  = (Panic nil_deref, mkWorld d (calls ++ page_calls rp 0 (k + 1))).
Proof.
  intros rp page Hk Hcont He Hbad Hfuel.
  unfold SLOFilters.searchSLO. fold rp.
  replace fuel with (Z.to_nat k + S (fuel - S (Z.to_nat k)))%nat by lia.
  destruct (searchSLO_loop_skip api rp d (Z.to_nat k) 0 rp [] [] calls
              (S (fuel - S (Z.to_nat k)))) as (rp' & acc' & diags' & Hrp' & E);
    [reflexivity | lia | lia | intros i Hi; apply Hcont; lia |].
  rewrite E. rewrite Z2Nat.id by lia. rewrite Z.add_0_l.
  assert (Hcalls : (calls ++ page_calls rp 0 k) ++ [CallSearchSLO (sp_WithPageNumber k rp)]
                   = calls ++ page_calls rp 0 (k + 1)).
  { rewrite <- app_assoc. unfold page_calls. rewrite seqZ_app by lia.
    rewrite fmap_app. reflexivity. }
  rewrite <- Hcalls.
  cbn [SLOFilters.searchSLO_loop]. rewrite Hrp'.
  unfold bind at 1. cbn [record_call w_data w_calls].
  unfold fetch in He. rewrite He. subst page. unfold fetch in Hbad.
  unfold bind at 1.
  destruct (ssr_Slos _) as [slos|] eqn:Hs; cbn [deref ret panic]; [|reflexivity].
  unfold bind at 1.
  destruct Hbad as [Hn | [(items & slo & Hi & Hin & Hid) | Hl]]; [discriminate | |].
  - injection Hi as <-.
    rewrite (scan_page_missing_id slos (ex_intro _ slo (conj Hin Hid))). reflexivity.
  - destruct (scan_page_outcome slos diags' []
                (mkWorld d ((calls ++ page_calls rp 0 k)
                            ++ [CallSearchSLO (sp_WithPageNumber k rp)])))
      as [[[dg pg] Hr] | Hp]; [rewrite Hr | rewrite Hp; reflexivity].
    unfold bind at 1. rewrite Hl. reflexivity.
Qed.

Lemma searchSLO_malformed_page_panics_witness :
  let rp := sp_WithPageSize 100 (sp_WithQuery "env:prod" NewSearchSLOOptionalParameters) in
  SLOFilters.searchSLO 5 anonymous_api
    (sp_WithQuery "env:prod" NewSearchSLOOptionalParameters) (mkWorld (slo_config ∅) [])
  = (Panic nil_deref, mkWorld (slo_config ∅) ([] ++ page_calls rp 0 (0 + 1))).
Proof.
  apply (searchSLO_malformed_page_panics anonymous_api
           (sp_WithQuery "env:prod" NewSearchSLOOptionalParameters) (slo_config ∅) [] 0 5).
  - lia.
  - intros i Hi. lia.
  - reflexivity.
  - right. left. exists [mk_slo "a0" "latency" None; anonymous_slo], anonymous_slo.
    split; [reflexivity|]. split; [right; left; reflexivity | reflexivity].
  - cbn. lia.
Defined.

End SearchAnyServer.

(** ** The reads of the two SLO data sources *)

Section SLOReads.

(** X17.  In the data source with ["q"]: when ["q"] is set to a string,
    [errorOnNoResults] is computed, and the search returns at least one row
    and no error, the read returns the warnings of the search, stores the
    rows under ["slos"] and sets the identity to the SHA-256 digest of the
    query string in hexadecimal; no other key changes. *)
Theorem read_with_q_stores_rows_and_identity
    (fuel : nat) (api : ApiInstances) (d : ResourceData) (calls : list ApiCall)
    (q : string) (b : bool) (diags : Diagnostics) (slos : list value) (w1 : World) :
  GetOk d "q" = (VString q, true) ->
  fst (SLOFilters.read_errorOnNoResults d (mkWorld d calls)) = Val b ->
  SLOFilters.searchSLO fuel api (sp_WithQuery q NewSearchSLOOptionalParameters)
    (mkWorld d calls) = (Val (diags, slos), w1) ->
  HasError diags = false ->
  slos <> [] ->
  exists d',
    SLOFilters.dataSourceDatadogServiceLevelObjectivesRead fuel api (mkWorld d calls)
    = (Val diags, mkWorld d' (w_calls w1))
    /\ Id d' = sha256_hex q
    /\ Get d' "slos" = VList slos
    /\ (forall key, key <> "slos" -> Get d' key = Get d key).
Proof.
  intros Hq Hb Hs Hd Hne.
  destruct (SLOFilters.read_errorOnNoResults d (mkWorld d calls)) as [o w0] eqn:Ee.
  cbn in Hb. subst o.
  destruct (read_errorOnNoResults_true _ _ _ _ Ee) as [-> ->].
  assert (Hw : w_data w1 = d).
  { pose proof (searchSLO_loop_trace fuel api
                  (sp_WithPageSize 100 (sp_WithQuery q NewSearchSLOOptionalParameters))
                  0 [] [] (mkWorld d calls)) as (n & _ & Hn).
    unfold SLOFilters.searchSLO in Hs. rewrite Hs in Hn. cbn in Hn. rewrite Hn.
    reflexivity. }
  exists (SetId (sha256_hex q) (Set_ "slos" (VList slos) d)).
  split; [|split; [reflexivity | split]].
  - unfold SLOFilters.dataSourceDatadogServiceLevelObjectivesRead.
    unfold bind at 1. cbn [get_data w_data].
    rewrite (bind_Val _ _ _ _ _ Ee).
    assert (Hrq : SLOFilters.read_query fuel api d (mkWorld d calls)
                  = (Val (inr (diags, slos, sha256_hex q)), w1)).
    { unfold SLOFilters.read_query. rewrite Hq. cbn [assert_string].
      unfold bind at 1. cbn [ret]. rewrite (bind_Val _ _ _ _ _ Hs). rewrite Hd.
      reflexivity. }
    rewrite (bind_Val _ _ _ _ _ Hrq).
    rewrite (bool_decide_eq_false_2 (length slos = 0%nat))
      by (destruct slos; [contradiction | discriminate]).
    cbn [andb]. unfold bind, modify_data. cbn. rewrite Hw. reflexivity.
  - unfold Get, SetId, Set_. cbn. rewrite lookup_insert_eq. reflexivity.
  - intros key Hk. unfold Get, SetId, Set_. cbn.
    rewrite lookup_insert_ne by congruence. reflexivity.
Qed.

Lemma read_with_q_stores_rows_and_identity_witness :
  exists d',
    SLOFilters.dataSourceDatadogServiceLevelObjectivesRead 5 paged_api (mkWorld d_q_only [])
    = (Val [skip_warning "b1" "object contains unparsed element"],
       mkWorld d' (page_calls (sp_WithPageSize 100
                                 (sp_WithQuery "env:prod" NewSearchSLOOptionalParameters))
                     0 3))
    /\ Id d' = sha256_hex "env:prod"
    /\ Get d' "slos" = VList [slo_row "a0" (mk_slo "a0" "latency" None);
                              slo_row "a1" (mk_slo "a1" "errors" None);
                              slo_row "b0" (mk_slo "b0" "uptime" None);
                              slo_row "c0" (mk_slo "c0" "freshness" None)]
    /\ (forall key, key <> "slos" -> Get d' key = Get d_q_only key).
Proof.
  apply (read_with_q_stores_rows_and_identity 5 paged_api d_q_only [] "env:prod" true
           [skip_warning "b1" "object contains unparsed element"]
           [slo_row "a0" (mk_slo "a0" "latency" None);
            slo_row "a1" (mk_slo "a1" "errors" None);
            slo_row "b0" (mk_slo "b0" "uptime" None);
            slo_row "c0" (mk_slo "c0" "freshness" None)]
           (mkWorld d_q_only
              (page_calls (sp_WithPageSize 100
                             (sp_WithQuery "env:prod" NewSearchSLOOptionalParameters))
                 0 3))).
  - reflexivity.
  - reflexivity.
  - vm_compute. reflexivity.
  - reflexivity.
  - discriminate.
Defined.

(** X18.  In the data source with the single ["query"]: when ["query"] is set
    to a string and the paginated search completes, the read returns the
    warnings of the search, stores the rows under ["slos"] and sets the
    identity to the SHA-256 digest of the query string in hexadecimal.  This
    holds for an empty result too: this variant has no zero-result error. *)
Theorem query_read_stores_rows_and_identity
    (fuel : nat) (api : ApiInstances) (d : ResourceData) (calls : list ApiCall)
    (query : string) (diags : Diagnostics) (slos : list value) (w1 : World) :
  GetOk d "query" = (VString query, true) ->
  SLOQuery.read_loop fuel api
    (sp_WithPageSize 100 (sp_WithQuery query NewSearchSLOOptionalParameters)) 0 [] []
    (mkWorld d calls) = (Val (inr (diags, slos)), w1) ->
  exists d',
    SLOQuery.dataSourceDatadogServiceLevelObjectivesRead fuel api (mkWorld d calls)
    = (Val diags, mkWorld d' (w_calls w1))
    /\ Id d' = sha256_hex query
    /\ Get d' "slos" = VList slos
    /\ (forall key, key <> "slos" -> Get d' key = Get d key).
Proof.
  intros Hq Hl.
  pose proof (read_loop_data fuel api
                (sp_WithPageSize 100 (sp_WithQuery query NewSearchSLOOptionalParameters))
                0 [] [] (mkWorld d calls)) as Hw.
  rewrite Hl in Hw. cbn in Hw.
  exists (SetId (sha256_hex query) (Set_ "slos" (VList slos) d)).
  split; [|split; [reflexivity | split]].
  - unfold SLOQuery.dataSourceDatadogServiceLevelObjectivesRead.
    unfold bind at 1. cbn [get_data w_data]. rewrite Hq. cbn [assert_string].
    unfold bind, ret. cbv beta iota zeta. rewrite Hl.
    unfold modify_data, SLOQuery.computeSLOsDataSourceID, bind. cbn. rewrite Hw.
    reflexivity.
  - unfold Get, SetId, Set_. cbn. rewrite lookup_insert_eq. reflexivity.
  - intros key Hk. unfold Get, SetId, Set_. cbn.
    rewrite lookup_insert_ne by congruence. reflexivity.
Qed.

Lemma query_read_stores_rows_and_identity_witness :
  exists d',
    SLOQuery.dataSourceDatadogServiceLevelObjectivesRead 5 empty_api
      (mkWorld (mkResourceData {[ "query" := VString "service:none" ]}
                  (rd_schema d_no_query) "") [])
    = (Val [], mkWorld d'
                 [CallSearchSLO (sp_WithPageNumber 0
                    (sp_WithPageSize 100
                       (sp_WithQuery "service:none" NewSearchSLOOptionalParameters)))])
    /\ Id d' = sha256_hex "service:none"
    /\ Get d' "slos" = VList []
    /\ (forall key, key <> "slos" ->
          Get d' key = Get (mkResourceData {[ "query" := VString "service:none" ]}
                              (rd_schema d_no_query) "") key).
Proof.
  apply (query_read_stores_rows_and_identity 5 empty_api
           (mkResourceData {[ "query" := VString "service:none" ]} (rd_schema d_no_query) "")
           [] "service:none" [] []
           (mkWorld (mkResourceData {[ "query" := VString "service:none" ]}
                       (rd_schema d_no_query) "")
              [CallSearchSLO (sp_WithPageNumber 0
                 (sp_WithPageSize 100
                    (sp_WithQuery "service:none" NewSearchSLOOptionalParameters)))])).
  - reflexivity.
  - vm_compute. reflexivity.
Defined.

End SLOReads.

(** ** The structured filters and the identities *)

Section FiltersAndIdentities.

Lemma GetOk_string_set (d : ResourceData) (key s : string) :
  GetOk d key = (VString s, true) -> s <> "".
Proof.
  unfold GetOk. destruct (rd_values d !! key) as [v|]; [|discriminate].
  intros [= -> Hz]. cbn in Hz. intros ->. discriminate.
Qed.

(** X19.  Whenever the structured filters are read, the request parameters
    hold exactly the values the identity is computed from (ids, name, tags
    and metrics query), nothing is changed, and a name, tags or metrics query
    that is passed on is never the empty string: an empty filter counts as
    not set. *)
Theorem read_filters_parameters_mirror_identity
    (d : ResourceData) (w w' : World)
    (ids nameQuery tagsQuery metricsQuery : option string)
    (reqParams : ListSLOsOptionalParameters) :
  SLOFilters.read_filters d w
  = (Val (ids, nameQuery, tagsQuery, metricsQuery, reqParams), w') ->
  w' = w
  /\ lp_Ids reqParams = ids
  /\ lp_Query reqParams = nameQuery
  /\ lp_TagsQuery reqParams = tagsQuery
  /\ lp_MetricsQuery reqParams = metricsQuery
  /\ nameQuery <> Some ""
  /\ tagsQuery <> Some ""
  /\ metricsQuery <> Some "".
Proof.
  unfold SLOFilters.read_filters, bind.
  destruct (GetOk d "ids") as [v1 ok1]; destruct ok1;
    [destruct v1; cbn [assert_list ret panic]; try discriminate|]; cbn [ret];
  (destruct (GetOk d "name_query") as [v2 ok2] eqn:E2; destruct ok2;
    [destruct v2; cbn [assert_string ret panic]; try discriminate|]; cbn [ret]);
  (destruct (GetOk d "tags_query") as [v3 ok3] eqn:E3; destruct ok3;
    [destruct v3; cbn [assert_string ret panic]; try discriminate|]; cbn [ret]);
  (destruct (GetOk d "metrics_query") as [v4 ok4] eqn:E4; destruct ok4;
    [destruct v4; cbn [assert_string ret panic]; try discriminate|]; cbn [ret]);
  intros [= <- <- <- <- <- <-];
  repeat split; try discriminate;
  intros [= ->];
  match goal with
  | H : GetOk d _ = (VString "", true) |- _ => exact (GetOk_string_set _ _ _ H eq_refl)
  end.
Qed.

Lemma read_filters_parameters_mirror_identity_witness :
  lp_Ids (lp_WithQuery "b" (lp_WithIds "a" NewListSLOsOptionalParameters)) = Some "a"
  /\ lp_Query (lp_WithQuery "b" (lp_WithIds "a" NewListSLOsOptionalParameters)) = Some "b"
  /\ lp_TagsQuery (lp_WithQuery "b" (lp_WithIds "a" NewListSLOsOptionalParameters)) = None
  /\ lp_MetricsQuery (lp_WithQuery "b" (lp_WithIds "a" NewListSLOsOptionalParameters))
     = None.
Proof.
  destruct (read_filters_parameters_mirror_identity d_ids_a_name_b
              (mkWorld d_ids_a_name_b []) (mkWorld d_ids_a_name_b [])
              (Some "a") (Some "b") None None
              (lp_WithQuery "b" (lp_WithIds "a" NewListSLOsOptionalParameters)))
    as (_ & H1 & H2 & H3 & H4 & _); [reflexivity|].
  split; [exact H1 | split; [exact H2 | split; [exact H3 | exact H4]]].
Defined.

(** *** The shape of an identity *)

Lemma compress_length (h block : list Z) :
  length h = 8%nat -> length (SHA256.compress h block) = 8%nat.
Proof.
  intros Hh. unfold SHA256.compress. rewrite length_zip_with, Hh. reflexivity.
Qed.

Lemma blocks_length (n : nat) :
  forall h l, length h = 8%nat -> length (SHA256.blocks n h l) = 8%nat.
Proof.
  induction n as [|n IH]; intros h l Hh; [exact Hh|].
  cbn [SHA256.blocks]. apply IH, compress_length, Hh.
Qed.

Lemma be_bytes_length (n : nat) (x : Z) : length (SHA256.be_bytes n x) = n.
Proof. induction n as [|n IH]; cbn [SHA256.be_bytes length]; [|rewrite IH]; reflexivity. Qed.

Lemma be_bytes_range (n : nat) (x : Z) :
  Forall (fun b => 0 <= b < 256) (SHA256.be_bytes n x).
Proof.
  induction n as [|n IH]; cbn [SHA256.be_bytes]; constructor; [|exact IH].
  apply Z.mod_pos_bound. lia.
Qed.

Lemma Sum256_length (msg : list Z) : length (SHA256.Sum256 msg) = 32%nat.
Proof.
  unfold SHA256.Sum256.
  assert (H : forall hs : list Z,
            length (mjoin (SHA256.be_bytes 4 <$> hs)) = (4 * length hs)%nat).
  { induction hs as [|x hs IH]; [reflexivity|].
    rewrite fmap_cons. change (mjoin (?a :: ?r)) with (a ++ mjoin r).
    rewrite length_app, be_bytes_length, IH. cbn [length]. lia. }
  rewrite H, blocks_length; reflexivity.
Qed.

Lemma Sum256_range (msg : list Z) : Forall (fun b => 0 <= b < 256) (SHA256.Sum256 msg).
Proof.
  unfold SHA256.Sum256.
  induction (SHA256.blocks _ SHA256.H0 (SHA256.pad msg)) as [|x hs IH]; [constructor|].
  rewrite fmap_cons. change (mjoin (?a :: ?r)) with (a ++ mjoin r).
  apply Forall_app. split; [apply be_bytes_range | exact IH].
Qed.

Lemma hex_digit_is_hex (n : Z) : 0 <= n < 16 -> is_hex_digit (hex_digit n) = true.
Proof.
  intros Hn. unfold is_hex_digit, hex_digit.
  rewrite N_ascii_embedding by (destruct (decide (n < 10)); lia).
  rewrite Z2N.id by (destruct (decide (n < 10)); lia).
  apply orb_true_iff.
  destruct (decide (n < 10)); [left | right];
    apply andb_true_iff; split; apply Z.leb_le; lia.
Qed.

Lemma hex_shape (bytes : list Z) :
  Forall (fun b => 0 <= b < 256) bytes ->
  String.length (hex bytes) = (2 * length bytes)%nat
  /\ all_chars is_hex_digit (hex bytes) = true.
Proof.
  induction 1 as [|b bytes Hb _ [IHl IHc]]; [split; reflexivity|].
  cbn [hex String.length all_chars length]. rewrite IHl, IHc.
  split; [lia|].
  rewrite !hex_digit_is_hex; [reflexivity | |].
  - apply Z.mod_pos_bound. lia.
  - split; [apply Z.div_pos; lia | apply Z.div_lt_upper_bound; lia].
Qed.

Lemma sha256_hex_shape (s : string) :
  String.length (sha256_hex s) = 64%nat /\ all_chars is_hex_digit (sha256_hex s) = true.
Proof.
  unfold sha256_hex.
  destruct (hex_shape _ (Sum256_range (bytes_of_string s))) as [Hl Hc].
  rewrite Hl, Sum256_length. split; [reflexivity | exact Hc].
Qed.

(** X20.  Every identity the SLO data sources compute is a string of exactly
    64 lower-case hexadecimal digits, whatever the filters or the query: for
    the structured filters, for the ["q"] search, and for the ["query"]
    variant (which both return for every non-nil pointer). *)
Theorem slo_identities_are_64_hex_digits :
  (forall ids nameQuery tagsQuery metricsQuery,
     let id := SLOFilters.computeSLOsDataSourceIDByListEndpointCall
                 ids nameQuery tagsQuery metricsQuery in
     String.length id = 64%nat /\ all_chars is_hex_digit id = true)
  /\ (forall q w, exists id,
        SLOFilters.computeSLOsDataSourceIDbySearchEndpointCall (Some q) w = (Val id, w)
        /\ String.length id = 64%nat /\ all_chars is_hex_digit id = true)
  /\ (forall query w, exists id,
        SLOQuery.computeSLOsDataSourceID (Some query) w = (Val id, w)
        /\ String.length id = 64%nat /\ all_chars is_hex_digit id = true).
Proof.
  split; [|split].
  - intros. apply sha256_hex_shape.
  - intros q w. exists (sha256_hex q). split; [reflexivity | apply sha256_hex_shape].
  - intros q w. exists (sha256_hex q). split; [reflexivity | apply sha256_hex_shape].
Qed.

End FiltersAndIdentities.

Section SLOReadErrors.

(** X21.  In the data source with ["q"]: when ["q"] is set to a string and
    the search returns an error diagnostic (a failed call), the read returns
    the diagnostics of the search as they are and changes nothing: no rows
    are stored and no identity is set. *)
Theorem read_with_q_search_error_sets_nothing
    (fuel : nat) (api : ApiInstances) (d : ResourceData) (calls : list ApiCall)
    (q : string) (b : bool) (diags : Diagnostics) (slos : list value) (w1 : World) :
  GetOk d "q" = (VString q, true) ->
  fst (SLOFilters.read_errorOnNoResults d (mkWorld d calls)) = Val b ->
  SLOFilters.searchSLO fuel api (sp_WithQuery q NewSearchSLOOptionalParameters)
    (mkWorld d calls) = (Val (diags, slos), w1) ->
  HasError diags = true ->
  SLOFilters.dataSourceDatadogServiceLevelObjectivesRead fuel api (mkWorld d calls)
  = (Val diags, w1)
  /\ w_data w1 = d.
Proof.
  intros Hq Hb Hs Hd.
  destruct (SLOFilters.read_errorOnNoResults d (mkWorld d calls)) as [o w0] eqn:Ee.
  cbn in Hb. subst o.
  destruct (read_errorOnNoResults_true _ _ _ _ Ee) as [-> ->].
  split.
  - unfold SLOFilters.dataSourceDatadogServiceLevelObjectivesRead.
    unfold bind at 1. cbn [get_data w_data].
    rewrite (bind_Val _ _ _ _ _ Ee).
    assert (Hrq : SLOFilters.read_query fuel api d (mkWorld d calls)
                  = (Val (inl diags), w1)).
    { unfold SLOFilters.read_query. rewrite Hq. cbn [assert_string].
      unfold bind at 1. cbn [ret]. rewrite (bind_Val _ _ _ _ _ Hs). rewrite Hd.
      reflexivity. }
    rewrite (bind_Val _ _ _ _ _ Hrq). reflexivity.
  - pose proof (searchSLO_loop_trace fuel api
                  (sp_WithPageSize 100 (sp_WithQuery q NewSearchSLOOptionalParameters))
                  0 [] [] (mkWorld d calls)) as (n & _ & Hn).
    unfold SLOFilters.searchSLO in Hs. rewrite Hs in Hn. cbn in Hn. rewrite Hn.
    reflexivity.
Qed.

Lemma read_with_q_search_error_sets_nothing_witness :
  let rp := sp_WithPageSize 100 (sp_WithQuery "env:prod" NewSearchSLOOptionalParameters) in
  SLOFilters.dataSourceDatadogServiceLevelObjectivesRead 5 flaky_api (mkWorld d_q_only [])
  = (Val (TranslateClientErrorDiag "service unavailable" (Some (mkHttpResponse 503))
            "error querying service level objectives"),
     mkWorld d_q_only (page_calls rp 0 2))
  /\ w_data (mkWorld d_q_only (page_calls rp 0 2)) = d_q_only.
Proof.
  intros rp.
  apply (read_with_q_search_error_sets_nothing 5 flaky_api d_q_only [] "env:prod" true
           (TranslateClientErrorDiag "service unavailable" (Some (mkHttpResponse 503))
              "error querying service level objectives")
           [] (mkWorld d_q_only (page_calls rp 0 2))).
  - reflexivity.
  - reflexivity.
  - vm_compute. reflexivity.
  - reflexivity.
Defined.

End SLOReadErrors.
